(** * Abuse scoring and metric aggregation of the YouTube abuse dashboard

    A shallow embedding of the scoring core of [01_data_collection.py]:
    [analyze_comment_for_abuse], [calculate_velocity_metrics],
    [detect_coordinated_activity] and [store_abuse_metrics], together with
    the fragment of the Python runtime they rely on.

    Python's [float] is IEEE 754 binary64, and so is Rocq's primitive
    [float]: every arithmetic step below is the very operation the
    interpreter performs, so the numbers computed here are bit for bit the
    numbers the program stores. *)

From Stdlib Require Import ZArith List String Ascii Bool Lia.
From Stdlib Require Import Sorted Permutation.
From Stdlib Require Import Floats Uint63.
Import ListNotations.

Set Warnings "-inexact-float".

Local Open Scope string_scope.
Local Open Scope list_scope.
Local Open Scope Z_scope.

(* ================================================================== *)
(** ** Unicode character data                                           *)
(* ================================================================== *)

(** The character properties that [str.isupper] and [str.lower] read, from
    the Unicode Character Database 14.0.0 (the one of CPython 3.11). *)
Module Unicode.

(** The code points with the property Uppercase: [(first, last, step)]
    stands for [first], [first + step], ..., [last]. *)
Definition uppercase : list (Z * Z * Z) :=
  [ (65, 90, 1); (192, 214, 1); (216, 222, 1); (256, 310, 2); (313, 327, 2);
    (330, 376, 2); (377, 381, 2); (385, 386, 1); (388, 390, 2); (391, 395, 2);
    (394, 394, 1); (398, 401, 1); (403, 404, 1); (406, 408, 1); (412, 413, 1);
    (415, 416, 1); (418, 422, 2); (423, 425, 2); (428, 430, 2); (431, 439, 2);
    (434, 434, 1); (440, 440, 1); (444, 444, 1); (452, 452, 1); (455, 455, 1);
    (458, 458, 1); (461, 475, 2); (478, 494, 2); (497, 497, 1); (500, 562, 2);
    (503, 503, 1); (570, 571, 1); (573, 574, 1); (577, 581, 2); (580, 590, 2);
    (880, 882, 2); (886, 886, 1); (895, 895, 1); (902, 910, 2); (905, 905, 1);
    (911, 939, 2); (914, 928, 2); (932, 938, 2); (975, 975, 1); (978, 980, 1);
    (984, 1006, 2); (1012, 1012, 1); (1015, 1017, 2); (1018, 1018, 1);
    (1021, 1071, 1); (1120, 1152, 2); (1162, 1216, 2); (1217, 1229, 2);
    (1232, 1326, 2); (1329, 1366, 1); (4256, 4293, 1); (4295, 4295, 1);
    (4301, 4301, 1); (5024, 5109, 1); (7312, 7354, 1); (7357, 7359, 1);
    (7680, 7828, 2); (7838, 7934, 2); (7944, 7951, 1); (7960, 7965, 1);
    (7976, 7983, 1); (7992, 7999, 1); (8008, 8013, 1); (8025, 8031, 2);
    (8040, 8047, 1); (8120, 8123, 1); (8136, 8139, 1); (8152, 8155, 1);
    (8168, 8172, 1); (8184, 8187, 1); (8450, 8450, 1); (8455, 8455, 1);
    (8459, 8461, 1); (8464, 8466, 1); (8469, 8469, 1); (8473, 8477, 1);
    (8484, 8492, 2); (8491, 8493, 2); (8496, 8499, 1); (8510, 8511, 1);
    (8517, 8517, 1); (8544, 8559, 1); (8579, 8579, 1); (9398, 9423, 1);
    (11264, 11311, 1); (11360, 11364, 2); (11363, 11363, 1);
    (11367, 11375, 2); (11374, 11378, 2); (11381, 11381, 1);
    (11390, 11490, 2); (11391, 11391, 1); (11499, 11501, 2);
    (11506, 11506, 1); (42560, 42604, 2); (42624, 42650, 2);
    (42786, 42798, 2); (42802, 42862, 2); (42873, 42877, 2);
    (42878, 42886, 2); (42891, 42893, 2); (42896, 42898, 2);
    (42902, 42950, 2); (42923, 42925, 2); (42929, 42931, 2);
    (42949, 42953, 2); (42960, 42960, 1); (42966, 42968, 2);
    (42997, 42997, 1); (65313, 65338, 1); (66560, 66599, 1);
    (66736, 66771, 1); (66928, 66964, 2); (66929, 66937, 2);
    (66941, 66953, 2); (66957, 66961, 2); (66965, 66965, 1);
    (68736, 68786, 1); (71840, 71871, 1); (93760, 93791, 1);
    (119808, 119833, 1); (119860, 119885, 1); (119912, 119937, 1);
    (119964, 119966, 2); (119967, 119967, 1); (119970, 119970, 1);
    (119973, 119974, 1); (119977, 119980, 1); (119982, 119989, 1);
    (120016, 120041, 1); (120068, 120069, 1); (120071, 120074, 1);
    (120077, 120084, 1); (120086, 120092, 1); (120120, 120121, 1);
    (120123, 120126, 1); (120128, 120132, 1); (120134, 120134, 1);
    (120138, 120144, 1); (120172, 120197, 1); (120224, 120249, 1);
    (120276, 120301, 1); (120328, 120353, 1); (120380, 120405, 1);
    (120432, 120457, 1); (120488, 120512, 1); (120546, 120570, 1);
    (120604, 120628, 1); (120662, 120686, 1); (120720, 120744, 1);
    (120778, 120778, 1); (125184, 125217, 1); (127280, 127305, 1);
    (127312, 127337, 1); (127344, 127369, 1) ].

(** The simple lowercase mapping: [(first, last, step, d)] maps each of
    [first], [first + step], ..., [last] to itself plus [d]. *)
Definition lowercase : list (Z * Z * Z * Z) :=
  [ (65, 90, 1, 32); (192, 214, 1, 32); (216, 222, 1, 32); (256, 302, 2, 1);
    (306, 310, 2, 1); (313, 327, 2, 1); (330, 374, 2, 1);
    (376, 376, 1, (-121)); (377, 381, 2, 1); (385, 385, 1, 210);
    (386, 388, 2, 1); (390, 390, 1, 206); (391, 391, 1, 1);
    (393, 394, 1, 205); (395, 395, 1, 1); (398, 398, 1, 79);
    (399, 399, 1, 202); (400, 400, 1, 203); (401, 401, 1, 1);
    (403, 403, 1, 205); (404, 404, 1, 207); (406, 406, 1, 211);
    (407, 407, 1, 209); (408, 408, 1, 1); (412, 412, 1, 211);
    (413, 413, 1, 213); (415, 415, 1, 214); (416, 420, 2, 1);
    (422, 422, 1, 218); (423, 423, 1, 1); (425, 425, 1, 218);
    (428, 428, 1, 1); (430, 430, 1, 218); (431, 431, 1, 1);
    (433, 434, 1, 217); (435, 437, 2, 1); (439, 439, 1, 219);
    (440, 440, 1, 1); (444, 444, 1, 1); (452, 452, 1, 2); (453, 453, 1, 1);
    (455, 455, 1, 2); (456, 456, 1, 1); (458, 458, 1, 2); (459, 475, 2, 1);
    (478, 494, 2, 1); (497, 497, 1, 2); (498, 500, 2, 1);
    (502, 502, 1, (-97)); (503, 503, 1, (-56)); (504, 542, 2, 1);
    (544, 544, 1, (-130)); (546, 562, 2, 1); (570, 570, 1, 10795);
    (571, 571, 1, 1); (573, 573, 1, (-163)); (574, 574, 1, 10792);
    (577, 577, 1, 1); (579, 579, 1, (-195)); (580, 580, 1, 69);
    (581, 581, 1, 71); (582, 590, 2, 1); (880, 882, 2, 1); (886, 886, 1, 1);
    (895, 895, 1, 116); (902, 902, 1, 38); (904, 906, 1, 37);
    (908, 908, 1, 64); (910, 911, 1, 63); (913, 929, 1, 32);
    (932, 939, 1, 32); (975, 975, 1, 8); (984, 1006, 2, 1);
    (1012, 1012, 1, (-60)); (1015, 1015, 1, 1); (1017, 1017, 1, (-7));
    (1018, 1018, 1, 1); (1021, 1023, 1, (-130)); (1024, 1039, 1, 80);
    (1040, 1071, 1, 32); (1120, 1152, 2, 1); (1162, 1214, 2, 1);
    (1216, 1216, 1, 15); (1217, 1229, 2, 1); (1232, 1326, 2, 1);
    (1329, 1366, 1, 48); (4256, 4293, 1, 7264); (4295, 4295, 1, 7264);
    (4301, 4301, 1, 7264); (5024, 5103, 1, 38864); (5104, 5109, 1, 8);
    (7312, 7354, 1, (-3008)); (7357, 7359, 1, (-3008)); (7680, 7828, 2, 1);
    (7838, 7838, 1, (-7615)); (7840, 7934, 2, 1); (7944, 7951, 1, (-8));
    (7960, 7965, 1, (-8)); (7976, 7983, 1, (-8)); (7992, 7999, 1, (-8));
    (8008, 8013, 1, (-8)); (8025, 8031, 2, (-8)); (8040, 8047, 1, (-8));
    (8072, 8079, 1, (-8)); (8088, 8095, 1, (-8)); (8104, 8111, 1, (-8));
    (8120, 8121, 1, (-8)); (8122, 8123, 1, (-74)); (8124, 8124, 1, (-9));
    (8136, 8139, 1, (-86)); (8140, 8140, 1, (-9)); (8152, 8153, 1, (-8));
    (8154, 8155, 1, (-100)); (8168, 8169, 1, (-8)); (8170, 8171, 1, (-112));
    (8172, 8172, 1, (-7)); (8184, 8185, 1, (-128)); (8186, 8187, 1, (-126));
    (8188, 8188, 1, (-9)); (8486, 8486, 1, (-7517)); (8490, 8490, 1, (-8383));
    (8491, 8491, 1, (-8262)); (8498, 8498, 1, 28); (8544, 8559, 1, 16);
    (8579, 8579, 1, 1); (9398, 9423, 1, 26); (11264, 11311, 1, 48);
    (11360, 11360, 1, 1); (11362, 11362, 1, (-10743));
    (11363, 11363, 1, (-3814)); (11364, 11364, 1, (-10727));
    (11367, 11371, 2, 1); (11373, 11373, 1, (-10780));
    (11374, 11374, 1, (-10749)); (11375, 11375, 1, (-10783));
    (11376, 11376, 1, (-10782)); (11378, 11378, 1, 1); (11381, 11381, 1, 1);
    (11390, 11391, 1, (-10815)); (11392, 11490, 2, 1); (11499, 11501, 2, 1);
    (11506, 11506, 1, 1); (42560, 42604, 2, 1); (42624, 42650, 2, 1);
    (42786, 42798, 2, 1); (42802, 42862, 2, 1); (42873, 42875, 2, 1);
    (42877, 42877, 1, (-35332)); (42878, 42886, 2, 1); (42891, 42891, 1, 1);
    (42893, 42893, 1, (-42280)); (42896, 42898, 2, 1); (42902, 42920, 2, 1);
    (42922, 42922, 1, (-42308)); (42923, 42923, 1, (-42319));
    (42924, 42924, 1, (-42315)); (42925, 42925, 1, (-42305));
    (42926, 42926, 1, (-42308)); (42928, 42928, 1, (-42258));
    (42929, 42929, 1, (-42282)); (42930, 42930, 1, (-42261));
    (42931, 42931, 1, 928); (42932, 42946, 2, 1); (42948, 42948, 1, (-48));
    (42949, 42949, 1, (-42307)); (42950, 42950, 1, (-35384));
    (42951, 42953, 2, 1); (42960, 42960, 1, 1); (42966, 42968, 2, 1);
    (42997, 42997, 1, 1); (65313, 65338, 1, 32); (66560, 66599, 1, 40);
    (66736, 66771, 1, 40); (66928, 66964, 2, 39); (66929, 66937, 2, 39);
    (66941, 66953, 2, 39); (66957, 66961, 2, 39); (66965, 66965, 1, 39);
    (68736, 68786, 1, 64); (71840, 71871, 1, 32); (93760, 93791, 1, 32);
    (125184, 125217, 1, 34) ].

(** The code points with the property Case_Ignorable. *)
Definition case_ignorable : list (Z * Z * Z) :=
  [ (39, 39, 1); (46, 46, 1); (58, 58, 1); (94, 96, 2); (168, 168, 1);
    (173, 175, 2); (180, 180, 1); (183, 184, 1); (688, 879, 1); (884, 885, 1);
    (890, 890, 1); (900, 901, 1); (903, 903, 1); (1155, 1161, 1);
    (1369, 1369, 1); (1375, 1375, 1); (1425, 1469, 1); (1471, 1473, 2);
    (1474, 1476, 2); (1477, 1479, 2); (1524, 1524, 1); (1536, 1541, 1);
    (1552, 1562, 1); (1564, 1564, 1); (1600, 1600, 1); (1611, 1631, 1);
    (1648, 1648, 1); (1750, 1757, 1); (1759, 1768, 1); (1770, 1773, 1);
    (1807, 1809, 2); (1840, 1866, 1); (1958, 1968, 1); (2027, 2037, 1);
    (2042, 2042, 1); (2045, 2045, 1); (2070, 2093, 1); (2137, 2139, 1);
    (2184, 2184, 1); (2192, 2193, 1); (2200, 2207, 1); (2249, 2306, 1);
    (2362, 2364, 2); (2369, 2376, 1); (2381, 2381, 1); (2385, 2391, 1);
    (2402, 2403, 1); (2417, 2417, 1); (2433, 2433, 1); (2492, 2492, 1);
    (2497, 2500, 1); (2509, 2509, 1); (2530, 2531, 1); (2558, 2558, 1);
    (2561, 2562, 1); (2620, 2620, 1); (2625, 2626, 1); (2631, 2632, 1);
    (2635, 2637, 1); (2641, 2641, 1); (2672, 2673, 1); (2677, 2677, 1);
    (2689, 2690, 1); (2748, 2748, 1); (2753, 2757, 1); (2759, 2760, 1);
    (2765, 2765, 1); (2786, 2787, 1); (2810, 2815, 1); (2817, 2817, 1);
    (2876, 2876, 1); (2879, 2883, 2); (2882, 2884, 2); (2893, 2893, 1);
    (2901, 2902, 1); (2914, 2915, 1); (2946, 2946, 1); (3008, 3008, 1);
    (3021, 3021, 1); (3072, 3072, 1); (3076, 3076, 1); (3132, 3136, 2);
    (3135, 3135, 1); (3142, 3148, 2); (3143, 3143, 1); (3147, 3149, 2);
    (3157, 3158, 1); (3170, 3171, 1); (3201, 3201, 1); (3260, 3260, 1);
    (3263, 3263, 1); (3270, 3270, 1); (3276, 3277, 1); (3298, 3299, 1);
    (3328, 3329, 1); (3387, 3388, 1); (3393, 3396, 1); (3405, 3405, 1);
    (3426, 3427, 1); (3457, 3457, 1); (3530, 3530, 1); (3538, 3540, 1);
    (3542, 3542, 1); (3633, 3633, 1); (3636, 3642, 1); (3654, 3662, 1);
    (3761, 3761, 1); (3764, 3772, 1); (3782, 3788, 2); (3785, 3789, 2);
    (3864, 3865, 1); (3893, 3897, 2); (3953, 3966, 1); (3968, 3972, 1);
    (3974, 3975, 1); (3981, 4027, 2); (3982, 3990, 2); (3994, 4028, 2);
    (4038, 4038, 1); (4141, 4144, 1); (4146, 4151, 1); (4153, 4154, 1);
    (4157, 4158, 1); (4184, 4185, 1); (4190, 4192, 1); (4209, 4212, 1);
    (4226, 4226, 1); (4229, 4230, 1); (4237, 4237, 1); (4253, 4253, 1);
    (4348, 4348, 1); (4957, 4959, 1); (5906, 5908, 1); (5938, 5939, 1);
    (5970, 5971, 1); (6002, 6003, 1); (6068, 6069, 1); (6071, 6077, 1);
    (6086, 6086, 1); (6089, 6099, 1); (6103, 6103, 1); (6109, 6109, 1);
    (6155, 6159, 1); (6211, 6211, 1); (6277, 6278, 1); (6313, 6313, 1);
    (6432, 6434, 1); (6439, 6440, 1); (6450, 6450, 1); (6457, 6459, 1);
    (6679, 6680, 1); (6683, 6683, 1); (6742, 6754, 2); (6745, 6749, 2);
    (6757, 6764, 1); (6771, 6780, 1); (6783, 6783, 1); (6823, 6823, 1);
    (6832, 6862, 1); (6912, 6915, 1); (6964, 6972, 2); (6967, 6969, 2);
    (6978, 6978, 1); (7019, 7027, 1); (7040, 7041, 1); (7074, 7077, 1);
    (7080, 7081, 1); (7083, 7085, 1); (7142, 7144, 2); (7145, 7145, 1);
    (7149, 7153, 2); (7152, 7152, 1); (7212, 7219, 1); (7222, 7223, 1);
    (7288, 7293, 1); (7376, 7400, 2); (7377, 7377, 1); (7381, 7391, 2);
    (7395, 7399, 2); (7405, 7405, 1); (7412, 7412, 1); (7416, 7417, 1);
    (7468, 7530, 1); (7544, 7544, 1); (7579, 7679, 1); (8125, 8129, 2);
    (8128, 8128, 1); (8141, 8143, 1); (8157, 8159, 1); (8173, 8175, 1);
    (8189, 8190, 1); (8203, 8207, 1); (8216, 8217, 1); (8228, 8228, 1);
    (8231, 8231, 1); (8234, 8238, 1); (8288, 8302, 2); (8289, 8291, 2);
    (8295, 8305, 2); (8319, 8319, 1); (8336, 8348, 1); (8400, 8432, 1);
    (11388, 11389, 1); (11503, 11505, 1); (11631, 11631, 1);
    (11647, 11647, 1); (11744, 11775, 1); (11823, 11823, 1);
    (12293, 12293, 1); (12330, 12333, 1); (12337, 12341, 1);
    (12347, 12347, 1); (12441, 12446, 1); (12540, 12542, 1);
    (40981, 40981, 1); (42232, 42237, 1); (42508, 42508, 1);
    (42607, 42610, 1); (42612, 42621, 1); (42623, 42623, 1);
    (42652, 42655, 1); (42736, 42737, 1); (42752, 42785, 1);
    (42864, 42864, 1); (42888, 42890, 1); (42994, 42996, 1);
    (43000, 43001, 1); (43010, 43010, 1); (43014, 43014, 1);
    (43019, 43019, 1); (43045, 43046, 1); (43052, 43052, 1);
    (43204, 43205, 1); (43232, 43249, 1); (43263, 43263, 1);
    (43302, 43309, 1); (43335, 43345, 1); (43392, 43394, 1);
    (43443, 43443, 1); (43446, 43449, 1); (43452, 43453, 1);
    (43471, 43471, 1); (43493, 43494, 1); (43561, 43566, 1);
    (43569, 43570, 1); (43573, 43574, 1); (43587, 43587, 1);
    (43596, 43596, 1); (43632, 43632, 1); (43644, 43644, 1);
    (43696, 43700, 2); (43699, 43699, 1); (43703, 43704, 1);
    (43710, 43711, 1); (43713, 43713, 1); (43741, 43741, 1);
    (43756, 43757, 1); (43763, 43764, 1); (43766, 43766, 1);
    (43867, 43871, 1); (43881, 43883, 1); (44005, 44005, 1);
    (44008, 44008, 1); (44013, 44013, 1); (64286, 64286, 1);
    (64434, 64450, 1); (65024, 65039, 1); (65043, 65043, 1);
    (65056, 65071, 1); (65106, 65106, 1); (65109, 65109, 1);
    (65279, 65279, 1); (65287, 65287, 1); (65294, 65294, 1);
    (65306, 65306, 1); (65342, 65344, 2); (65392, 65392, 1);
    (65438, 65439, 1); (65507, 65507, 1); (65529, 65531, 1);
    (66045, 66045, 1); (66272, 66272, 1); (66422, 66426, 1);
    (67456, 67461, 1); (67463, 67504, 1); (67506, 67514, 1);
    (68097, 68099, 1); (68101, 68102, 1); (68108, 68111, 1);
    (68152, 68154, 1); (68159, 68159, 1); (68325, 68326, 1);
    (68900, 68903, 1); (69291, 69292, 1); (69446, 69456, 1);
    (69506, 69509, 1); (69633, 69633, 1); (69688, 69702, 1);
    (69744, 69744, 1); (69747, 69748, 1); (69759, 69761, 1);
    (69811, 69814, 1); (69817, 69818, 1); (69821, 69821, 1);
    (69826, 69826, 1); (69837, 69837, 1); (69888, 69890, 1);
    (69927, 69939, 2); (69928, 69930, 2); (69934, 69940, 2);
    (70003, 70003, 1); (70016, 70017, 1); (70070, 70078, 1);
    (70089, 70092, 1); (70095, 70095, 1); (70191, 70193, 1);
    (70196, 70198, 2); (70199, 70199, 1); (70206, 70206, 1);
    (70367, 70367, 1); (70371, 70378, 1); (70400, 70401, 1);
    (70459, 70460, 1); (70464, 70464, 1); (70502, 70508, 1);
    (70512, 70516, 1); (70712, 70719, 1); (70722, 70724, 1);
    (70726, 70726, 1); (70750, 70750, 1); (70835, 70840, 1);
    (70842, 70842, 1); (70847, 70848, 1); (70850, 70851, 1);
    (71090, 71093, 1); (71100, 71101, 1); (71103, 71104, 1);
    (71132, 71133, 1); (71219, 71226, 1); (71229, 71231, 2);
    (71232, 71232, 1); (71339, 71341, 2); (71344, 71349, 1);
    (71351, 71351, 1); (71453, 71455, 1); (71458, 71461, 1);
    (71463, 71467, 1); (71727, 71735, 1); (71737, 71738, 1);
    (71995, 71996, 1); (71998, 71998, 1); (72003, 72003, 1);
    (72148, 72151, 1); (72154, 72155, 1); (72160, 72160, 1);
    (72193, 72202, 1); (72243, 72248, 1); (72251, 72254, 1);
    (72263, 72263, 1); (72273, 72278, 1); (72281, 72283, 1);
    (72330, 72342, 1); (72344, 72345, 1); (72752, 72758, 1);
    (72760, 72765, 1); (72767, 72767, 1); (72850, 72871, 1);
    (72874, 72880, 1); (72882, 72883, 1); (72885, 72886, 1);
    (73009, 73014, 1); (73018, 73020, 2); (73021, 73031, 2);
    (73024, 73028, 2); (73104, 73105, 1); (73109, 73111, 2);
    (73459, 73460, 1); (78896, 78904, 1); (92912, 92916, 1);
    (92976, 92982, 1); (92992, 92995, 1); (94031, 94031, 1);
    (94095, 94111, 1); (94176, 94177, 1); (94179, 94180, 1);
    (110576, 110579, 1); (110581, 110587, 1); (110589, 110590, 1);
    (113821, 113822, 1); (113824, 113827, 1); (118528, 118573, 1);
    (118576, 118598, 1); (119143, 119145, 1); (119155, 119170, 1);
    (119173, 119179, 1); (119210, 119213, 1); (119362, 119364, 1);
    (121344, 121398, 1); (121403, 121452, 1); (121461, 121461, 1);
    (121476, 121476, 1); (121499, 121519, 2); (121500, 121502, 2);
    (121506, 121518, 2); (122880, 122904, 2); (122881, 122885, 2);
    (122889, 122903, 2); (122907, 122913, 1); (122915, 122916, 1);
    (122918, 122922, 1); (123184, 123197, 1); (123566, 123566, 1);
    (123628, 123631, 1); (125136, 125142, 1); (125252, 125259, 1);
    (127995, 127999, 1); (917505, 917505, 1); (917536, 917631, 1);
    (917760, 917999, 1) ].

(** The code points with the property Cased that are not Case_Ignorable. *)
Definition cased : list (Z * Z * Z) :=
  [ (65, 90, 1); (97, 122, 1); (170, 170, 1); (181, 181, 1); (186, 186, 1);
    (192, 446, 2); (193, 213, 2); (217, 245, 2); (249, 441, 2); (445, 447, 2);
    (452, 659, 1); (661, 687, 1); (880, 883, 1); (886, 887, 1); (891, 893, 1);
    (895, 895, 1); (902, 928, 2); (905, 905, 1); (911, 1153, 2);
    (932, 1012, 2); (1016, 1152, 2); (1162, 1327, 1); (1329, 1366, 1);
    (1376, 1416, 1); (4256, 4293, 1); (4295, 4295, 1); (4301, 4301, 1);
    (4304, 4346, 1); (4349, 4351, 1); (5024, 5109, 1); (5112, 5117, 1);
    (7296, 7304, 1); (7312, 7354, 1); (7357, 7359, 1); (7424, 7467, 1);
    (7531, 7577, 2); (7532, 7542, 2); (7546, 7578, 2); (7680, 7957, 1);
    (7960, 7965, 1); (7968, 8005, 1); (8008, 8013, 1); (8016, 8023, 1);
    (8025, 8061, 2); (8032, 8060, 2); (8064, 8116, 1); (8118, 8124, 1);
    (8126, 8126, 1); (8130, 8140, 2); (8131, 8131, 1); (8135, 8139, 2);
    (8144, 8147, 1); (8150, 8155, 1); (8160, 8172, 1); (8178, 8188, 2);
    (8179, 8179, 1); (8183, 8187, 2); (8450, 8450, 1); (8455, 8455, 1);
    (8458, 8467, 1); (8469, 8469, 1); (8473, 8477, 1); (8484, 8492, 2);
    (8491, 8499, 2); (8496, 8500, 2); (8505, 8505, 1); (8508, 8511, 1);
    (8517, 8521, 1); (8526, 8526, 1); (8544, 8575, 1); (8579, 8580, 1);
    (9398, 9449, 1); (11264, 11387, 1); (11390, 11492, 1); (11499, 11502, 1);
    (11506, 11507, 1); (11520, 11557, 1); (11559, 11559, 1);
    (11565, 11565, 1); (42560, 42605, 1); (42624, 42651, 1);
    (42786, 42863, 1); (42865, 42887, 1); (42891, 42894, 1);
    (42896, 42954, 1); (42960, 42961, 1); (42963, 42969, 2);
    (42966, 42968, 2); (42997, 42998, 1); (43002, 43002, 1);
    (43824, 43866, 1); (43872, 43880, 1); (43888, 43967, 1);
    (64256, 64262, 1); (64275, 64279, 1); (65313, 65338, 1);
    (65345, 65370, 1); (66560, 66639, 1); (66736, 66771, 1);
    (66776, 66811, 1); (66928, 66964, 2); (66929, 66937, 2);
    (66941, 66953, 2); (66957, 66961, 2); (66965, 67003, 2);
    (66968, 66976, 2); (66980, 66992, 2); (66996, 67000, 2);
    (67004, 67004, 1); (68736, 68786, 1); (68800, 68850, 1);
    (71840, 71903, 1); (93760, 93823, 1); (119808, 119892, 1);
    (119894, 119964, 1); (119966, 119967, 1); (119970, 119970, 1);
    (119973, 119974, 1); (119977, 119980, 1); (119982, 119993, 1);
    (119995, 120073, 2); (119998, 120002, 2); (120006, 120068, 2);
    (120072, 120074, 2); (120077, 120084, 1); (120086, 120120, 2);
    (120087, 120091, 2); (120095, 120125, 2); (120124, 120134, 2);
    (120129, 120131, 2); (120138, 120484, 2); (120139, 120143, 2);
    (120147, 120485, 2); (120488, 120778, 2); (120489, 120511, 2);
    (120515, 120537, 2); (120541, 120569, 2); (120573, 120595, 2);
    (120599, 120627, 2); (120631, 120653, 2); (120657, 120685, 2);
    (120689, 120711, 2); (120715, 120743, 2); (120747, 120769, 2);
    (120773, 120779, 2); (122624, 122633, 1); (122635, 122654, 1);
    (125184, 125251, 1); (127280, 127305, 1); (127312, 127337, 1);
    (127344, 127369, 1) ].

(** Membership in a table of ranges sorted by their first element. *)
Fixpoint in_table (c : Z) (table : list (Z * Z * Z)) : bool :=
  match table with
  | [] => false
  | (first, last, step) :: rest =>
      if c <? first then false
      else if (c <=? last) && ((c - first) mod step =? 0) then true
      else in_table c rest
  end.

(** The offset a table of mappings gives for a code point. *)
Fixpoint offset_in (c : Z) (table : list (Z * Z * Z * Z)) : option Z :=
  match table with
  | [] => None
  | (first, last, step, d) :: rest =>
      if c <? first then None
      else if (c <=? last) && ((c - first) mod step =? 0) then Some d
      else offset_in c rest
  end.

End Unicode.

(* ================================================================== *)
(** ** The fragment of the Python runtime used by the module           *)
(* ================================================================== *)

Module Py.

(** Exceptions that the modelled functions can raise. *)
Inductive pyerr : Type :=
| ValueError
| TypeError.

(** A Python number as the functions return it: [int] or [float]. *)
Inductive pynum : Type :=
| PyInt (n : Z)
| PyFloat (x : float).

(** Results of code that may raise. *)
Definition result (A : Type) : Type := (pyerr + A)%type.

Definition ret {A : Type} (a : A) : result A := inr a.

Definition raise {A : Type} (e : pyerr) : result A := inl e.

Definition bind {A B : Type} (m : result A) (k : A -> result B) : result B :=
  match m with
  | inl e => inl e
  | inr a => k a
  end.

(** [float(n)] for an [int]; exact for [|n| < 2^53], which covers every
    count and every microsecond distance the module computes. *)
Definition of_int (z : Z) : float :=
  if z <? 0 then PrimFloat.opp (PrimFloat.of_uint63 (Uint63.of_Z (- z)))
  else PrimFloat.of_uint63 (Uint63.of_Z z).

(** An [int] as an unrounded radix-2 number. *)
Definition int_to_SF (z : Z) : spec_float :=
  match z with
  | Z0 => S754_zero false
  | Zpos p => S754_finite false p 0
  | Zneg p => S754_finite true p 0
  end.

(** [a / b] on two [int]s, [b] not 0: the quotient of the two integers
    rounded once, to the nearest [float] (ties to even).  With both
    operands below 2^53, and so exactly representable, it is the binary64
    quotient of their conversions (CPython takes that same path);
    otherwise the division is carried out on the integers themselves, as
    converting them first would round twice. *)
Definition true_div (a b : Z) : float :=
  if (Z.abs a <? 9007199254740992) && (Z.abs b <? 9007199254740992)
  then (of_int a / of_int b)%float
  else SF2Prim (SFdiv prec emax (int_to_SF a) (int_to_SF b)).

(** The numeric value of a [pynum] as a [float]. *)
Definition to_float (v : pynum) : float :=
  match v with
  | PyInt n => of_int n
  | PyFloat x => x
  end.

(** [min(a, b)]: the second argument only when it is strictly smaller. *)
Definition py_min (a b : float) : float :=
  if (b <? a)%float then b else a.

(** The integer nearest to [p * 2^e], ties to even. *)
Definition round_half_even (p e : Z) : Z :=
  if 0 <=? e then p * 2 ^ e
  else
    let d := 2 ^ (- e) in
    let q := p / d in
    let r := p mod d in
    match 2 * r ?= d with
    | Lt => q
    | Gt => q + 1
    | Eq => if Z.even q then q else q + 1
    end.

(** [round(x, nd)] for a [float] and [nd] = 2 or 3.  CPython rounds the
    exact binary value of [x] to [nd] decimals (ties to even) and converts
    that decimal back to the nearest [float]; the nearest [float] to
    [n / 10^nd] is the binary64 quotient of the two integers.  When [n]
    needs more than 53 bits the spacing of floats around [x] already
    exceeds [10^-nd] and [x] is returned unchanged, like infinities and
    NaN. *)
Definition py_round (x : float) (nd : Z) : float :=
  match Prim2SF x with
  | S754_finite s m e =>
      let n := round_half_even (Zpos m * 10 ^ nd) e in
      if 2 ^ 53 <=? n then x
      else
        let r := (of_int n / of_int (10 ^ nd))%float in
        if s then PrimFloat.opp r else r
  | _ => x
  end.

(** [round(v, nd)] on a number: an [int] is returned as it is for
    [nd >= 0]. *)
Definition round_num (v : pynum) (nd : Z) : pynum :=
  match v with
  | PyInt n => PyInt n
  | PyFloat x => PyFloat (py_round x nd)
  end.

(** [sum(1 for x in l if p(x))]. *)
Fixpoint count_if {A : Type} (p : A -> bool) (l : list A) : Z :=
  match l with
  | [] => 0
  | x :: l' => (if p x then 1 else 0) + count_if p l'
  end.

Definition len {A : Type} (l : list A) : Z := Z.of_nat (List.length l).

(** *** Strings

    A [str] is a sequence of code points.  The text of a comment, which
    the code lower-cases, measures and searches, is such a sequence
    ([ustring]).  Identifiers and timestamps, which the code compares and
    parses and the platform issues in ASCII, are [string]s. *)

Definition ord (c : ascii) : Z := Z.of_N (N_of_ascii c).

Definition chr (z : Z) : ascii := ascii_of_N (Z.to_N z).

Definition ustring : Type := list Z.

(** A literal of ASCII characters as a [str]. *)
Definition str (s : string) : ustring := map ord (list_ascii_of_string s).

Coercion str : string >-> ustring.

(** [len(s)]: the number of code points. *)
Definition str_len (s : ustring) : Z := Z.of_nat (List.length s).

(** [c.isupper()] on one character: it has the property Uppercase. *)
Definition isupper (c : Z) : bool := Unicode.in_table c Unicode.uppercase.

(** The lowercase mapping of one character, whatever its neighbours:
    U+0130 alone maps to two characters. *)
Definition lower_full (c : Z) : ustring :=
  if c =? 304 then [105; 775]
  else
    match Unicode.offset_in c Unicode.lowercase with
    | Some d => [c + d]
    | None => [c]
    end.

Definition case_ignorable (c : Z) : bool :=
  Unicode.in_table c Unicode.case_ignorable.

(** The first character of [l] that is not case-ignorable is cased. *)
Fixpoint cased_first (l : ustring) : bool :=
  match l with
  | [] => false
  | c :: l' =>
      if case_ignorable c then cased_first l'
      else Unicode.in_table c Unicode.cased
  end.

(** A capital sigma (U+03A3) ends a word: going back from it, over the
    case-ignorable characters, a cased one is met, and going forward none
    is.  [before] holds the characters before it, the nearest first. *)
Definition final_sigma (before after : ustring) : bool :=
  cased_first before && negb (cased_first after).

(** What [s.lower()] puts for the character [c] of [s]: a capital sigma
    becomes U+03C2 at the end of a word and U+03C3 elsewhere. *)
Definition lower_char (before : ustring) (c : Z) (after : ustring)
  : ustring :=
  if c =? 931 then [if final_sigma before after then 962 else 963]
  else lower_full c.

Fixpoint lower_from (before s : ustring) : ustring :=
  match s with
  | [] => []
  | c :: s' => lower_char before c s' ++ lower_from (c :: before) s'
  end.

(** [s.lower()]. *)
Definition lower (s : ustring) : ustring := lower_from [] s.

(** [s.startswith(p)]. *)
Fixpoint prefix (p s : ustring) : bool :=
  match p, s with
  | [], _ => true
  | _ :: _, [] => false
  | a :: p', b :: s' => (a =? b) && prefix p' s'
  end.

(** [sub in s]: substring test. *)
Fixpoint str_in (sub s : ustring) : bool :=
  prefix sub s ||
  match s with
  | [] => false
  | _ :: s' => str_in sub s'
  end.

(** [s.replace(c, by)] for a one-character pattern: every occurrence. *)
Fixpoint replace (c : ascii) (by_ : string) (s : string) : string :=
  match s with
  | EmptyString => EmptyString
  | String a s' =>
      if Ascii.eqb a c then String.append by_ (replace c by_ s')
      else String a (replace c by_ s')
  end.

(** The keys of a [set] or a [Counter]: values that [==] compares. *)
Class PyEq (K : Type) : Type :=
  py_eq_dec : forall x y : K, {x = y} + {x <> y}.

#[export] Instance string_PyEq : PyEq string := string_dec.

#[export] Instance ustring_PyEq : PyEq ustring := list_eq_dec Z.eq_dec.

Definition py_eqb {K : Type} `{PyEq K} (x y : K) : bool :=
  if py_eq_dec x y then true else false.

(** [len(set(l))] is the length of the list of distinct elements. *)
Fixpoint distinct {K : Type} `{PyEq K} (l : list K) : list K :=
  match l with
  | [] => []
  | x :: l' =>
      if existsb (py_eqb x) l' then distinct l' else x :: distinct l'
  end.

(** [collections.Counter(l)] as an association list in insertion order. *)
Fixpoint counter_add {K : Type} `{PyEq K} (k : K) (cnt : list (K * Z))
  : list (K * Z) :=
  match cnt with
  | [] => [(k, 1)]
  | (k', n) :: rest =>
      if py_eqb k k' then (k', n + 1) :: rest
      else (k', n) :: counter_add k rest
  end.

Definition Counter {K : Type} `{PyEq K} (l : list K) : list (K * Z) :=
  fold_left (fun cnt k => counter_add k cnt) l [].

Definition values {K : Type} (cnt : list (K * Z)) : list Z := map snd cnt.

(** *** Regular expressions of the module *)

(** [re.search(r'http[s]?://|www\.', s)] finds a match. *)
Definition re_search_url (s : ustring) : bool :=
  str_in "http://" s || str_in "https://" s || str_in "www." s.

(** The next [n] characters of [s] are all [a]. *)
Fixpoint repeats (a : Z) (n : nat) (s : ustring) : bool :=
  match n with
  | O => true
  | S n' =>
      match s with
      | [] => false
      | b :: s' => (a =? b) && repeats a n' s'
      end
  end.

(** [re.search(r'(.)\1{3,}', s)] finds a match: some character other than
    a line feed (which [.] does not match) is followed by three more
    copies of itself. *)
Fixpoint re_search_repeat (s : ustring) : bool :=
  match s with
  | [] => false
  | a :: s' =>
      (negb (a =? 10) && repeats a 3 s') || re_search_repeat s'
  end.

(** *** [datetime]

    A [datetime] is its wall-clock reading, in microseconds since
    0001-01-01T00:00:00, with the UTC offset (microseconds) when it is
    aware. *)
Record datetime : Type := mk_datetime {
  wall_us : Z;
  utcoffset : option Z
}.

Definition is_aware (d : datetime) : bool :=
  match utcoffset d with
  | Some _ => true
  | None => false
  end.

(** The position of a [datetime] on the axis its kind is compared on. *)
Definition instant (d : datetime) : Z :=
  match utcoffset d with
  | Some off => wall_us d - off
  | None => wall_us d
  end.

(** Stable insertion by [<]. *)
Fixpoint insert_sorted (x : datetime) (l : list datetime) : list datetime :=
  match l with
  | [] => [x]
  | y :: l' =>
      if instant y <? instant x then y :: insert_sorted x l'
      else x :: y :: l'
  end.

Definition sorted_copy (l : list datetime) : list datetime :=
  fold_right insert_sorted [] l.

(** All elements are of one kind (naive or aware). *)
Definition same_kind (l : list datetime) : bool :=
  match l with
  | [] => true
  | d :: l' => forallb (fun d' => Bool.eqb (is_aware d) (is_aware d')) l'
  end.

(** [l.sort()] on datetimes: ordering a naive against an aware
    [datetime] raises [TypeError], and sorting a list that holds both
    kinds must compare such a pair. *)
Definition list_sort (l : list datetime) : result (list datetime) :=
  if same_kind l then ret (sorted_copy l) else raise TypeError.

(** [(b - a)] as a [timedelta], in microseconds, for two datetimes of one
    kind. *)
Definition dt_sub (b a : datetime) : Z := instant b - instant a.

(** [timedelta.total_seconds()]. *)
Definition total_seconds (td_us : Z) : float := true_div td_us 1000000.

End Py.

Import Py.

Notation "x <- m ;; k" := (Py.bind m (fun x => k))
  (at level 61, m at next level, right associativity).

(* ================================================================== *)
(** ** Configuration                                                    *)
(* ================================================================== *)

Module Config.

Definition SPAM_KEYWORDS : list ustring :=
  map str
    [ "click here"; "free money"; "subscribe to my channel";
      "check out my"; "dm for"; "winner"; "congratulations";
      "telegram"; "whatsapp me"; "+1"; "cash app";
      "!!!"; "????"; "www."; "http" ].

Definition SUSPICIOUS_VELOCITY : Z := 5.

Definition BOT_VELOCITY : Z := 10.

End Config.

(* ================================================================== *)
(** ** Abuse detection logic                                            *)
(* ================================================================== *)

(** The dictionary returned by [analyze_comment_for_abuse]; the flags are
    the [int]s 0 and 1 of the source. *)
Record analysis : Type := mk_analysis {
  is_spam : Z;
  spam_score : float;
  has_url : Z;
  has_excessive_caps : Z;
  has_repetitive_chars : Z
}.

(** [spam_matches]: [sum(1 for keyword in SPAM_KEYWORDS if keyword in
    text_lower)]. *)
Definition spam_matches_of (text_lower : ustring) : Z :=
  count_if (fun keyword => str_in keyword text_lower) Config.SPAM_KEYWORDS.

(** [has_url]. *)
Definition has_url_of (text : ustring) : Z :=
  if re_search_url text then 1 else 0.

(** [caps_ratio]: [sum(1 for c in text if c.isupper()) / (len(text) + 1)]. *)
Definition caps_count (text : ustring) : Z :=
  count_if isupper text.

Definition caps_ratio (text : ustring) : float :=
  true_div (caps_count text) (str_len text + 1).

(** [has_excessive_caps]: [1 if caps_ratio > 0.5 and len(text) > 10 else 0]. *)
Definition has_excessive_caps_of (text : ustring) : Z :=
  if (0.5 <? caps_ratio text)%float && (10 <? str_len text) then 1 else 0.

(** [has_repetitive]. *)
Definition has_repetitive_of (text : ustring) : Z :=
  if re_search_repeat text then 1 else 0.

(** The score before rounding, as a function of the four signals:
    [min(1.0, spam_matches * 0.3 + has_url * 0.3 + has_excessive_caps * 0.2
    + has_repetitive * 0.2)]. *)
Definition score_of_signals
  (spam_matches url excessive_caps repetitive : Z) : float :=
  py_min 1.0%float
    (of_int spam_matches * 0.3 + of_int url * 0.3 +
     of_int excessive_caps * 0.2 + of_int repetitive * 0.2)%float.

(** The classification: [1 if spam_score >= 0.4 else 0]. *)
Definition classify (score : float) : Z :=
  if (0.4 <=? score)%float then 1 else 0.

(** The dictionary built from the four signals. *)
Definition analysis_of_signals
  (spam_matches url excessive_caps repetitive : Z) : analysis :=
  let score := score_of_signals spam_matches url excessive_caps repetitive in
  {| is_spam := classify score;
     spam_score := py_round score 3;
     has_url := url;
     has_excessive_caps := excessive_caps;
     has_repetitive_chars := repetitive |}.

Definition analyze_comment_for_abuse (text : ustring) : analysis :=
  let text_lower := lower text in
  analysis_of_signals
    (spam_matches_of text_lower)
    (has_url_of text)
    (has_excessive_caps_of text)
    (has_repetitive_of text).

(* ================================================================== *)
(** ** Comments                                                         *)
(* ================================================================== *)

(** A comment record as the platform delivers it. *)
Record raw_comment : Type := mk_raw_comment {
  raw_comment_id : string;
  raw_video_id : string;
  raw_author_channel_id : string;
  raw_author_name : string;
  raw_text_display : ustring;
  raw_like_count : Z;
  raw_published_at : string
}.

(** The comment dictionary after [comment_data.update(...)]: the seven
    platform fields and the five derived ones. *)
Record comment : Type := mk_comment {
  comment_id : string;
  video_id : string;
  author_channel_id : string;
  author_name : string;
  text_display : ustring;
  like_count : Z;
  published_at : string;
  abuse : analysis
}.

(** The body of the loop of [get_video_comments] for one item. *)
Definition scored (r : raw_comment) : comment :=
  {| comment_id := raw_comment_id r;
     video_id := raw_video_id r;
     author_channel_id := raw_author_channel_id r;
     author_name := raw_author_name r;
     text_display := raw_text_display r;
     like_count := raw_like_count r;
     published_at := raw_published_at r;
     abuse := analyze_comment_for_abuse (raw_text_display r) |}.

(* ================================================================== *)
(** ** Set-level metrics                                                *)
(* ================================================================== *)

(** [duplicate_ratio] of [detect_coordinated_activity]. *)
Definition duplicate_ratio (comments : list comment) : float :=
  let texts := map (fun c => lower (text_display c)) comments in
  let text_counts := Counter texts in
  true_div (count_if (fun count => 1 <? count) (values text_counts))
           (len texts).

(** [author_diversity] of [detect_coordinated_activity]. *)
Definition author_diversity (comments : list comment) : float :=
  let authors := map author_channel_id comments in
  let unique_authors := len (distinct authors) in
  true_div unique_authors (len comments).

Definition detect_coordinated_activity (comments : list comment) : float :=
  if len comments <? 5 then 0.0%float
  else
    let coordination_score :=
      (duplicate_ratio comments * 0.6 +
       (of_int 1 - author_diversity comments) * 0.4)%float in
    py_round coordination_score 3.

(** The table [abuse_metrics] (without its autoincremented key).  The
    columns declared [REAL] hold floats: an [int] bound to one of them is
    stored as the float of the same value. *)
Record metrics_row : Type := mk_metrics_row {
  metric_video_id : string;
  timestamp : string;
  total_comments : Z;
  spam_comments : Z;
  spam_prevalence : float;
  comment_velocity : float;
  unique_authors : Z;
  suspicious_accounts : Z;
  bot_likelihood_score : float
}.

Section Velocity.

(** [datetime.fromisoformat]: [None] stands for the [ValueError] it raises
    on a string it does not accept.  Which strings it accepts depends on
    the interpreter's version, so the functions are stated over any such
    parser. *)
Variable fromisoformat : string -> option datetime.

(** One element of the list comprehension of
    [calculate_velocity_metrics]. *)
Definition parse_published_at (c : comment) : result datetime :=
  match fromisoformat (replace "Z" "+00:00" (published_at c)) with
  | Some d => ret d
  | None => raise ValueError
  end.

(** The list comprehension: elements are parsed in order and the first
    failure propagates. *)
Fixpoint parse_timestamps (comments : list comment)
  : result (list datetime) :=
  match comments with
  | [] => ret []
  | c :: rest =>
      d <- parse_published_at c ;;
      ds <- parse_timestamps rest ;;
      ret (d :: ds)
  end.

(** [(timestamps[-1] - timestamps[0]).total_seconds() / 60] on the sorted
    list. *)
Definition time_window_minutes (timestamps : list datetime) : float :=
  match timestamps with
  | [] => 0.0%float (* not reached: the caller holds at least two *)
  | first :: _ =>
      (total_seconds (dt_sub (last timestamps first) first) / of_int 60)%float
  end.

Definition calculate_velocity_metrics (comments : list comment)
  : result pynum :=
  if len comments <? 2 then ret (PyFloat 0.0)
  else
    parsed <- parse_timestamps comments ;;
    timestamps <- list_sort parsed ;;
    let window := time_window_minutes timestamps in
    if (window =? of_int 0)%float then ret (PyInt (len comments))
    else
      let velocity := (of_int (len comments) / window)%float in
      ret (PyFloat (py_round velocity 2)).

(** [store_abuse_metrics]: the database is the list of rows of
    [abuse_metrics]; [now] is [datetime.now().isoformat()].  An exception
    of the velocity computation leaves the table as it was. *)
Definition store_abuse_metrics
  (db : list metrics_row) (now : string)
  (vid : string) (comments : list comment) : result (list metrics_row) :=
  let total := len comments in
  let spam := count_if (fun c => is_spam (abuse c) =? 1) comments in
  let prevalence :=
    if 0 <? total then PyFloat (true_div spam total * of_int 100)%float
    else PyInt 0 in
  velocity <- calculate_velocity_metrics comments ;;
  let coordination_score := detect_coordinated_activity comments in
  let authors := len (distinct (map author_channel_id comments)) in
  let suspicious :=
    count_if (fun c => (0.6 <? spam_score (abuse c))%float) comments in
  ret (db ++
       [ {| metric_video_id := vid;
            timestamp := now;
            total_comments := total;
            spam_comments := spam;
            spam_prevalence := to_float (round_num prevalence 2);
            comment_velocity := to_float velocity;
            unique_authors := authors;
            suspicious_accounts := suspicious;
            bot_likelihood_score := coordination_score |} ]).

End Velocity.

(* ================================================================== *)
(** ** A parser for platform timestamps                                 *)
(* ================================================================== *)

(** The platform's timestamps have the shape [YYYY-MM-DDTHH:MM:SS],
    optionally followed by a fraction of three or six digits and by a UTC
    offset [+HH:MM] or [-HH:MM].  Every interpreter version's
    [datetime.fromisoformat] accepts these strings and reads them as
    [Iso.fromisoformat] does; strings outside this shape are refused
    here, though an interpreter may accept some of them (a date alone,
    for one).  The parser serves the worked examples; the general
    statements hold for any parser. *)
Module Iso.

Notation "'let?' x := m 'in' k" :=
  (match m with Some x => k | None => None end)
  (at level 10, x pattern, m at level 100, k at level 200).

Definition digit (c : ascii) : option Z :=
  let n := ord c in
  if (48 <=? n) && (n <=? 57) then Some (n - 48) else None.

(** Read exactly [n] decimal digits. *)
Fixpoint number (n : nat) (acc : Z) (s : string) : option (Z * string) :=
  match n with
  | O => Some (acc, s)
  | S n' =>
      match s with
      | EmptyString => None
      | String c s' =>
          let? d := digit c in number n' (10 * acc + d) s'
      end
  end.

Definition expect (c : ascii) (s : string) : option string :=
  match s with
  | EmptyString => None
  | String a s' => if Ascii.eqb a c then Some s' else None
  end.

Definition is_leap (y : Z) : bool :=
  (y mod 4 =? 0) && (negb (y mod 100 =? 0) || (y mod 400 =? 0)).

Definition days_in_month (y m : Z) : Z :=
  if m =? 2 then (if is_leap y then 29 else 28)
  else if (m =? 4) || (m =? 6) || (m =? 9) || (m =? 11) then 30
  else 31.

Definition days_before_year (y : Z) : Z :=
  let p := y - 1 in p * 365 + p / 4 - p / 100 + p / 400.

Definition days_before_month (y m : Z) : Z :=
  fold_right Z.add 0
    (map (fun k => days_in_month y (Z.of_nat k))
         (seq 1 (Z.to_nat (m - 1)))).

(** Microseconds from 0001-01-01T00:00:00 to the given wall-clock
    reading. *)
Definition wall (y m d hh mm ss us : Z) : Z :=
  let days := days_before_year y + days_before_month y m + d - 1 in
  (((days * 24 + hh) * 60 + mm) * 60 + ss) * 1000000 + us.

(** The optional fraction: a dot and three or six digits. *)
Definition fraction (s : string) : option (Z * string) :=
  match s with
  | String "." s' =>
      match number 6 0 s' with
      | Some r => Some r
      | None => let? (ms, s'') := number 3 0 s' in Some (ms * 1000, s'')
      end
  | _ => Some (0, s)
  end.

(** The optional UTC offset, in microseconds. *)
Definition offset (s : string) : option (option Z) :=
  match s with
  | EmptyString => Some None
  | String c s' =>
      let? sign :=
        (if Ascii.eqb c "+" then Some 1
         else if Ascii.eqb c "-" then Some (-1) else None) in
      let? (hh, s1) := number 2 0 s' in
      let? s2 := expect ":" s1 in
      let? (mm, s3) := number 2 0 s2 in
      match s3 with
      | EmptyString =>
          if (hh <? 24) && (mm <? 60)
          then Some (Some (sign * (hh * 3600 + mm * 60) * 1000000))
          else None
      | _ => None
      end
  end.

Definition fromisoformat (s : string) : option datetime :=
  let? (y, s1) := number 4 0 s in
  let? s2 := expect "-" s1 in
  let? (m, s3) := number 2 0 s2 in
  let? s4 := expect "-" s3 in
  let? (d, s5) := number 2 0 s4 in
  let? s6 := expect "T" s5 in
  let? (hh, s7) := number 2 0 s6 in
  let? s8 := expect ":" s7 in
  let? (mm, s9) := number 2 0 s8 in
  let? s10 := expect ":" s9 in
  let? (ss, s11) := number 2 0 s10 in
  let? (us, s12) := fraction s11 in
  let? off := offset s12 in
  if (1 <=? y) && (1 <=? m) && (m <=? 12) &&
     (1 <=? d) && (d <=? days_in_month y m) &&
     (hh <? 24) && (mm <? 60) && (ss <? 60)
  then Some {| wall_us := wall y m d hh mm ss us; utcoffset := off |}
  else None.

End Iso.

(* ================================================================== *)
(** ** The specification's reading of the duplicate ratio               *)
(* ================================================================== *)

(** How often [t] occurs among [texts]. *)
Definition occurrences {K : Type} `{PyEq K} (t : K) (texts : list K) : Z :=
  count_if (py_eqb t) texts.

(** The ratio as the specification words it: the number of comments whose
    lower-cased text occurs more than once in the batch, over the number
    of comments. *)
Definition spec_duplicate_ratio (comments : list comment) : float :=
  let texts := map (fun c => lower (text_display c)) comments in
  true_div (count_if (fun t => 1 <? occurrences t texts) texts) (len texts).

(** The coordination score computed from the specification's ratio. *)
Definition spec_coordination_score (comments : list comment) : float :=
  if len comments <? 5 then 0.0%float
  else
    py_round (spec_duplicate_ratio comments * 0.6 +
              (of_int 1 - author_diversity comments) * 0.4)%float 3.

(* ================================================================== *)
(** ** Sample data                                                      *)
(* ================================================================== *)

Definition sample_raw (author : string) (text : ustring)
  (published : string) : raw_comment :=
  {| raw_comment_id := "c";
     raw_video_id := "v";
     raw_author_channel_id := author;
     raw_author_name := "name";
     raw_text_display := text;
     raw_like_count := 0;
     raw_published_at := published |}.

Definition sample_comment (author : string) (text : ustring)
  (published : string) : comment :=
  scored (sample_raw author text published).

(** Ten comments with one text and one author. *)
Definition copypasta_batch : list comment :=
  repeat (sample_comment "UC1" "Great video" "2024-01-01T12:00:00Z") 10.

(** Five comments published at the same instant. *)
Definition burst_batch : list comment :=
  repeat (sample_comment "UC1" "hello" "2024-01-01T12:00:00Z") 5.

(** Ten comments spread over the five minutes from 12:00:00 to 12:05:00. *)
Definition five_minute_raws : list raw_comment :=
  map (sample_raw "UC1" "hello")
    [ "2024-01-01T12:00:00Z"; "2024-01-01T12:00:33Z";
      "2024-01-01T12:01:07Z"; "2024-01-01T12:01:40Z";
      "2024-01-01T12:02:13Z"; "2024-01-01T12:02:47Z";
      "2024-01-01T12:03:20Z"; "2024-01-01T12:03:53Z";
      "2024-01-01T12:04:27Z"; "2024-01-01T12:05:00Z" ].

Definition five_minute_batch : list comment := map scored five_minute_raws.

(** Comments published at the given times, in the given order. *)
Definition published_batch (stamps : list string) : list comment :=
  map (sample_comment "UC1" "hello") stamps.

(** A single comment whose timestamp is not a timestamp. *)
Definition malformed_comment : comment :=
  sample_comment "UC2" "hello" "yesterday".

Definition malformed_singleton : list comment := [ malformed_comment ].

(** Two comments, the second with a timestamp that is not a timestamp. *)
Definition malformed_pair : list comment :=
  [ sample_comment "UC1" "hello" "2024-01-01T12:00:00Z"; malformed_comment ].

(** Three spam comments published within one minute. *)
Definition spam_raws : list raw_comment :=
  [ sample_raw "UC1" "FREE MONEY!!! click here www.spam.com"
      "2024-01-01T12:00:00Z";
    sample_raw "UC2" "nice video" "2024-01-01T12:00:30Z";
    sample_raw "UC3" "winner on telegram" "2024-01-01T12:01:00Z" ].

(** Ten comments in five pairs of equal texts, from ten authors. *)
Definition paired_batch : list comment :=
  map (fun p : string * string =>
         sample_comment (fst p) (snd p) "2024-01-01T12:00:00Z")
    [ ("UC0", "first"); ("UC1", "First"); ("UC2", "nice"); ("UC3", "nice");
      ("UC4", "wow"); ("UC5", "WOW"); ("UC6", "lol"); ("UC7", "lol");
      ("UC8", "cool"); ("UC9", "cool") ].

Definition scenario_text : ustring :=
  "FREE MONEY!!! click here www.spam.com".

(* ================================================================== *)
(** ** The finite space of signals                                      *)
(* ================================================================== *)

(** The integers [lo, lo + 1, ..., lo + n - 1]. *)
Definition range (lo : Z) (n : nat) : list Z :=
  map (fun k => lo + Z.of_nat k) (seq 0 n).

(** The values [spam_matches] can take: one per keyword at most. *)
Definition match_counts : list Z :=
  range 0 (S (List.length Config.SPAM_KEYWORDS)).

(** The values of a flag. *)
Definition flag_values : list Z := [0; 1].

(** A boolean property holds of every signal tuple. *)
Definition for_all_signals (P : Z -> Z -> Z -> Z -> bool) : bool :=
  forallb (fun n =>
    forallb (fun u =>
      forallb (fun c =>
        forallb (fun r => P n u c r) flag_values) flag_values) flag_values)
    match_counts.

(** The returned score is a whole number of thousandths between 0 and
    1000. *)
Definition is_thousandths (x : float) : bool :=
  existsb (fun k => (x =? true_div k 1000)%float) (range 0 1001).

(* ================================================================== *)
(** ** Exact readings of the signals                                    *)
(* ================================================================== *)

(** The weighted signals in tenths: 3 per keyword, 3 for a URL, 2 for
    capitals, 2 for repetition. *)
Definition signal_points
  (spam_matches url excessive_caps repetitive : Z) : Z :=
  3 * spam_matches + 3 * url + 2 * excessive_caps + 2 * repetitive.

(** Lower-casing leaves the character as it is, wherever it stands. *)
Definition lower_keeps (c : Z) : bool :=
  negb (c =? 931) &&
  match lower_full c with
  | [c'] => c' =? c
  | _ => false
  end.

(** Two characters are the same, or are both a small sigma (U+03C2 at
    the end of a word, U+03C3 elsewhere). *)
Definition same_but_sigma (x y : Z) : Prop :=
  x = y \/ ((x = 962 \/ x = 963) /\ (y = 962 \/ y = 963)).

(** No small sigma occurs in the pattern. *)
Definition sigma_free (p : ustring) : bool :=
  forallb (fun c => negb (c =? 962) && negb (c =? 963)) p.

(** [n] copies of one character. *)
Fixpoint copies (n : nat) (c : Z) : ustring :=
  match n with
  | O => []
  | S n' => c :: copies n' c
  end.

(* ================================================================== *)
(** ** Counts behind the coordination score                             *)
(* ================================================================== *)

(** The numerator of [duplicate_ratio]: the [sum(1 for count in
    text_counts.values() if count > 1)] of the source. *)
Definition duplicated_texts (comments : list comment) : Z :=
  count_if (fun count => 1 <? count)
    (values (Counter (map (fun c => lower (text_display c)) comments))).

(** The numerator of [author_diversity]. *)
Definition distinct_authors (comments : list comment) : Z :=
  len (distinct (map author_channel_id comments)).

(** The score as a function of the three counts it is computed from. *)
Definition coordination_of_counts (duplicated authors total : Z) : float :=
  py_round (true_div duplicated total * 0.6 +
            (of_int 1 - true_div authors total) * 0.4)%float 3.

(** The coordination score before its rounding. *)
Definition raw_coordination_of_counts (duplicated authors total : Z)
  : float :=
  (true_div duplicated total * 0.6 +
   (of_int 1 - true_div authors total) * 0.4)%float.

(** The bounds on a coordination score. *)
Definition coordination_in_bounds (s : float) : bool :=
  (0 <=? s)%float && (s <=? 0.696)%float && negb (0.7 <? s)%float.

(** [Config.MAX_COMMENTS_PER_VIDEO], the [maxResults] that [main] passes
    to the platform for each video. *)
Definition MAX_COMMENTS_PER_VIDEO : Z := 100.

(** A boolean property holds of every triple of counts that a batch of 5
    to [MAX_COMMENTS_PER_VIDEO] comments can have: at most one duplicated
    text per two comments, and between one and all distinct authors. *)
Definition for_all_counts (P : Z -> Z -> Z -> bool) : bool :=
  forallb (fun n =>
    forallb (fun g =>
      forallb (fun u => P g u n) (range 1 (Z.to_nat n)))
      (range 0 (S (Z.to_nat (n / 2)))))
    (range 5 (Z.to_nat (MAX_COMMENTS_PER_VIDEO - 4))).

(** The count stored for a key; 0 when the key is absent. *)
Fixpoint get_count {K : Type} `{PyEq K} (k : K) (cnt : list (K * Z)) : Z :=
  match cnt with
  | [] => 0
  | (k', n) :: rest => if py_eqb k k' then n else get_count k rest
  end.

Definition keys {K : Type} (cnt : list (K * Z)) : list K := map fst cnt.

(** The sum of [f] over a list. *)
Fixpoint sumZ {A : Type} (f : A -> Z) (l : list A) : Z :=
  match l with
  | [] => 0
  | x :: l' => f x + sumZ f l'
  end.

(** The column [activity_type] of the coordination report of
    [02_sql_analysis.py] (query 3), computed from a row of
    [abuse_metrics]. *)
Definition activity_type (row : metrics_row) : string :=
  if (0.7 <? bot_likelihood_score row)%float &&
     (10 <? suspicious_accounts row)
  then "COORDINATED ATTACK"
  else if (0.5 <? bot_likelihood_score row)%float
       then "POSSIBLE COORDINATION"
       else "ORGANIC ACTIVITY".

(* ================================================================== *)
(** ** Reading the parsed timestamps                                    *)
(* ================================================================== *)

(** The timestamp of a comment is accepted by the parser. *)
Definition parses (fromisoformat : string -> option datetime)
  (c : comment) : bool :=
  match fromisoformat (replace "Z" "+00:00" (published_at c)) with
  | Some _ => true
  | None => false
  end.

(** The parsed timestamp of a comment (the epoch when it does not
    parse). *)
Definition parsed (fromisoformat : string -> option datetime)
  (c : comment) : datetime :=
  match fromisoformat (replace "Z" "+00:00" (published_at c)) with
  | Some d => d
  | None => {| wall_us := 0; utcoffset := None |}
  end.

(** Two comments, one with a UTC designator and one without. *)
Definition mixed_pair : list comment :=
  [ sample_comment "UC1" "hello" "2024-01-01T12:00:00Z";
    sample_comment "UC2" "hello" "2024-01-01T12:03:00" ].

(* ================================================================== *)
(** ** Fetching the comments of a video                                 *)
(* ================================================================== *)

(** One item of the platform's [commentThreads] response, as far as
    [get_video_comments] reads it.  [authorChannelId] is [None] when the
    key is absent and [Some None] when its dictionary has no ['value'];
    [likeCount] is [None] when the key is absent.  The keys the code
    indexes (the id, [authorDisplayName], [textDisplay], [publishedAt])
    are present in every item the platform sends; an item lacking one
    would raise [KeyError], which is outside this model. *)
Record api_comment : Type := mk_api_comment {
  item_id : string;
  authorChannelId : option (option string);
  authorDisplayName : string;
  textDisplay : ustring;
  likeCount : option Z;
  publishedAt : string
}.

(** What [request.execute()] does: it raises [HttpError] with a status, or
    returns a response whose ['items'] may be absent. *)
Inductive api_response : Type :=
| HttpError (status : Z)
| Response (items : option (list api_comment)).

(** [comment.get('authorChannelId', {}).get('value', 'unknown')]. *)
Definition author_of (item : api_comment) : string :=
  match authorChannelId item with
  | Some (Some value) => value
  | _ => "unknown"
  end.

(** The body of the loop over the items: the dictionary [comment_data]
    and its update with the analysis. *)
Definition comment_of_item (vid : string) (item : api_comment) : comment :=
  scored {| raw_comment_id := item_id item;
            raw_video_id := vid;
            raw_author_channel_id := author_of item;
            raw_author_name := authorDisplayName item;
            raw_text_display := textDisplay item;
            raw_like_count :=
              match likeCount item with Some n => n | None => 0 end;
            raw_published_at := publishedAt item |}.

(** [get_video_comments], given what the platform answers; the messages
    it prints on [HttpError] are left out. *)
Definition get_video_comments (response : api_response) (vid : string)
  : list comment :=
  match response with
  | HttpError _ => []
  | Response items =>
      map (comment_of_item vid)
          (match items with Some l => l | None => [] end)
  end.

(* ================================================================== *)
(** ** The database                                                     *)
(* ================================================================== *)

(** A row of [videos], as [get_trending_videos] builds it. *)
Record video_data : Type := mk_video_data {
  vd_video_id : string;
  vd_title : string;
  vd_channel_title : string;
  vd_published_at : string;
  vd_view_count : Z;
  vd_like_count : Z;
  vd_comment_count : Z;
  vd_category_id : string
}.

(** The three tables, each in the order of insertion.  The rows of
    [videos] and [comments] carry their [collected_at]; [ticks] counts
    the readings of the clock made so far ([CURRENT_TIMESTAMP] and
    [datetime.now()]), and the functions take the clock as the sequence
    of its readings. *)
Record database : Type := mk_database {
  videos : list (video_data * string);
  comments_table : list (comment * string);
  abuse_metrics : list metrics_row;
  ticks : nat
}.

Definition empty_database : database :=
  {| videos := []; comments_table := []; abuse_metrics := []; ticks := O |}.

(** [INSERT OR REPLACE] into a table whose primary key is [key]: a row
    with the same key is deleted, and the new row is added. *)
Definition insert_or_replace {R : Type} (key : R -> string)
  (row : R) (table : list R) : list R :=
  filter (fun r => negb (String.eqb (key r) (key row))) table ++ [row].

Definition video_key (row : video_data * string) : string :=
  vd_video_id (fst row).

Definition comment_key (row : comment * string) : string :=
  comment_id (fst row).

Definition store_video_data (clock : nat -> string) (db : database)
  (video : video_data) : database :=
  {| videos :=
       insert_or_replace video_key (video, clock (ticks db)) (videos db);
     comments_table := comments_table db;
     abuse_metrics := abuse_metrics db;
     ticks := S (ticks db) |}.

(** One [cursor.execute] of the loop of [store_comments]. *)
Definition insert_comment (clock : nat -> string) (db : database)
  (c : comment) : database :=
  {| videos := videos db;
     comments_table :=
       insert_or_replace comment_key (c, clock (ticks db))
         (comments_table db);
     abuse_metrics := abuse_metrics db;
     ticks := S (ticks db) |}.

Definition store_comments (clock : nat -> string) (db : database)
  (comments : list comment) : database :=
  match comments with
  | [] => db
  | _ => fold_left (insert_comment clock) comments db
  end.

(** [store_abuse_metrics] on the database: an exception of the velocity
    computation leaves the database as it is. *)
Definition store_abuse_metrics_in
  (fromisoformat : string -> option datetime) (clock : nat -> string)
  (db : database) (vid : string) (comments : list comment)
  : database * result unit :=
  match store_abuse_metrics fromisoformat (abuse_metrics db)
          (clock (ticks db)) vid comments with
  | inl e => (db, inl e)
  | inr table =>
      ({| videos := videos db;
          comments_table := comments_table db;
          abuse_metrics := table;
          ticks := S (ticks db) |}, inr tt)
  end.

(* ================================================================== *)
(** ** The main loop                                                    *)
(* ================================================================== *)

(** What [main] prints for a video with comments. *)
Record report : Type := mk_report {
  analyzed : Z;
  spam_detected : Z;
  velocity : pynum;
  high_velocity_alert : bool
}.

(** [v > n] for a number [v] and an [int] [n]. *)
Definition num_gt (v : pynum) (n : Z) : bool :=
  match v with
  | PyInt k => n <? k
  | PyFloat x => (of_int n <? x)%float
  end.

(** The body of the loop of [main] for one video and the platform's
    answer for it.  An exception leaves the loop with the database as the
    statements committed so far have made it. *)
Definition process_video
  (fromisoformat : string -> option datetime) (clock : nat -> string)
  (db : database) (video : video_data) (response : api_response)
  : database * result (option report) :=
  let db1 := store_video_data clock db video in
  let comments := get_video_comments response (vd_video_id video) in
  match comments with
  | [] => (db1, inr None)
  | _ =>
      let db2 := store_comments clock db1 comments in
      match store_abuse_metrics_in fromisoformat clock db2
              (vd_video_id video) comments with
      | (db3, inl e) => (db3, inl e)
      | (db3, inr _) =>
          let spam_count :=
            count_if (fun c => is_spam (abuse c) =? 1) comments in
          match calculate_velocity_metrics fromisoformat comments with
          | inl e => (db3, inl e)
          | inr v =>
              (db3,
               inr (Some {| analyzed := len comments;
                            spam_detected := spam_count;
                            velocity := v;
                            high_velocity_alert :=
                              num_gt v Config.BOT_VELOCITY |}))
          end
      end
  end.

(** The loop of [main] over the videos, each with the platform's answer
    to the request for its comments. *)
Fixpoint main_loop
  (fromisoformat : string -> option datetime) (clock : nat -> string)
  (db : database) (work : list (video_data * api_response))
  : database * result (list (option report)) :=
  match work with
  | [] => (db, inr [])
  | (video, response) :: rest =>
      match process_video fromisoformat clock db video response with
      | (db', inl e) => (db', inl e)
      | (db', inr r) =>
          match main_loop fromisoformat clock db' rest with
          | (db'', inl e) => (db'', inl e)
          | (db'', inr rs) => (db'', inr (r :: rs))
          end
      end
  end.

(** The comments of the batch that end up in the table: for each
    [comment_id], the last comment of the batch that carries it. *)
Fixpoint last_wins (comments : list comment) : list comment :=
  match comments with
  | [] => []
  | c :: rest =>
      if existsb (fun c' => String.eqb (comment_id c') (comment_id c)) rest
      then last_wins rest
      else c :: last_wins rest
  end.

(** The column [threat_assessment] of the velocity report of
    [02_sql_analysis.py] (query 2), computed from the stored
    [comment_velocity]; the report keeps the rows with a velocity above
    0. *)
Definition threat_assessment (comment_velocity : float) : string :=
  if (10 <? comment_velocity)%float then "CRITICAL - Likely Bot Attack"
  else if (5 <? comment_velocity)%float
       then "WARNING - Suspicious Activity"
       else "NORMAL".

Definition in_velocity_report (comment_velocity : float) : bool :=
  (0 <? comment_velocity)%float.

(** Sample data for the loop. *)
Definition sample_video : video_data :=
  {| vd_video_id := "v1"; vd_title := "News"; vd_channel_title := "Channel";
     vd_published_at := "2024-01-01T10:00:00Z"; vd_view_count := 1000;
     vd_like_count := 10; vd_comment_count := 2; vd_category_id := "25" |}.

Definition sample_item (id : string) (text : ustring)
  (published : string) : api_comment :=
  {| item_id := id; authorChannelId := None;
     authorDisplayName := "someone"; textDisplay := text;
     likeCount := None; publishedAt := published |}.

Definition broken_response : api_response :=
  Response (Some [ sample_item "c1" "hello" "2024-01-01T12:00:00Z";
                   sample_item "c2" "hello" "yesterday" ]).

Definition good_response : api_response :=
  Response (Some [ sample_item "c1" "hello" "2024-01-01T12:00:00Z";
                   sample_item "c2" "www.spam.com" "2024-01-01T12:02:00Z";
                   sample_item "c1" "edited" "2024-01-01T12:04:00Z" ]).

Definition sample_clock (n : nat) : string :=
  String.append "2024-01-02 00:00:0" (String (chr (48 + Z.of_nat n)) "").

(** A comment [c] has no namesake among [comments]: no comment of the
    list carries its id. *)
Definition fresh_id (comments : list comment) (c : comment) : bool :=
  negb (existsb (fun c' => String.eqb (comment_id c') (comment_id c))
          comments).

(** The sizes of a batch of at least two comments that the platform can
    deliver. *)
Definition burst_sizes : list Z :=
  range 2 (Z.to_nat (MAX_COMMENTS_PER_VIDEO - 1)).

(** The label that exact arithmetic gives a velocity of [n] comments per
    minute. *)
Definition threat_of_count (n : Z) : string :=
  if 10 <? n then "CRITICAL - Likely Bot Attack"
  else if 5 <? n then "WARNING - Suspicious Activity"
  else "NORMAL".

(** The number of reports of videos that had comments. *)
Definition reports_made (reports : list (option report)) : Z :=
  count_if (fun r => match r with Some _ => true | None => false end)
    reports.

Definition second_video : video_data :=
  {| vd_video_id := "v2"; vd_title := "More news";
     vd_channel_title := "Channel";
     vd_published_at := "2024-01-01T11:00:00Z"; vd_view_count := 500;
     vd_like_count := 5; vd_comment_count := 2; vd_category_id := "25" |}.

(* ================================================================== *)
(** ** Counting                                                         *)
(* ================================================================== *)

Section Counting.

Context {A : Type}.

Lemma count_if_nonneg (p : A -> bool) (l : list A) : 0 <= count_if p l.
Proof.
  induction l as [|x l IH]; simpl; [lia|].
  destruct (p x); lia.
Qed.

Lemma count_if_le_len (p : A -> bool) (l : list A) : count_if p l <= len l.
Proof.
  unfold len.
  induction l as [|x l IH]; [simpl; lia|].
  change (List.length (x :: l)) with (S (List.length l)).
  rewrite Nat2Z.inj_succ. simpl count_if.
  destruct (p x); lia.
Qed.

(** A predicate that implies another on the elements counts less. *)
Lemma count_if_mono (p q : A -> bool) (l : list A) :
  (forall x, In x l -> p x = true -> q x = true) ->
  count_if p l <= count_if q l.
Proof.
  induction l as [|x l IH]; intros Himp; simpl; [lia|].
  assert (Htail : count_if p l <= count_if q l).
  { apply IH. intros y Hy. apply Himp. now right. }
  destruct (p x) eqn:Hp.
  - rewrite (Himp x (or_introl eq_refl) Hp). lia.
  - destruct (q x); lia.
Qed.

Lemma count_if_hit (p : A -> bool) (l : list A) (x : A) :
  In x l -> p x = true -> 1 <= count_if p l.
Proof.
  induction l as [|y l IH]; simpl; [tauto|].
  intros [-> | Hin] Hp.
  - rewrite Hp. pose proof (count_if_nonneg p l). lia.
  - specialize (IH Hin Hp). destruct (p y); lia.
Qed.

End Counting.

(* ================================================================== *)
(** ** Strings                                                          *)
(* ================================================================== *)

Lemma prefix_refl (p : ustring) : prefix p p = true.
Proof.
  induction p as [|a p IH]; [reflexivity|].
  cbn [prefix]. now rewrite Z.eqb_refl.
Qed.

Lemma prefix_app_l (p q s : ustring) :
  prefix (p ++ q) s = true -> prefix p s = true.
Proof.
  revert s. induction p as [|a p IH]; intros s; [reflexivity|].
  destruct s as [|b s]; cbn [app prefix]; [trivial|].
  rewrite !andb_true_iff. intros [Hab H]. split; [exact Hab|].
  now apply IH.
Qed.

Lemma prefix_app_r (p t post : ustring) :
  prefix p t = true -> prefix p (t ++ post) = true.
Proof.
  revert t. induction p as [|a p IH]; intros t; [reflexivity|].
  destruct t as [|b t]; cbn [app prefix]; [discriminate|].
  rewrite !andb_true_iff. intros [Hab H]. split; [exact Hab|].
  now apply IH.
Qed.

Lemma str_in_app_pattern (p q t : ustring) :
  str_in (p ++ q) t = true -> str_in p t = true.
Proof.
  induction t as [|b t IH]; cbn [str_in]; rewrite !orb_true_iff.
  - intros [H|H]; [left|discriminate]. now apply (prefix_app_l p q).
  - intros [H|H]; [left|right; auto]. now apply (prefix_app_l p q).
Qed.

Lemma str_in_app_r (p t post : ustring) :
  str_in p t = true -> str_in p (t ++ post) = true.
Proof.
  induction t as [|b t IH]; cbn [str_in app]; rewrite ?orb_true_iff.
  - intros [H|H]; [|discriminate].
    destruct p; [|discriminate]. now destruct post.
  - intros [H|H]; [left|right; auto].
    now apply (prefix_app_r p (b :: t) post).
Qed.

Lemma str_in_app_l (p pre t : ustring) :
  str_in p t = true -> str_in p (pre ++ t) = true.
Proof.
  intros H. induction pre as [|a pre IH]; [exact H|].
  cbn [app str_in]. rewrite IH. apply orb_true_r.
Qed.

Lemma lower_char_keeps (before : ustring) (c : Z) (after : ustring) :
  lower_keeps c = true -> lower_char before c after = [c].
Proof.
  unfold lower_keeps, lower_char. rewrite andb_true_iff, negb_true_iff.
  intros [-> H].
  destruct (lower_full c) as [|c' [|]]; try discriminate.
  apply Z.eqb_eq in H. now subst.
Qed.

(** A pattern of characters that lower-casing keeps is found at the start
    of the lower-cased text when it is at the start of the text. *)
Lemma prefix_lower (p t before : ustring) :
  forallb lower_keeps p = true ->
  prefix p t = true -> prefix p (lower_from before t) = true.
Proof.
  revert t before. induction p as [|a p IH]; intros t before Hp;
    [reflexivity|].
  destruct t as [|b t]; [discriminate|].
  cbn [forallb] in Hp. apply andb_true_iff in Hp. destruct Hp as [Ha Hp].
  cbn [prefix lower_from]. rewrite andb_true_iff. intros [Hab H].
  apply Z.eqb_eq in Hab. subst b.
  rewrite (lower_char_keeps before a t Ha).
  cbn [app prefix]. rewrite Z.eqb_refl. now apply IH.
Qed.

Lemma str_in_lower_from (p t before : ustring) :
  forallb lower_keeps p = true ->
  str_in p t = true -> str_in p (lower_from before t) = true.
Proof.
  intros Hp. revert before.
  induction t as [|b t IH]; intros before; cbn [str_in];
    rewrite orb_true_iff.
  - intros [H|H]; [|discriminate].
    destruct p; [reflexivity | discriminate].
  - intros [H|H].
    + assert (Hpre := prefix_lower p (b :: t) before Hp H).
      destruct (lower_from before (b :: t)); cbn [str_in];
        now rewrite Hpre.
    + cbn [lower_from]. apply str_in_app_l. now apply IH.
Qed.

(** Lower-casing keeps the occurrences of a pattern of characters that it
    leaves as they are. *)
Lemma str_in_lower (p t : ustring) :
  forallb lower_keeps p = true ->
  str_in p t = true -> str_in p (lower t) = true.
Proof. apply str_in_lower_from. Qed.

(* ================================================================== *)
(** ** Every analysis comes from the finite space of signals            *)
(* ================================================================== *)

Lemma range_spec (lo : Z) (n : nat) (z : Z) :
  In z (range lo n) <-> lo <= z < lo + Z.of_nat n.
Proof.
  unfold range. rewrite in_map_iff. split.
  - intros (k & <- & Hk). apply in_seq in Hk. lia.
  - intros Hz. exists (Z.to_nat (z - lo)). split; [lia|].
    apply in_seq. lia.
Qed.

Lemma flag_values_spec (b : bool) : In (if b then 1 else 0) flag_values.
Proof. destruct b; simpl; auto. Qed.

Lemma spam_matches_in_range (text_lower : ustring) :
  In (spam_matches_of text_lower) match_counts.
Proof.
  apply range_spec. unfold spam_matches_of.
  pose proof (count_if_nonneg
    (fun keyword => str_in keyword text_lower) Config.SPAM_KEYWORDS).
  pose proof (count_if_le_len
    (fun keyword => str_in keyword text_lower) Config.SPAM_KEYWORDS).
  unfold len in *. lia.
Qed.

Lemma for_all_signals_sound (P : Z -> Z -> Z -> Z -> bool) :
  for_all_signals P = true ->
  forall n u c r,
    In n match_counts -> In u flag_values ->
    In c flag_values -> In r flag_values ->
    P n u c r = true.
Proof.
  unfold for_all_signals. intros H n u c r Hn Hu Hc Hr.
  rewrite forallb_forall in H. specialize (H n Hn).
  rewrite forallb_forall in H. specialize (H u Hu).
  rewrite forallb_forall in H. specialize (H c Hc).
  rewrite forallb_forall in H. exact (H r Hr).
Qed.

(** A property checked on the whole space holds of the analysis of every
    text. *)
Lemma for_all_texts (P : Z -> Z -> Z -> Z -> bool) :
  for_all_signals P = true ->
  forall text,
    P (spam_matches_of (lower text)) (has_url_of text)
      (has_excessive_caps_of text) (has_repetitive_of text) = true.
Proof.
  intros H text. apply (for_all_signals_sound P H).
  - apply spam_matches_in_range.
  - apply flag_values_spec.
  - apply flag_values_spec.
  - apply flag_values_spec.
Qed.

(** The same, for properties that read the returned dictionary. *)
Lemma for_all_analyses (R : Z -> Z -> analysis -> bool) :
  for_all_signals (fun n u c r => R n u (analysis_of_signals n u c r)) = true ->
  forall text,
    R (spam_matches_of (lower text)) (has_url_of text)
      (analyze_comment_for_abuse text) = true.
Proof.
  intros H text.
  exact (for_all_texts
           (fun n u c r => R n u (analysis_of_signals n u c r)) H text).
Qed.

Ltac split_bools :=
  repeat match goal with
         | H : (_ && _)%bool = true |- _ => apply andb_true_iff in H; destruct H
         end.

(* ================================================================== *)
(** ** The scored comment                                               *)
(* ================================================================== *)

(** C3, as the code has it: on the text
    "FREE MONEY!!! click here www.spam.com" the URL signal fires through
    the [www.] prefix, four keywords match (among them [free money],
    [click here] and [www.]), the score is clamped to 1.0 and the comment
    is classified spam; the capitals signal does not fire, since only 9 of
    the 37 characters are uppercase letters and 9/38 is not above 0.5. *)
Theorem scenario_analysis :
  let a := analyze_comment_for_abuse scenario_text in
  has_url a = 1 /\
  str_in "www." scenario_text = true /\
  spam_matches_of (lower scenario_text) = 4 /\
  str_in "free money" (lower scenario_text) = true /\
  str_in "click here" (lower scenario_text) = true /\
  str_in "www." (lower scenario_text) = true /\
  caps_count scenario_text = 9 /\
  str_len scenario_text = 37 /\
  (0.5 <? caps_ratio scenario_text)%float = false /\
  has_excessive_caps a = 0 /\
  spam_score a = 1.0%float /\
  is_spam a = 1.
Proof. vm_compute. repeat split. Qed.

(** C3, as the specification words it, fails: the capitals signal of the
    scenario text is 0, not 1. *)
Lemma scenario_caps_not_excessive :
  ~ (let a := analyze_comment_for_abuse scenario_text in
     has_url a = 1 /\
     3 <= spam_matches_of (lower scenario_text) /\
     has_excessive_caps a = 1 /\
     spam_score a = 1.0%float /\
     is_spam a = 1).
Proof.
  intros (_ & _ & Hcaps & _). vm_compute in Hcaps. discriminate.
Qed.

(** C4: for every text the returned [spam_score] lies between 0 and 1, is
    a whole number of thousandths (the rounding to three decimals), and
    [is_spam] is 1 exactly when that returned score is at least 0.4 (and 0
    otherwise). *)
Theorem spam_score_range_and_threshold (text : ustring) :
  let a := analyze_comment_for_abuse text in
  (0 <=? spam_score a)%float = true /\
  (spam_score a <=? 1)%float = true /\
  (exists k, 0 <= k <= 1000 /\
             (spam_score a =? true_div k 1000)%float = true) /\
  (is_spam a = 1 <-> (0.4 <=? spam_score a)%float = true) /\
  (is_spam a = 0 <-> (0.4 <=? spam_score a)%float = false).
Proof.
  pose (P := fun n u c r : Z =>
    let a := analysis_of_signals n u c r in
    ((0 <=? spam_score a)%float && (spam_score a <=? 1)%float &&
     is_thousandths (spam_score a) &&
     Bool.eqb (is_spam a =? 1) (0.4 <=? spam_score a)%float &&
     Bool.eqb (is_spam a =? 0) (negb (0.4 <=? spam_score a)%float))%bool).
  assert (HP : for_all_signals P = true) by (vm_compute; reflexivity).
  pose proof (for_all_texts P HP text) as H.
  unfold P in H. clear P HP.
  change (analysis_of_signals _ _ _ _)
    with (analyze_comment_for_abuse text) in H.
  cbv zeta in *.
  revert H. generalize (analyze_comment_for_abuse text) as a.
  intros a H. split_bools.
  split; [assumption|]. split; [assumption|].
  split; [|split; split].
  - match goal with
    | Hk : is_thousandths _ = true |- _ =>
        apply existsb_exists in Hk; destruct Hk as (k & Hin & Heq)
    end.
    apply range_spec in Hin. exists k. split; [lia | exact Heq].
  - intros E. rewrite <- Z.eqb_eq in E.
    match goal with
    | Hb : Bool.eqb (is_spam a =? 1) _ = true |- _ =>
        apply eqb_prop in Hb; rewrite <- Hb; exact E
    end.
  - intros E. apply Z.eqb_eq.
    match goal with
    | Hb : Bool.eqb (is_spam a =? 1) _ = true |- _ =>
        apply eqb_prop in Hb; rewrite Hb; exact E
    end.
  - intros E. rewrite <- Z.eqb_eq in E.
    match goal with
    | Hb : Bool.eqb (is_spam a =? 0) _ = true |- _ =>
        apply eqb_prop in Hb; rewrite Hb in E;
        apply negb_true_iff in E; exact E
    end.
  - intros E. apply Z.eqb_eq.
    match goal with
    | Hb : Bool.eqb (is_spam a =? 0) _ = true |- _ =>
        apply eqb_prop in Hb; rewrite Hb; rewrite E; reflexivity
    end.
Qed.

(** The order on signal tuples: every component is at most the
    corresponding one. *)
Lemma signals_le_bool (n n' u u' c c' r r' : Z) :
  n <= n' -> u <= u' -> c <= c' -> r <= r' ->
  ((n <=? n') && (u <=? u') && (c <=? c') && (r <=? r'))%bool = true.
Proof.
  intros. repeat (apply andb_true_iff; split); now apply Z.leb_le.
Qed.

(** C5: raising the keyword count, or turning a flag from 0 to 1, never
    lowers the score, neither before nor after the rounding.  The theorem
    covers raising several components at once; the keyword count ranges
    over what the extractor can deliver, 0 to the number of configured
    keywords. *)
Theorem spam_score_monotone (n n' u u' c c' r r' : Z) :
  0 <= n <= n' -> n' <= len Config.SPAM_KEYWORDS ->
  0 <= u <= u' -> u' <= 1 ->
  0 <= c <= c' -> c' <= 1 ->
  0 <= r <= r' -> r' <= 1 ->
  (score_of_signals n u c r <=? score_of_signals n' u' c' r')%float = true /\
  (spam_score (analysis_of_signals n u c r) <=?
   spam_score (analysis_of_signals n' u' c' r'))%float = true.
Proof.
  intros Hn Hn' Hu Hu' Hc Hc' Hr Hr'.
  pose (Q := fun n u c r n' u' c' r' : Z =>
    implb ((n <=? n') && (u <=? u') && (c <=? c') && (r <=? r'))
      ((score_of_signals n u c r <=? score_of_signals n' u' c' r')%float &&
       (spam_score (analysis_of_signals n u c r) <=?
        spam_score (analysis_of_signals n' u' c' r'))%float)).
  pose (P := fun n u c r : Z => for_all_signals (Q n u c r)).
  assert (HP : for_all_signals P = true) by (vm_compute; reflexivity).
  assert (Hflag : forall z, 0 <= z <= 1 -> In z flag_values).
  { intros z Hz. simpl. lia. }
  assert (Hcount : forall z, 0 <= z <= len Config.SPAM_KEYWORDS ->
                             In z match_counts).
  { intros z Hz. apply range_spec. unfold len in Hz. lia. }
  assert (H1 : P n u c r = true).
  { apply (for_all_signals_sound P HP);
      [apply Hcount | apply Hflag | apply Hflag | apply Hflag]; lia. }
  assert (H2 : Q n u c r n' u' c' r' = true).
  { apply (for_all_signals_sound (Q n u c r) H1);
      [apply Hcount | apply Hflag | apply Hflag | apply Hflag]; lia. }
  unfold Q in H2.
  rewrite signals_le_bool in H2 by lia.
  simpl implb in H2. apply andb_true_iff in H2. exact H2.
Qed.

(** The claim's four cases, read off at sample tuples. *)
Lemma spam_score_monotone_witness :
  (score_of_signals 1 0 0 0 <=? score_of_signals 2 0 0 0)%float = true /\
  (score_of_signals 1 0 0 0 <=? score_of_signals 1 1 0 0)%float = true /\
  (score_of_signals 1 0 0 1 <=? score_of_signals 1 0 1 1)%float = true /\
  (score_of_signals 3 1 1 0 <=? score_of_signals 3 1 1 1)%float = true.
Proof.
  split; [|split; [|split]].
  - apply (spam_score_monotone 1 2 0 0 0 0 0 0); vm_compute;
      intuition discriminate.
  - apply (spam_score_monotone 1 1 0 1 0 0 0 0); vm_compute;
      intuition discriminate.
  - apply (spam_score_monotone 1 1 0 0 0 1 1 1); vm_compute;
      intuition discriminate.
  - apply (spam_score_monotone 3 3 1 1 1 1 0 1); vm_compute;
      intuition discriminate.
Defined.

Lemma count_if_filter {A : Type} (p : A -> bool) (l : list A) :
  count_if p l = len (filter p l).
Proof.
  unfold len. induction l as [|x l IH]; [reflexivity|].
  cbn [count_if filter]. rewrite IH.
  destruct (p x); [|lia].
  change (List.length (x :: filter p l)) with (S (List.length (filter p l))).
  lia.
Qed.

(** C7: for every text (a sequence of code points), [has_excessive_caps]
    is 1 exactly when the number of its uppercase characters over its
    length plus one exceeds 0.5 and the text is longer than 10 characters,
    and 0 otherwise; so it is 0 for every text of at most 10 characters.
    The uppercase characters are those with the Unicode property
    Uppercase: A to Z and, among others, U+00C0, U+00DE, U+0414, U+03A3,
    U+2167 and U+1D400, but no digit, space, punctuation mark, lowercase
    letter, U+00D7, U+00DF, the titlecase U+01C5, U+4E2D or U+1F600.
    Thirteen characters with ten capitals set the flag, ten characters
    with eight capitals do not, and neither do eleven characters with six
    capitals, whose ratio is 0.5. *)
Theorem excessive_caps_spec :
  (forall text : ustring,
     let a := analyze_comment_for_abuse text in
     caps_count text = len (filter isupper text) /\
     0 <= caps_count text <= str_len text /\
     caps_ratio text = true_div (caps_count text) (str_len text + 1) /\
     (has_excessive_caps a = 1 <->
        (0.5 <? caps_ratio text)%float = true /\ 10 < str_len text) /\
     (has_excessive_caps a = 0 <->
        ~ ((0.5 <? caps_ratio text)%float = true /\ 10 < str_len text)) /\
     (str_len text <= 10 -> has_excessive_caps a = 0)) /\
  forallb isupper (str "ABCDEFGHIJKLMNOPQRSTUVWXYZ") = true /\
  existsb isupper (str "abcdefghijklmnopqrstuvwxyz 0123456789 !?.,:;-_()@#")
  = false /\
  forallb isupper [192; 222; 1044; 931; 8551; 119808] = true /\
  existsb isupper [215; 223; 1076; 963; 453; 20013; 128512] = false /\
  str_len "HELLO WORLD!!" = 13 /\
  caps_count "HELLO WORLD!!" = 10 /\
  has_excessive_caps (analyze_comment_for_abuse "HELLO WORLD!!") = 1 /\
  has_excessive_caps (analyze_comment_for_abuse "hello world!!") = 0 /\
  has_excessive_caps (analyze_comment_for_abuse "!!!!!!!!!!!!!!") = 0 /\
  caps_count "SHOUTING!!" = 8 /\
  has_excessive_caps (analyze_comment_for_abuse "SHOUTING!!") = 0 /\
  caps_ratio "ABCDEFabcde" = 0.5%float /\
  has_excessive_caps (analyze_comment_for_abuse "ABCDEFabcde") = 0 /\
  has_excessive_caps (analyze_comment_for_abuse "ABCDEFGabcd") = 1 /\
  has_excessive_caps
    (analyze_comment_for_abuse
       [1055; 1056; 1048; 1042; 1045; 1058; 32; 1042; 1057; 1045; 1052; 32;
        1044; 1056; 1059; 1047; 1068; 1071]) = 1 /\
  has_excessive_caps
    (analyze_comment_for_abuse
       [1087; 1088; 1080; 1074; 1077; 1090; 32; 1074; 1089; 1077; 1084; 32;
        1076; 1088; 1091; 1079; 1100; 1103]) = 0 /\
  has_excessive_caps (analyze_comment_for_abuse (copies 12 128512)) = 0.
Proof.
  split; [|vm_compute; repeat split].
  intros text. cbv zeta.
  change (has_excessive_caps (analyze_comment_for_abuse text))
    with (has_excessive_caps_of text).
  split; [apply count_if_filter|].
  split; [split; [apply count_if_nonneg | apply count_if_le_len]|].
  split; [reflexivity|].
  unfold has_excessive_caps_of.
  generalize (caps_ratio text) as ratio. intros ratio.
  pose proof (Z.ltb_spec 10 (str_len text)) as Hlen.
  destruct (0.5 <? ratio)%float; destruct Hlen as [Hlen|Hlen]; simpl;
    intuition (lia || discriminate).
Qed.

(** Ten characters, eight of them capitals: the ratio 8/11 is above 0.5,
    yet the flag stays 0. *)
Lemma excessive_caps_spec_witness :
  (0.5 <? caps_ratio "SHOUTING!!")%float = true /\
  has_excessive_caps (analyze_comment_for_abuse "SHOUTING!!") = 0.
Proof.
  split; [vm_compute; reflexivity|].
  destruct excessive_caps_spec as [H _].
  apply (H "SHOUTING!!"). vm_compute. discriminate.
Defined.

(** C9: a text that contains [www.] fires the URL signal and matches the
    keyword [www.] (lower-casing keeps the occurrence), so its returned
    score is at least 0.6 and it is classified spam. *)
Theorem www_is_spam (text : ustring) :
  str_in "www." text = true ->
  let a := analyze_comment_for_abuse text in
  has_url a = 1 /\
  str_in "www." (lower text) = true /\
  1 <= spam_matches_of (lower text) /\
  (0.6 <=? spam_score a)%float = true /\
  is_spam a = 1.
Proof.
  intros Hwww. cbv zeta.
  assert (Hurl : has_url_of text = 1).
  { unfold has_url_of, re_search_url. rewrite Hwww.
    now rewrite orb_true_r. }
  assert (Hlow : str_in "www." (lower text) = true).
  { exact (str_in_lower "www." text eq_refl Hwww). }
  assert (Hkw : 1 <= spam_matches_of (lower text)).
  { unfold spam_matches_of.
    apply (count_if_hit _ _ (str "www.")); [|exact Hlow].
    unfold Config.SPAM_KEYWORDS. simpl. tauto. }
  pose (R := fun (n u : Z) (a : analysis) =>
    implb ((1 <=? n) && (u =? 1))
          ((0.6 <=? spam_score a)%float && (is_spam a =? 1))).
  assert (HR : for_all_signals
                 (fun n u c r => R n u (analysis_of_signals n u c r)) = true)
    by (vm_compute; reflexivity).
  pose proof (for_all_analyses R HR text) as H. clear HR.
  change (has_url (analyze_comment_for_abuse text)) with (has_url_of text).
  revert H. generalize (analyze_comment_for_abuse text) as a. intros a H.
  unfold R in H. rewrite Hurl in H.
  apply Z.leb_le in Hkw. rewrite Hkw in H. apply Z.leb_le in Hkw.
  change (implb (true && (1 =? 1)) ?b) with b in H.
  apply andb_true_iff in H. destruct H as [Hs Hc].
  apply Z.eqb_eq in Hc.
  split; [exact Hurl|]. split; [exact Hlow|]. split; [exact Hkw|].
  split; [exact Hs | exact Hc].
Qed.

Lemma www_is_spam_witness :
  is_spam (analyze_comment_for_abuse "see www.example.org") = 1.
Proof.
  apply (www_is_spam "see www.example.org"). vm_compute. reflexivity.
Defined.

(* ================================================================== *)
(** ** Sorting the timestamps                                           *)
(* ================================================================== *)

Definition instant_le (a b : datetime) : Prop := instant a <= instant b.

Lemma insert_sorted_perm (x : datetime) (l : list datetime) :
  Permutation (x :: l) (insert_sorted x l).
Proof.
  induction l as [|y l IH]; simpl; [reflexivity|].
  destruct (instant y <? instant x); [|reflexivity].
  rewrite perm_swap. now constructor.
Qed.

Lemma sorted_copy_perm (l : list datetime) : Permutation l (sorted_copy l).
Proof.
  induction l as [|x l IH]; simpl; [constructor|].
  rewrite <- insert_sorted_perm. now constructor.
Qed.

Lemma insert_sorted_sorted (x : datetime) (l : list datetime) :
  Sorted instant_le l -> Sorted instant_le (insert_sorted x l).
Proof.
  induction l as [|y l IH]; simpl; intros Hs.
  - repeat constructor.
  - destruct (instant y <? instant x) eqn:Hlt.
    + inversion Hs as [|? ? Hs' Hhd]; subst.
      constructor; [auto|].
      apply Z.ltb_lt in Hlt.
      destruct l as [|z l]; simpl.
      * constructor. unfold instant_le. lia.
      * destruct (instant z <? instant x).
        -- inversion Hhd; subst. now constructor.
        -- constructor. unfold instant_le. lia.
    + apply Z.ltb_ge in Hlt. constructor; [exact Hs|].
      constructor. exact Hlt.
Qed.

Lemma sorted_copy_sorted (l : list datetime) :
  Sorted instant_le (sorted_copy l).
Proof.
  induction l as [|x l IH]; simpl; [constructor|].
  now apply insert_sorted_sorted.
Qed.

Lemma list_sort_spec (l sorted : list datetime) :
  list_sort l = inr sorted ->
  Permutation l sorted /\ Sorted instant_le sorted.
Proof.
  unfold list_sort. destruct (same_kind l); [|discriminate].
  intros [= <-]. split; [apply sorted_copy_perm | apply sorted_copy_sorted].
Qed.

(** A list of copies of one timestamp is sorted as it stands. *)
Lemma sorted_copy_repeat (d : datetime) (n : nat) :
  sorted_copy (repeat d n) = repeat d n.
Proof.
  induction n as [|n IH]; simpl; [reflexivity|].
  rewrite IH. destruct n as [|n]; simpl; [reflexivity|].
  now rewrite Z.ltb_irrefl.
Qed.

Lemma same_kind_repeat (d : datetime) (n : nat) :
  same_kind (repeat d n) = true.
Proof.
  destruct n as [|n]; simpl; [reflexivity|].
  induction n as [|n IH]; simpl; [reflexivity|].
  rewrite IH. now rewrite eqb_reflx.
Qed.

Lemma last_repeat (d : datetime) (n : nat) : last (repeat d n) d = d.
Proof.
  induction n as [|n IH]; simpl; [reflexivity|].
  destruct n; [reflexivity | exact IH].
Qed.

(* ================================================================== *)
(** ** Parsing the timestamps                                           *)
(* ================================================================== *)

Section Parsing.

Variable fromisoformat : string -> option datetime.

Lemma parse_timestamps_fail (comments : list comment) (c : comment) :
  In c comments ->
  fromisoformat (replace "Z" "+00:00" (published_at c)) = None ->
  parse_timestamps fromisoformat comments = inl ValueError.
Proof.
  intros Hin Hbad.
  induction comments as [|a comments IH]; [destruct Hin|].
  simpl. unfold parse_published_at.
  destruct Hin as [-> | Hin].
  - now rewrite Hbad.
  - destruct (fromisoformat (replace "Z" "+00:00" (published_at a)));
      [|reflexivity].
    simpl. now rewrite (IH Hin).
Qed.

Lemma parse_timestamps_same (comments : list comment) (s : string)
  (d : datetime) :
  Forall (fun c => published_at c = s) comments ->
  fromisoformat (replace "Z" "+00:00" s) = Some d ->
  parse_timestamps fromisoformat comments
  = inr (repeat d (List.length comments)).
Proof.
  intros Hall Hd.
  induction Hall as [|a comments Ha _ IH]; [reflexivity|].
  simpl. unfold parse_published_at. rewrite Ha, Hd. simpl.
  now rewrite IH.
Qed.

Lemma velocity_short (comments : list comment) :
  len comments < 2 ->
  calculate_velocity_metrics fromisoformat comments = inr (PyFloat 0.0).
Proof.
  intros H. unfold calculate_velocity_metrics.
  apply Z.ltb_lt in H. now rewrite H.
Qed.

Lemma velocity_long (comments : list comment)
  (parsed timestamps : list datetime) :
  2 <= len comments ->
  parse_timestamps fromisoformat comments = inr parsed ->
  list_sort parsed = inr timestamps ->
  calculate_velocity_metrics fromisoformat comments
  = if (time_window_minutes timestamps =? of_int 0)%float
    then inr (PyInt (len comments))
    else inr (PyFloat
                (py_round
                   (of_int (len comments) / time_window_minutes timestamps)
                   2)).
Proof.
  intros Hlen Hp Hs. unfold calculate_velocity_metrics.
  apply Z.ltb_ge in Hlen. rewrite Hlen, Hp. unfold bind at 1.
  rewrite Hs. unfold bind.
  destruct (time_window_minutes timestamps =? of_int 0)%float; reflexivity.
Qed.

End Parsing.

(* ================================================================== *)
(** ** Velocity                                                         *)
(* ================================================================== *)

Lemma window_of_copies (d : datetime) (n : nat) :
  time_window_minutes (repeat d n) = 0.0%float.
Proof.
  destruct n as [|n]; [reflexivity|].
  unfold time_window_minutes.
  change (repeat d (S n)) with (d :: repeat d n) at 1.
  cbv iota. rewrite last_repeat. unfold dt_sub. rewrite Z.sub_diag.
  vm_compute. reflexivity.
Qed.

(** [round_half_even p e] is the integer nearest to [p * 2 ^ e], the even
    one of the two when they are equally near. *)
Lemma round_half_even_nearest (p e : Z) :
  0 <= p -> e < 0 ->
  let n := round_half_even p e in
  let d := 2 ^ (- e) in
  2 * Z.abs (n * d - p) <= d /\
  (2 * Z.abs (n * d - p) = d -> Z.even n = true).
Proof.
  intros Hp He. unfold round_half_even.
  destruct (Z.leb_spec 0 e) as [|_]; [lia|].
  assert (Hd : 0 < 2 ^ (- e)) by (apply Z.pow_pos_nonneg; lia).
  cbv zeta.
  set (d := 2 ^ (- e)) in *.
  pose proof (Z.div_mod p d ltac:(lia)) as Hdm.
  pose proof (Z.mod_pos_bound p d Hd) as Hr.
  set (q := p / d) in *. set (r := p mod d) in *.
  destruct (2 * r ?= d) eqn:C.
  - apply Z.compare_eq in C.
    destruct (Z.even q) eqn:Ev.
    + split; [nia|]. intros _. exact Ev.
    + split; [nia|]. intros _.
      rewrite Z.even_add, Ev. reflexivity.
  - change (2 * r < d) in C. split; [nia|]. intros H. nia.
  - apply Z.compare_gt_iff in C. split; [nia|]. intros H. nia.
Qed.

(** Only one integer is nearest, and even on a tie. *)
Lemma nearest_unique (p d n n' : Z) :
  0 < d ->
  2 * Z.abs (n * d - p) <= d ->
  (2 * Z.abs (n * d - p) = d -> Z.even n = true) ->
  2 * Z.abs (n' * d - p) <= d ->
  (2 * Z.abs (n' * d - p) = d -> Z.even n' = true) ->
  n = n'.
Proof.
  intros Hd H1 E1 H2 E2.
  assert (Hclose : Z.abs (n - n') <= 1) by nia.
  destruct (Z.eq_dec n n') as [|Hne]; [assumption|exfalso].
  assert (Hcase : n = n' + 1 \/ n' = n + 1) by lia.
  assert (T1 : 2 * Z.abs (n * d - p) = d) by nia.
  assert (T2 : 2 * Z.abs (n' * d - p) = d) by nia.
  specialize (E1 T1). specialize (E2 T2).
  destruct Hcase as [-> | ->].
  - rewrite Z.even_add in E1. rewrite E2 in E1. discriminate.
  - rewrite Z.even_add in E2. rewrite E1 in E2. discriminate.
Qed.

(** [round(x, 2)] of a [float] [x = m * 2 ^ e] that is not an integer:
    the [float] nearest to [n / 100], for the integer [n] nearest to
    [100 * x], the even one on a tie. *)
Lemma py_round_nearest (x : float) (s : bool) (m : positive) (e n : Z) :
  Prim2SF x = S754_finite s m e -> e < 0 -> n < 2 ^ 53 ->
  2 * Z.abs (n * 2 ^ (- e) - Zpos m * 100) <= 2 ^ (- e) ->
  (2 * Z.abs (n * 2 ^ (- e) - Zpos m * 100) = 2 ^ (- e) ->
   Z.even n = true) ->
  py_round x 2
  = if s then (- (of_int n / of_int 100))%float
    else (of_int n / of_int 100)%float.
Proof.
  intros E He Hn H1 H2.
  destruct (round_half_even_nearest (Zpos m * 100) e ltac:(lia) He)
    as [A B].
  assert (Hd : 0 < 2 ^ (- e)) by (apply Z.pow_pos_nonneg; lia).
  pose proof (nearest_unique _ _ _ _ Hd H1 H2 A B) as Heq.
  unfold py_round. rewrite E. change (10 ^ 2) with 100. cbv zeta.
  rewrite <- Heq.
  destruct (Z.leb_spec (2 ^ 53) n) as [Hbig|_]; [lia|].
  destruct s; reflexivity.
Qed.

(** C6: fewer than two comments give 0.0; otherwise the timestamps are
    sorted, the window is the distance from the first to the last in
    seconds over 60, a window of 0 gives the raw count (in particular
    whenever all timestamps are the same string) and any other window
    gives count / window rounded to two decimals.  The distance is taken
    between instants: each wall-clock reading less its UTC offset.  The
    rounding is to the nearest hundredth, to the even one on a tie, and
    the seconds are the microseconds over 10^6 rounded once.  Five
    comments with one timestamp give the count 5, numerically 5.0; ten
    comments spread over five minutes give 2.0; three over seven minutes
    give 0.43, two over sixteen 0.12 and three over eight 0.38; two
    comments a minute apart, written with different offsets, give 2.0. *)
Theorem velocity_spec :
  (forall (fromisoformat : string -> option datetime)
          (comments : list comment),
     (len comments < 2 ->
      calculate_velocity_metrics fromisoformat comments
      = inr (PyFloat 0.0)) /\
     (forall parsed timestamps,
        2 <= len comments ->
        parse_timestamps fromisoformat comments = inr parsed ->
        list_sort parsed = inr timestamps ->
        let window := time_window_minutes timestamps in
        Permutation parsed timestamps /\
        Sorted instant_le timestamps /\
        (forall first rest, timestamps = first :: rest ->
           window = (total_seconds
                       (instant (last timestamps first) - instant first)
                     / of_int 60)%float) /\
        (forall first rest o1 o2, timestamps = first :: rest ->
           utcoffset first = Some o1 ->
           utcoffset (last timestamps first) = Some o2 ->
           window = (total_seconds
                       ((wall_us (last timestamps first) - o2)
                        - (wall_us first - o1))
                     / of_int 60)%float) /\
        (forall first rest, timestamps = first :: rest ->
           utcoffset first = None ->
           utcoffset (last timestamps first) = None ->
           window = (total_seconds
                       (wall_us (last timestamps first) - wall_us first)
                     / of_int 60)%float) /\
        ((window =? of_int 0)%float = true ->
         calculate_velocity_metrics fromisoformat comments
         = inr (PyInt (len comments))) /\
        ((window =? of_int 0)%float = false ->
         calculate_velocity_metrics fromisoformat comments
         = inr (PyFloat (py_round (of_int (len comments) / window) 2)))) /\
     (forall s d,
        2 <= len comments ->
        Forall (fun c => published_at c = s) comments ->
        fromisoformat (replace "Z" "+00:00" s) = Some d ->
        calculate_velocity_metrics fromisoformat comments
        = inr (PyInt (len comments)))) /\
  (forall (x : float) (s : bool) (m : positive) (e n : Z),
     Prim2SF x = S754_finite s m e -> e < 0 -> n < 2 ^ 53 ->
     2 * Z.abs (n * 2 ^ (- e) - Zpos m * 100) <= 2 ^ (- e) ->
     (2 * Z.abs (n * 2 ^ (- e) - Zpos m * 100) = 2 ^ (- e) ->
      Z.even n = true) ->
     py_round x 2
     = if s then (- (of_int n / of_int 100))%float
       else (of_int n / of_int 100)%float) /\
  calculate_velocity_metrics Iso.fromisoformat burst_batch = inr (PyInt 5) /\
  to_float (PyInt 5) = 5.0%float /\
  calculate_velocity_metrics Iso.fromisoformat five_minute_batch
  = inr (PyFloat 2.0) /\
  calculate_velocity_metrics Iso.fromisoformat
    [sample_comment "UC1" "hello" "2024-01-01T12:00:00Z"]
  = inr (PyFloat 0.0) /\
  calculate_velocity_metrics Iso.fromisoformat
    (published_batch [ "2024-01-01T12:07:00Z"; "2024-01-01T12:00:00Z";
                       "2024-01-01T12:03:00Z" ])
  = inr (PyFloat 0.43) /\
  calculate_velocity_metrics Iso.fromisoformat
    (published_batch [ "2024-01-01T12:00:00Z"; "2024-01-01T12:16:00Z" ])
  = inr (PyFloat 0.12) /\
  calculate_velocity_metrics Iso.fromisoformat
    (published_batch [ "2024-01-01T12:00:00Z"; "2024-01-01T12:04:00Z";
                       "2024-01-01T12:08:00Z" ])
  = inr (PyFloat 0.38) /\
  calculate_velocity_metrics Iso.fromisoformat
    (published_batch [ "2024-01-01T12:00:00Z";
                       "2024-01-01T12:00:01.500000Z" ])
  = inr (PyFloat 80.0) /\
  calculate_velocity_metrics Iso.fromisoformat
    (published_batch [ "2024-01-01T12:00:00+00:00";
                       "2024-01-01T14:01:00+02:00" ])
  = inr (PyFloat 2.0) /\
  calculate_velocity_metrics Iso.fromisoformat
    (published_batch [ "2024-01-01T14:00:00+02:00";
                       "2024-01-01T12:30:00+00:00";
                       "2024-01-01T08:15:00-04:00" ])
  = inr (PyFloat 0.1) /\
  calculate_velocity_metrics Iso.fromisoformat
    (published_batch [ "2024-01-01T12:00:00Z";
                       "2024-01-01T14:00:00+02:00" ])
  = inr (PyInt 2) /\
  py_round 2.675 2 = 2.67%float /\
  total_seconds 90500000 = 90.5%float /\
  total_seconds 76982702851241020 = 76982702851.24101%float.
Proof.
  split; [|split; [exact py_round_nearest | vm_compute; repeat split]].
  intros f comments. split; [apply velocity_short|]. split.
  - intros parsed timestamps Hlen Hp Hs window.
    destruct (list_sort_spec _ _ Hs) as [Hperm Hsorted].
    split; [exact Hperm|]. split; [exact Hsorted|].
    assert (Hw : forall first rest, timestamps = first :: rest ->
              window = (total_seconds
                          (instant (last timestamps first) - instant first)
                        / of_int 60)%float).
    { intros first rest E. unfold window, time_window_minutes.
      rewrite E. reflexivity. }
    split; [exact Hw|]. split; [|split].
    + intros first rest o1 o2 E E1 E2. rewrite (Hw first rest E).
      unfold instant. rewrite E1, E2. reflexivity.
    + intros first rest E E1 E2. rewrite (Hw first rest E).
      unfold instant. rewrite E1, E2. reflexivity.
    + rewrite (velocity_long f comments parsed timestamps Hlen Hp Hs).
      fold window. split; intros ->; reflexivity.
  - intros s d Hlen Hall Hd.
    rewrite (velocity_long f comments
               (repeat d (List.length comments))
               (repeat d (List.length comments)) Hlen).
    + rewrite window_of_copies. reflexivity.
    + now apply parse_timestamps_same with (s := s).
    + unfold list_sort.
      now rewrite same_kind_repeat, sorted_copy_repeat.
Qed.

(** The general statement read at the burst of five, at a single
    comment, and at the rounding of 0.375, a tie between 0.37 and 0.38. *)
Lemma velocity_spec_witness :
  calculate_velocity_metrics Iso.fromisoformat burst_batch
  = inr (PyInt (len burst_batch)) /\
  calculate_velocity_metrics Iso.fromisoformat (firstn 1 burst_batch)
  = inr (PyFloat 0.0) /\
  py_round 0.375 2 = (of_int 38 / of_int 100)%float.
Proof.
  destruct velocity_spec as [H [R _]]. split; [|split].
  - apply (proj2 (proj2 (H Iso.fromisoformat burst_batch))
             "2024-01-01T12:00:00Z"
             {| wall_us := 63839707200000000; utcoffset := Some 0 |}).
    + vm_compute. discriminate.
    + unfold burst_batch. simpl. repeat constructor.
    + vm_compute. reflexivity.
  - apply (proj1 (H Iso.fromisoformat (firstn 1 burst_batch))).
    vm_compute. reflexivity.
  - apply (R 0.375%float false 6755399441055744%positive (-54) 38).
    + vm_compute. reflexivity.
    + lia.
    + vm_compute. reflexivity.
    + vm_compute. discriminate.
    + intros _. reflexivity.
Defined.


(** C10: a batch of fewer than two comments yields 0.0 whatever the
    parser does, so also under a parser that refuses every string: the
    timestamps are not read. *)
Theorem velocity_short_batch_skips_parsing
  (fromisoformat : string -> option datetime) (comments : list comment) :
  len comments < 2 ->
  calculate_velocity_metrics fromisoformat comments = inr (PyFloat 0.0) /\
  calculate_velocity_metrics (fun _ => None) comments = inr (PyFloat 0.0).
Proof.
  intros H. split; now apply velocity_short.
Qed.

(** A single comment whose timestamp does not parse still yields 0.0. *)
Lemma velocity_short_batch_witness :
  Iso.fromisoformat
    (replace "Z" "+00:00" (published_at malformed_comment)) = None /\
  calculate_velocity_metrics Iso.fromisoformat malformed_singleton
  = inr (PyFloat 0.0).
Proof.
  split; [vm_compute; reflexivity|].
  apply (velocity_short_batch_skips_parsing
           Iso.fromisoformat malformed_singleton).
  vm_compute. reflexivity.
Defined.

(** C2, as the specification words it, fails on a batch of one comment:
    its timestamp does not parse, and the velocity is 0.0, not an
    error. *)
Lemma velocity_malformed_singleton_is_zero :
  In malformed_comment malformed_singleton /\
  Iso.fromisoformat
    (replace "Z" "+00:00" (published_at malformed_comment)) = None /\
  calculate_velocity_metrics Iso.fromisoformat malformed_singleton
  = inr (PyFloat 0.0) /\
  ~ (exists e, calculate_velocity_metrics Iso.fromisoformat
                 malformed_singleton = inl e).
Proof.
  split; [now left|]. split; [vm_compute; reflexivity|].
  split; [vm_compute; reflexivity|].
  intros [e He]. vm_compute in He. discriminate.
Qed.

(** C2, as the code has it: in a batch of at least two comments, one
    timestamp that does not parse makes the velocity computation raise
    [ValueError]; no number is returned, 0.0 or other. *)
Theorem velocity_malformed_raises
  (fromisoformat : string -> option datetime)
  (comments : list comment) (c : comment) :
  2 <= len comments ->
  In c comments ->
  fromisoformat (replace "Z" "+00:00" (published_at c)) = None ->
  calculate_velocity_metrics fromisoformat comments = inl ValueError /\
  forall v, calculate_velocity_metrics fromisoformat comments <> inr v.
Proof.
  intros Hlen Hin Hbad.
  assert (E : calculate_velocity_metrics fromisoformat comments
              = inl ValueError).
  { unfold calculate_velocity_metrics.
    apply Z.ltb_ge in Hlen. rewrite Hlen.
    now rewrite (parse_timestamps_fail fromisoformat comments c Hin Hbad). }
  split; [exact E|]. intros v. rewrite E. discriminate.
Qed.

Lemma velocity_malformed_raises_witness :
  calculate_velocity_metrics Iso.fromisoformat malformed_pair
  = inl ValueError.
Proof.
  apply (velocity_malformed_raises
           Iso.fromisoformat malformed_pair malformed_comment).
  - vm_compute. discriminate.
  - right. now left.
  - vm_compute. reflexivity.
Defined.

(* ================================================================== *)
(** ** Aggregation                                                      *)
(* ================================================================== *)

(** A returned score above 0.6 comes with the spam flag. *)
Lemma suspicious_is_spam (text : ustring) :
  let a := analyze_comment_for_abuse text in
  (0.6 <? spam_score a)%float = true -> is_spam a = 1.
Proof.
  pose (R := fun (_ _ : Z) (a : analysis) =>
    implb (0.6 <? spam_score a)%float (is_spam a =? 1)).
  assert (HR : for_all_signals
                 (fun n u c r => R n u (analysis_of_signals n u c r)) = true)
    by (vm_compute; reflexivity).
  pose proof (for_all_analyses R HR text) as H. clear HR.
  cbv zeta. revert H.
  generalize (analyze_comment_for_abuse text) as a. intros a H Hs.
  unfold R in H. rewrite Hs in H. now apply Z.eqb_eq.
Qed.

(** C8: in a scored batch every comment counted as suspicious (returned
    score above 0.6) carries the spam flag, so the row that
    [store_abuse_metrics] appends has
    [suspicious_accounts <= spam_comments <= total_comments]. *)
Theorem metrics_counts_ordered
  (fromisoformat : string -> option datetime) (raws : list raw_comment) :
  let comments := map scored raws in
  (forall c, In c comments ->
     (0.6 <? spam_score (abuse c))%float = true -> is_spam (abuse c) = 1) /\
  (forall db now vid db',
     store_abuse_metrics fromisoformat db now vid comments = inr db' ->
     exists row,
       db' = db ++ [row] /\
       total_comments row = len comments /\
       0 <= suspicious_accounts row /\
       suspicious_accounts row <= spam_comments row /\
       spam_comments row <= total_comments row).
Proof.
  intros comments.
  assert (Hc : forall c, In c comments ->
            (0.6 <? spam_score (abuse c))%float = true ->
            is_spam (abuse c) = 1).
  { intros c Hin. unfold comments in Hin. apply in_map_iff in Hin.
    destruct Hin as (r & <- & _).
    exact (suspicious_is_spam (raw_text_display r)). }
  split; [exact Hc|].
  intros db now vid db'. unfold store_abuse_metrics.
  destruct (calculate_velocity_metrics fromisoformat comments) as [e|v];
    [discriminate|].
  unfold bind, ret. intros [= <-].
  eexists. split; [reflexivity|]. cbn [total_comments suspicious_accounts
                                       spam_comments].
  split; [reflexivity|]. split; [apply count_if_nonneg|].
  split; [|apply count_if_le_len].
  apply count_if_mono. intros c Hin Hs.
  apply Z.eqb_eq. now apply Hc.
Qed.

(** Three comments: one suspicious, two spam. *)
Lemma metrics_counts_ordered_witness :
  exists row,
    store_abuse_metrics Iso.fromisoformat [] "2024-01-01T12:30:00" "v"
      (map scored spam_raws) = inr [row] /\
    suspicious_accounts row <= spam_comments row /\
    spam_comments row <= total_comments row.
Proof.
  assert (E : exists db',
            store_abuse_metrics Iso.fromisoformat [] "2024-01-01T12:30:00"
              "v" (map scored spam_raws) = inr db')
    by (eexists; vm_compute; reflexivity).
  destruct E as [db' E].
  destruct (proj2 (metrics_counts_ordered Iso.fromisoformat spam_raws)
              [] "2024-01-01T12:30:00" "v" db' E)
    as (row & -> & _ & _ & H1 & H2).
  exists row. split; [exact E|]. split; assumption.
Defined.

(* ================================================================== *)
(** ** Coordination                                                     *)
(* ================================================================== *)

(** C1, evaluated on ten comments with one text and one author: the code
    counts one duplicated text, not ten duplicated comments, so its
    [duplicate_ratio] is 0.1 and its score 0.42, where the ratio worded by
    the specification is 1.0 and gives 0.96.  Five pairs of equal texts
    get the larger ratio 0.5. *)
Theorem copypasta_coordination :
  len copypasta_batch = 10 /\
  len (distinct (map author_channel_id copypasta_batch)) = 1 /\
  len (distinct (map text_display copypasta_batch)) = 1 /\
  Counter (map (fun c => lower (text_display c)) copypasta_batch)
  = [(str "great video", 10)] /\
  duplicate_ratio copypasta_batch = 0.1%float /\
  spec_duplicate_ratio copypasta_batch = 1.0%float /\
  author_diversity copypasta_batch = 0.1%float /\
  detect_coordinated_activity copypasta_batch = 0.42%float /\
  spec_coordination_score copypasta_batch = 0.96%float /\
  duplicate_ratio paired_batch = 0.5%float.
Proof. vm_compute. repeat split. Qed.

(* ================================================================== *)
(** ** Further properties of the scored comment                         *)
(* ================================================================== *)

Lemma str_in_padded (p pre t post : ustring) :
  str_in p t = true -> str_in p (pre ++ t ++ post) = true.
Proof.
  intros H. now apply str_in_app_l, str_in_app_r.
Qed.

Lemma repeats_prefix (a : Z) (n : nat) (s : ustring) :
  repeats a n s = prefix (copies n a) s.
Proof.
  revert s. induction n as [|n IH]; intros s; [reflexivity|].
  destruct s as [|b s]; [reflexivity|].
  cbn [repeats copies prefix]. now rewrite IH.
Qed.

Lemma prefix_copies_head (a b : Z) (n : nat) (s : ustring) :
  prefix (copies (S n) a) (b :: s) = true ->
  a = b /\ prefix (copies n a) s = true.
Proof.
  cbn [copies prefix]. rewrite andb_true_iff, Z.eqb_eq. trivial.
Qed.

Lemma re_search_repeat_spec (s : ustring) :
  re_search_repeat s = true <->
  exists c, c <> 10 /\ str_in (copies 4 c) s = true.
Proof.
  induction s as [|a s IH].
  - simpl. split; [discriminate|].
    intros (c & _ & H). discriminate.
  - cbn [re_search_repeat]. rewrite orb_true_iff, andb_true_iff.
    rewrite negb_true_iff, Z.eqb_neq, repeats_prefix, IH.
    cbn [str_in]. split.
    + intros [[Ha Hp] | (c & Hc & Hin)].
      * exists a. split; [exact Ha|]. apply orb_true_iff. left.
        change (copies 4 a) with (a :: copies 3 a).
        cbn [prefix]. now rewrite Z.eqb_refl.
      * exists c. split; [exact Hc|]. apply orb_true_iff. now right.
    + intros (c & Hc & Hin). apply orb_true_iff in Hin.
      destruct Hin as [Hp | Hin].
      * apply prefix_copies_head in Hp. destruct Hp as [<- Hp]. now left.
      * right. now exists c.
Qed.

(** The returned dictionary, read in exact tenths, on the whole space of
    signals. *)
Lemma analysis_points_checked :
  for_all_signals (fun n u c r =>
    let a := analysis_of_signals n u c r in
    let p := signal_points n u (has_excessive_caps a)
               (has_repetitive_chars a) in
    (spam_score a =? true_div (Z.min 10 p) 10)%float &&
    Bool.eqb (is_spam a =? 1) (4 <=? p) &&
    Bool.eqb (0.6 <? spam_score a)%float (7 <=? p)) = true.
Proof. vm_cast_no_check (eq_refl true). Qed.

Lemma analysis_points (text : ustring) :
  let a := analyze_comment_for_abuse text in
  let p := signal_points (spam_matches_of (lower text)) (has_url_of text)
             (has_excessive_caps a) (has_repetitive_chars a) in
  (spam_score a =? true_div (Z.min 10 p) 10)%float = true /\
  (is_spam a =? 1) = (4 <=? p) /\
  (0.6 <? spam_score a)%float = (7 <=? p).
Proof.
  pose proof (for_all_analyses
    (fun n u a =>
      let p := signal_points n u (has_excessive_caps a)
                 (has_repetitive_chars a) in
      (spam_score a =? true_div (Z.min 10 p) 10)%float &&
      Bool.eqb (is_spam a =? 1) (4 <=? p) &&
      Bool.eqb (0.6 <? spam_score a)%float (7 <=? p))
    analysis_points_checked text) as H.
  cbv zeta in *. revert H.
  generalize (analyze_comment_for_abuse text) as a. intros a H.
  split_bools.
  split; [assumption|]. split; now apply eqb_prop.
Qed.

(** X1: the returned [spam_score] is exactly the weighted sum of the
    signals in tenths (3 per matched keyword, 3 for a URL, 2 for capitals,
    2 for repetition), capped at ten tenths: floating-point error of the
    sum never survives the rounding. *)
Theorem spam_score_exact_tenths (text : ustring) :
  let a := analyze_comment_for_abuse text in
  let p := signal_points (spam_matches_of (lower text)) (has_url a)
             (has_excessive_caps a) (has_repetitive_chars a) in
  (spam_score a =? true_div (Z.min 10 p) 10)%float = true.
Proof. exact (proj1 (analysis_points text)). Qed.

(** X2: a comment is classified spam exactly when its signals weigh at
    least four tenths in exact arithmetic, and its returned score is above
    0.6 (a suspicious account) exactly when they weigh at least seven
    tenths. *)
Theorem spam_thresholds_exact (text : ustring) :
  let a := analyze_comment_for_abuse text in
  let p := signal_points (spam_matches_of (lower text)) (has_url a)
             (has_excessive_caps a) (has_repetitive_chars a) in
  (is_spam a = 1 <-> 4 <= p) /\
  (is_spam a = 0 <-> p < 4) /\
  ((0.6 <? spam_score a)%float = true <-> 7 <= p).
Proof.
  destruct (analysis_points text) as (_ & Hs & Hq).
  pose proof (for_all_analyses
    (fun _ _ a => (is_spam a =? 0) || (is_spam a =? 1))) as Hflag.
  specialize (Hflag eq_refl text).
  cbv zeta in *.
  change (has_url (analyze_comment_for_abuse text)) with (has_url_of text).
  revert Hs Hq Hflag.
  generalize (analyze_comment_for_abuse text) as a. intros a Hs Hq Hflag.
  set (p := signal_points _ _ _ _) in *. clearbody p.
  rewrite Hq. rewrite Z.leb_le.
  apply orb_true_iff in Hflag. rewrite !Z.eqb_eq in Hflag.
  destruct (Z.leb_spec 4 p) as [Hp|Hp];
    [apply Z.eqb_eq in Hs | apply Z.eqb_neq in Hs]; intuition lia.
Qed.

Lemma has_url_of_true (text : ustring) :
  has_url_of text = 1 -> re_search_url text = true.
Proof.
  unfold has_url_of. destruct (re_search_url text); [trivial | discriminate].
Qed.

(** Each URL pattern contains a configured keyword. *)
Lemma url_has_keyword (text : ustring) :
  re_search_url text = true -> 1 <= spam_matches_of (lower text).
Proof.
  unfold re_search_url. rewrite !orb_true_iff. intros [[H|H]|H].
  - apply (str_in_app_pattern "http" "://") in H.
    apply (str_in_lower "http" text eq_refl) in H. unfold spam_matches_of.
    apply (count_if_hit _ _ (str "http")); [|exact H].
    unfold Config.SPAM_KEYWORDS. simpl. tauto.
  - apply (str_in_app_pattern "http" "s://") in H.
    apply (str_in_lower "http" text eq_refl) in H. unfold spam_matches_of.
    apply (count_if_hit _ _ (str "http")); [|exact H].
    unfold Config.SPAM_KEYWORDS. simpl. tauto.
  - apply (str_in_lower "www." text eq_refl) in H. unfold spam_matches_of.
    apply (count_if_hit _ _ (str "www.")); [|exact H].
    unfold Config.SPAM_KEYWORDS. simpl. tauto.
Qed.

Lemma url_and_keyword_checked :
  for_all_signals (fun n u c r =>
    let a := analysis_of_signals n u c r in
    implb ((1 <=? n) && (u =? 1))
      ((0.6 <=? spam_score a)%float && (is_spam a =? 1))) = true.
Proof. vm_cast_no_check (eq_refl true). Qed.

(** X3: whenever the URL signal fires (on [http://], [https://] or
    [www.]), a keyword matches as well ([http] or [www.]), so the returned
    score is at least 0.6 and the comment is classified spam: no comment
    with a link is ever left unflagged. *)
Theorem url_is_spam (text : ustring) :
  has_url (analyze_comment_for_abuse text) = 1 ->
  1 <= spam_matches_of (lower text) /\
  (0.6 <=? spam_score (analyze_comment_for_abuse text))%float = true /\
  is_spam (analyze_comment_for_abuse text) = 1.
Proof.
  change (has_url (analyze_comment_for_abuse text)) with (has_url_of text).
  intros Hurl.
  pose proof (url_has_keyword text (has_url_of_true text Hurl)) as Hkw.
  split; [exact Hkw|].
  pose proof (for_all_analyses
    (fun n u a =>
       implb ((1 <=? n) && (u =? 1))
         ((0.6 <=? spam_score a)%float && (is_spam a =? 1)))
    url_and_keyword_checked text) as H.
  revert H. generalize (analyze_comment_for_abuse text) as a. intros a H.
  rewrite Hurl in H. apply Z.leb_le in Hkw. rewrite Hkw in H.
  change (implb (true && (1 =? 1)) ?b) with b in H.
  apply andb_true_iff in H. destruct H as [Hs Hc].
  apply Z.eqb_eq in Hc. split; assumption.
Qed.

Lemma url_is_spam_witness :
  is_spam (analyze_comment_for_abuse "docs at https://example.org") = 1.
Proof.
  apply (url_is_spam "docs at https://example.org").
  vm_compute. reflexivity.
Defined.

(** X4: [has_repetitive_chars] is 1 exactly when some character (any
    code point) other than a line feed occurs four times in a row, and 0
    otherwise; a run of line feeds alone never sets it. *)
Theorem repetitive_chars_spec (text : ustring) :
  let a := analyze_comment_for_abuse text in
  (has_repetitive_chars a = 1 <->
     exists c, c <> 10 /\ str_in (copies 4 c) text = true) /\
  (has_repetitive_chars a = 0 <->
     forall c, str_in (copies 4 c) text = true -> c = 10).
Proof.
  cbv zeta.
  change (has_repetitive_chars (analyze_comment_for_abuse text))
    with (has_repetitive_of text).
  unfold has_repetitive_of.
  pose proof (re_search_repeat_spec text) as H.
  destruct (re_search_repeat text).
  - assert (E : exists c, c <> 10 /\ str_in (copies 4 c) text = true)
      by now apply H.
    split; split; trivial; try discriminate.
    intros Hall. destruct E as (c & Hc & Hin). now apply Hall in Hin.
  - split; split; try discriminate; trivial.
    + intros E. apply H in E. discriminate.
    + intros _ c Hin. destruct (Z.eq_dec c 10) as [E|E]; [exact E|].
      assert (false = true) by (apply H; now exists c). discriminate.
Qed.

Lemma analysis_monotone_checked :
  for_all_signals (fun n u c r =>
    for_all_signals (fun n' u' c' r' =>
      let a := analysis_of_signals n u c r in
      let a' := analysis_of_signals n' u' c' r' in
      implb ((n <=? n') && (u <=? u') && (c <=? c') && (r <=? r'))
        ((spam_score a <=? spam_score a')%float &&
         (is_spam a <=? is_spam a')))) = true.
Proof. vm_cast_no_check (eq_refl true). Qed.

Lemma analysis_monotone (n n' u u' c c' r r' : Z) :
  In n match_counts -> In n' match_counts ->
  In u flag_values -> In u' flag_values ->
  In c flag_values -> In c' flag_values ->
  In r flag_values -> In r' flag_values ->
  n <= n' -> u <= u' -> c <= c' -> r <= r' ->
  (spam_score (analysis_of_signals n u c r) <=?
   spam_score (analysis_of_signals n' u' c' r'))%float = true /\
  is_spam (analysis_of_signals n u c r)
  <= is_spam (analysis_of_signals n' u' c' r').
Proof.
  intros Hn Hn' Hu Hu' Hc Hc' Hr Hr' Ln Lu Lc Lr.
  pose proof (for_all_signals_sound _ analysis_monotone_checked
                n u c r Hn Hu Hc Hr) as H.
  cbv beta in H.
  pose proof (for_all_signals_sound _ H n' u' c' r' Hn' Hu' Hc' Hr') as H'.
  cbv beta zeta in H'.
  rewrite signals_le_bool in H' by assumption.
  change (implb true ?b) with b in H'.
  apply andb_true_iff in H'. destruct H' as [Hs Hi].
  apply Z.leb_le in Hi. split; assumption.
Qed.

Lemma flag_le (b b' : bool) :
  (b = true -> b' = true) -> (if b then 1 else 0) <= (if b' then 1 else 0).
Proof. destruct b, b'; intros H; try lia; discriminate (H eq_refl). Qed.

(** Lower-casing a text inside a longer one gives what lower-casing it
    alone gives, up to the form of the small sigmas. *)
Lemma lower_from_inside (t before before' post : ustring) :
  exists middle,
    lower_from before' (t ++ post)
    = middle ++ lower_from (rev t ++ before') post /\
    Forall2 same_but_sigma (lower_from before t) middle.
Proof.
  revert before before'.
  induction t as [|c t IH]; intros before before'.
  - exists []. split; [reflexivity | constructor].
  - destruct (IH (c :: before) (c :: before')) as (m & E & F).
    exists (lower_char before' c (t ++ post) ++ m). split.
    + cbn [app lower_from rev]. rewrite E, <- !app_assoc. reflexivity.
    + cbn [lower_from]. apply Forall2_app; [|exact F].
      unfold lower_char. destruct (c =? 931).
      * constructor; [|constructor]. right.
        split; [destruct (final_sigma before t)
               | destruct (final_sigma before' (t ++ post))]; auto.
      * clear. induction (lower_full c) as [|x l IHl]; constructor;
          [now left | exact IHl].
Qed.

Lemma prefix_but_sigma (p u v : ustring) :
  sigma_free p = true -> Forall2 same_but_sigma u v ->
  prefix p u = true -> prefix p v = true.
Proof.
  intros Hp F. revert p Hp.
  induction F as [|a b u v Hab F IH]; intros p Hp.
  - trivial.
  - destruct p as [|x p]; [reflexivity|].
    cbn [prefix]. rewrite !andb_true_iff, !Z.eqb_eq.
    unfold sigma_free in Hp. cbn [forallb] in Hp.
    apply andb_true_iff in Hp. destruct Hp as [Hx Hp].
    apply andb_true_iff in Hx. destruct Hx as [H2 H3].
    apply negb_true_iff, Z.eqb_neq in H2.
    apply negb_true_iff, Z.eqb_neq in H3.
    intros [-> H]. split; [|now apply IH].
    destruct Hab as [-> | [[->| ->] _]]; [reflexivity | lia | lia].
Qed.

Lemma str_in_but_sigma (p u v : ustring) :
  sigma_free p = true -> Forall2 same_but_sigma u v ->
  str_in p u = true -> str_in p v = true.
Proof.
  intros Hp F.
  induction F as [|a b u v Hab F IH].
  - trivial.
  - assert (F' : Forall2 same_but_sigma (a :: u) (b :: v))
      by now constructor.
    cbn [str_in]. rewrite !orb_true_iff. intros [H|H]; [left|right; auto].
    exact (prefix_but_sigma p _ _ Hp F' H).
Qed.

(** A pattern without a small sigma that occurs in the lower-cased text
    occurs in the lower-cased text with more text around it. *)
Lemma str_in_lower_padded (p pre t post : ustring) :
  sigma_free p = true ->
  str_in p (lower t) = true -> str_in p (lower (pre ++ t ++ post)) = true.
Proof.
  intros Hp H. unfold lower.
  destruct (lower_from_inside pre [] [] (t ++ post)) as (m1 & E1 & _).
  rewrite E1.
  destruct (lower_from_inside t [] (rev pre ++ []) post) as (m2 & E2 & F).
  rewrite E2. apply str_in_padded.
  exact (str_in_but_sigma p _ _ Hp F H).
Qed.

Lemma keywords_sigma_free :
  forallb sigma_free Config.SPAM_KEYWORDS = true.
Proof. reflexivity. Qed.

(** X5: surrounding a text with more text never removes a keyword match,
    the URL signal or the repetition signal; unless the capitals signal is
    lost, the score and the classification do not go down either.  The
    lower-cased text itself can change inside the longer one: a capital
    sigma that ends a word becomes U+03C2, and U+03C3 once a letter
    follows; U+0130 lower-cases to two characters and the Kelvin sign
    U+212A to the letter k. *)
Theorem padding_keeps_signals :
  (forall pre text post : ustring,
     let padded := pre ++ text ++ post in
     let a := analyze_comment_for_abuse text in
     let a' := analyze_comment_for_abuse padded in
     spam_matches_of (lower text) <= spam_matches_of (lower padded) /\
     has_url a <= has_url a' /\
     has_repetitive_chars a <= has_repetitive_chars a' /\
     (has_excessive_caps a <= has_excessive_caps a' ->
      (spam_score a <=? spam_score a')%float = true /\
      is_spam a <= is_spam a')) /\
  lower "Click HERE" = "click here" /\
  lower [913; 931] = [945; 962] /\
  lower ([913; 931] ++ [913]) = [945; 963; 945] /\
  lower [65; 46; 931] = [97; 46; 962] /\
  lower [931] = [963] /\
  lower [304; 115] = [105; 775; 115] /\
  lower [8490; 1044; 223; 128512] = [107; 1076; 223; 128512].
Proof.
  split; [|vm_compute; repeat split].
  intros pre text post padded a a'.
  assert (Hk : spam_matches_of (lower text)
               <= spam_matches_of (lower padded)).
  { unfold spam_matches_of. apply count_if_mono. intros kw Hkw H.
    unfold padded. apply str_in_lower_padded; [|exact H].
    pose proof keywords_sigma_free as Hall.
    rewrite forallb_forall in Hall. now apply Hall. }
  assert (Hu : has_url_of text <= has_url_of padded).
  { unfold has_url_of, re_search_url. apply flag_le.
    rewrite !orb_true_iff.
    intros [[H|H]|H]; [left; left | left; right | right];
      now apply str_in_padded. }
  assert (Hr : has_repetitive_of text <= has_repetitive_of padded).
  { unfold has_repetitive_of. apply flag_le.
    rewrite !re_search_repeat_spec. intros (c & Hc & H).
    exists c. split; [exact Hc | now apply str_in_padded]. }
  split; [exact Hk|]. split; [exact Hu|]. split; [exact Hr|].
  intros Hc.
  apply analysis_monotone;
    try apply spam_matches_in_range; try apply flag_values_spec;
    assumption.
Qed.

Lemma padding_keeps_signals_witness :
  is_spam (analyze_comment_for_abuse "dm for promo www.x.io")
  <= is_spam (analyze_comment_for_abuse ">> dm for promo www.x.io <<").
Proof.
  destruct padding_keeps_signals as [H _].
  apply (H ">> " "dm for promo www.x.io" " <<").
  vm_compute. discriminate.
Defined.

(* ================================================================== *)
(** ** The counter of texts                                             *)
(* ================================================================== *)

Section MoreCounting.

Context {A : Type}.

Lemma count_if_ext_in (p q : A -> bool) (l : list A) :
  (forall x, In x l -> p x = q x) -> count_if p l = count_if q l.
Proof.
  induction l as [|x l IH]; intros H; simpl; [reflexivity|].
  rewrite (H x (or_introl eq_refl)), IH; [reflexivity|].
  intros y Hy. apply H. now right.
Qed.

Lemma count_if_perm (p : A -> bool) (l l' : list A) :
  Permutation l l' -> count_if p l = count_if p l'.
Proof.
  induction 1; simpl; lia.
Qed.

Lemma count_if_sumZ (p : A -> bool) (l : list A) :
  count_if p l = sumZ (fun x => if p x then 1 else 0) l.
Proof.
  induction l as [|x l IH]; simpl; [reflexivity | now rewrite IH].
Qed.

Lemma sumZ_le (f g : A -> Z) (l : list A) :
  (forall x, In x l -> f x <= g x) -> sumZ f l <= sumZ g l.
Proof.
  induction l as [|x l IH]; intros H; simpl; [lia|].
  pose proof (H x (or_introl eq_refl)).
  assert (sumZ f l <= sumZ g l) by (apply IH; intros y Hy; apply H; now right).
  lia.
Qed.

Lemma sumZ_plus (f g : A -> Z) (l : list A) :
  sumZ (fun x => f x + g x) l = sumZ f l + sumZ g l.
Proof.
  induction l as [|x l IH]; simpl; lia.
Qed.

Lemma sumZ_scale (k : Z) (f : A -> Z) (l : list A) :
  sumZ (fun x => k * f x) l = k * sumZ f l.
Proof.
  induction l as [|x l IH]; simpl; lia.
Qed.

Lemma sumZ_ext_in (f g : A -> Z) (l : list A) :
  (forall x, In x l -> f x = g x) -> sumZ f l = sumZ g l.
Proof.
  induction l as [|x l IH]; intros H; simpl; [reflexivity|].
  rewrite (H x (or_introl eq_refl)), IH; [reflexivity|].
  intros y Hy. apply H. now right.
Qed.

End MoreCounting.

Section CounterFacts.

Context {K : Type} {K_eq : PyEq K}.

Lemma py_eqb_spec (x y : K) : reflect (x = y) (py_eqb x y).
Proof.
  unfold py_eqb. destruct (py_eq_dec x y); now constructor.
Qed.

Lemma py_eqb_refl (x : K) : py_eqb x x = true.
Proof. now destruct (py_eqb_spec x x). Qed.

Lemma py_eqb_eq (x y : K) : py_eqb x y = true <-> x = y.
Proof. destruct (py_eqb_spec x y); split; congruence. Qed.

Lemma occurrences_cons (k x : K) (l : list K) :
  occurrences k (x :: l)
  = (if py_eqb k x then 1 else 0) + occurrences k l.
Proof. reflexivity. Qed.

Lemma occurrences_perm (k : K) (l l' : list K) :
  Permutation l l' -> occurrences k l = occurrences k l'.
Proof. apply count_if_perm. Qed.

Lemma occurrences_pos (k : K) (l : list K) :
  In k l -> 1 <= occurrences k l.
Proof.
  intros H. unfold occurrences.
  apply (count_if_hit _ _ k H). apply py_eqb_refl.
Qed.

(** In a list without repetition, exactly one element equals [x]. *)
Lemma count_if_single (p : K -> bool) (x : K) (l : list K) :
  NoDup l -> In x l ->
  sumZ (fun k => if p k && py_eqb k x then 1 else 0) l
  = if p x then 1 else 0.
Proof.
  induction 1 as [|y l Hy Hnd IH]; intros Hin; [destruct Hin|].
  simpl. destruct Hin as [-> | Hin].
  - rewrite py_eqb_refl, andb_true_r.
    rewrite (sumZ_ext_in _ (fun _ => 0)).
    + clear. assert (sumZ (fun _ : K => 0) l = 0)
        by (induction l; simpl; lia). lia.
    + intros k Hk. destruct (py_eqb_spec k x) as [->|_];
        [contradiction | now rewrite andb_false_r].
  - rewrite (IH Hin).
    destruct (py_eqb_spec y x) as [->|_]; [contradiction|].
    now rewrite andb_false_r.
Qed.

(** Counting the elements of [l] that satisfy [p], key by key. *)
Lemma count_by_key (p : K -> bool) (ks l : list K) :
  NoDup ks -> (forall x, In x l -> In x ks) ->
  count_if p l = sumZ (fun k => if p k then occurrences k l else 0) ks.
Proof.
  intros Hnd. induction l as [|x l IH]; intros Hin.
  - simpl. rewrite (sumZ_ext_in _ (fun _ => 0)).
    + clear. induction ks; simpl; lia.
    + intros k _. now destruct (p k).
  - simpl count_if. rewrite IH by (intros y Hy; apply Hin; now right).
    rewrite <- (count_if_single p x ks Hnd (Hin x (or_introl eq_refl))).
    rewrite <- sumZ_plus. apply sumZ_ext_in. intros k _.
    rewrite occurrences_cons.
    destruct (p k); destruct (py_eqb k x); simpl; lia.
Qed.

Lemma get_count_add (k x : K) (cnt : list (K * Z)) :
  get_count k (counter_add x cnt)
  = get_count k cnt + (if py_eqb k x then 1 else 0).
Proof.
  induction cnt as [|[k' n] rest IH]; simpl.
  - destruct (py_eqb k x); lia.
  - destruct (py_eqb_spec x k') as [->|Hx]; simpl.
    + destruct (py_eqb k k'); lia.
    + destruct (py_eqb_spec k k') as [->|Hk]; [|exact IH].
      destruct (py_eqb_spec k' x) as [->|_]; [contradiction | lia].
Qed.

Lemma keys_counter_add (y x : K) (cnt : list (K * Z)) :
  In y (keys (counter_add x cnt)) <-> y = x \/ In y (keys cnt).
Proof.
  unfold keys. induction cnt as [|[k' n] rest IH]; simpl.
  - intuition.
  - destruct (py_eqb_spec x k') as [->|Hx]; simpl; intuition.
Qed.

Lemma NoDup_counter_add (x : K) (cnt : list (K * Z)) :
  NoDup (keys cnt) -> NoDup (keys (counter_add x cnt)).
Proof.
  induction cnt as [|[k' n] rest IH]; simpl; intros Hnd.
  - repeat constructor. intros [].
  - destruct (py_eqb_spec x k') as [->|Hx]; simpl; [exact Hnd|].
    inversion Hnd as [|? ? Hnotin Hrest]; subst.
    constructor; [|now apply IH].
    intros Hin. apply (keys_counter_add k' x rest) in Hin.
    destruct Hin as [-> | Hin]; [now apply Hx | now apply Hnotin].
Qed.

Lemma sum_counter_add (x : K) (cnt : list (K * Z)) :
  sumZ snd (counter_add x cnt) = sumZ snd cnt + 1.
Proof.
  induction cnt as [|[k' n] rest IH]; simpl; [lia|].
  destruct (py_eqb x k'); simpl; lia.
Qed.

(** The invariants of the loop that builds the counter. *)
Lemma fold_counter_add (l : list K) (acc : list (K * Z)) :
  let cnt := fold_left (fun cnt k => counter_add k cnt) l acc in
  (forall k, get_count k cnt = get_count k acc + occurrences k l) /\
  (forall k, In k (keys cnt) <-> In k l \/ In k (keys acc)) /\
  (NoDup (keys acc) -> NoDup (keys cnt)) /\
  sumZ snd cnt = sumZ snd acc + len l.
Proof.
  revert acc. induction l as [|x l IH]; intros acc; cbn [fold_left].
  - cbv zeta. unfold len, occurrences. simpl.
    split; [intros; lia|]. split; [tauto|]. split; [trivial | lia].
  - destruct (IH (counter_add x acc)) as (Hget & Hkeys & Hnd & Hsum).
    cbv zeta. repeat split.
    + intros k. rewrite Hget, get_count_add, occurrences_cons. lia.
    + rewrite Hkeys, keys_counter_add. simpl. intuition.
    + rewrite Hkeys, keys_counter_add. simpl. intuition.
    + intros H. now apply Hnd, NoDup_counter_add.
    + rewrite Hsum, sum_counter_add. unfold len.
      change (List.length (x :: l)) with (S (List.length l)). lia.
Qed.

Lemma Counter_get (l : list K) (k : K) :
  get_count k (Counter l) = occurrences k l.
Proof. exact (proj1 (fold_counter_add l []) k). Qed.

Lemma Counter_keys (l : list K) (k : K) :
  In k (keys (Counter l)) <-> In k l.
Proof.
  unfold Counter.
  rewrite (proj1 (proj2 (fold_counter_add l [])) k). simpl. intuition.
Qed.

Lemma Counter_NoDup (l : list K) : NoDup (keys (Counter l)).
Proof.
  apply (proj1 (proj2 (proj2 (fold_counter_add l [])))). constructor.
Qed.

Lemma Counter_total (l : list K) : sumZ snd (Counter l) = len l.
Proof.
  unfold Counter.
  rewrite (proj2 (proj2 (proj2 (fold_counter_add l [])))). simpl. lia.
Qed.

(** With distinct keys, reading the values is reading the count of each
    key. *)
Lemma values_by_key (p : Z -> bool) (cnt : list (K * Z)) :
  NoDup (keys cnt) ->
  count_if p (values cnt)
  = count_if (fun k => p (get_count k cnt)) (keys cnt).
Proof.
  unfold values, keys.
  induction cnt as [|[k n] rest IH]; intros Hnd; [reflexivity|].
  inversion Hnd as [|? ? Hnotin Hrest]; subst.
  cbn [map count_if fst snd get_count]. rewrite py_eqb_refl.
  rewrite (IH Hrest). f_equal.
  apply count_if_ext_in. intros k' Hk'.
  destruct (py_eqb_spec k' k) as [->|_]; [contradiction | reflexivity].
Qed.

Lemma distinct_In (l : list K) (x : K) :
  In x (distinct l) <-> In x l.
Proof.
  induction l as [|y l IH]; simpl; [tauto|].
  destruct (existsb (py_eqb y) l) eqn:E.
  - rewrite IH. split; [auto|]. intros [<- | H]; [|exact H].
    apply existsb_exists in E. destruct E as (z & Hz & Heq).
    apply py_eqb_eq in Heq. now subst.
  - simpl. now rewrite IH.
Qed.

Lemma distinct_NoDup (l : list K) : NoDup (distinct l).
Proof.
  induction l as [|y l IH]; simpl; [constructor|].
  destruct (existsb (py_eqb y) l) eqn:E; [exact IH|].
  constructor; [|exact IH].
  rewrite distinct_In. intros Hin.
  assert (existsb (py_eqb y) l = true); [|congruence].
  apply existsb_exists. exists y. split; [exact Hin|].
  apply py_eqb_refl.
Qed.

Lemma distinct_perm (l l' : list K) :
  Permutation l l' -> Permutation (distinct l) (distinct l').
Proof.
  intros H. apply NoDup_Permutation; try apply distinct_NoDup.
  intros x. rewrite !distinct_In.
  split; apply Permutation_in; [exact H | now symmetry].
Qed.

Lemma distinct_length_le (l : list K) :
  (List.length (distinct l) <= List.length l)%nat.
Proof.
  induction l as [|y l IH]; simpl; [lia|].
  destruct (existsb (py_eqb y) l); simpl; lia.
Qed.

Lemma distinct_nonempty (l : list K) :
  l <> [] -> (1 <= List.length (distinct l))%nat.
Proof.
  destruct l as [|y l]; [congruence|]. intros _.
  assert (Hin : In y (distinct (y :: l))) by (apply distinct_In; now left).
  destruct (distinct (y :: l)); [destruct Hin | simpl; lia].
Qed.

(** The counter's keys are the distinct texts, in another order. *)
Lemma Counter_keys_distinct (l : list K) :
  Permutation (keys (Counter l)) (distinct l).
Proof.
  apply NoDup_Permutation;
    [apply Counter_NoDup | apply distinct_NoDup |].
  intros x. now rewrite Counter_keys, distinct_In.
Qed.

(** What the source's sum over the counter counts. *)
Lemma duplicated_by_key (l : list K) :
  count_if (fun count => 1 <? count) (values (Counter l))
  = count_if (fun t => 1 <? occurrences t l) (keys (Counter l)).
Proof.
  rewrite values_by_key by apply Counter_NoDup.
  apply count_if_ext_in. intros k _. now rewrite Counter_get.
Qed.

End CounterFacts.

(* ================================================================== *)
(** ** Further properties of the coordination score                     *)
(* ================================================================== *)

(** X6: the numerator of the code's [duplicate_ratio] is the number of
    distinct lower-cased texts that occur more than once in the batch:
    one per group of duplicates, whatever the size of the group. *)
Theorem duplicated_texts_counts_groups (comments : list comment) :
  let texts := map (fun c => lower (text_display c)) comments in
  duplicated_texts comments
  = count_if (fun t => 1 <? occurrences t texts) (distinct texts) /\
  duplicate_ratio comments
  = true_div (duplicated_texts comments) (len comments).
Proof.
  intros texts. split.
  - unfold duplicated_texts. fold texts. rewrite duplicated_by_key.
    apply count_if_perm, Counter_keys_distinct.
  - unfold duplicate_ratio, duplicated_texts, len.
    now rewrite length_map.
Qed.

(** The code's numerator against the specification's, on the texts. *)
Lemma duplicate_counts {K : Type} {K_eq : PyEq K} (l : list K) :
  2 * count_if (fun count => 1 <? count) (values (Counter l))
  <= count_if (fun t => 1 <? occurrences t l) l /\
  count_if (fun t => 1 <? occurrences t l) l <= len l.
Proof.
  split; [|apply count_if_le_len].
  rewrite duplicated_by_key, count_if_sumZ, <- sumZ_scale.
  rewrite (count_by_key _ (keys (Counter l)) l (Counter_NoDup l))
    by (intros x Hx; now apply Counter_keys).
  apply sumZ_le. intros k _.
  destruct (Z.ltb_spec 1 (occurrences k l)); lia.
Qed.

Lemma count_if_zero {A : Type} (p : A -> bool) (l : list A) :
  count_if p l = 0 <-> forall x, In x l -> p x = false.
Proof.
  induction l as [|x l IH]; simpl; [intuition|].
  pose proof (count_if_nonneg p l) as Hpos.
  destruct (p x) eqn:E; split.
  - lia.
  - intros H. rewrite (H x (or_introl eq_refl)) in E. discriminate.
  - intros H y [<- | Hy]; [exact E|]. apply IH; [lia | exact Hy].
  - intros H. apply IH. intros y Hy. apply H. now right.
Qed.

(** X7: the code's count of duplicated texts is at most half of the
    number of comments whose text occurs more than once (the numerator the
    specification words), so the code's ratio never exceeds one half; the
    two numerators agree only when both are 0, that is when every text of
    the batch occurs once. *)
Theorem duplicate_counts_compared (comments : list comment) :
  let texts := map (fun c => lower (text_display c)) comments in
  let duplicated_comments :=
    count_if (fun t => 1 <? occurrences t texts) texts in
  0 <= duplicated_texts comments /\
  2 * duplicated_texts comments <= duplicated_comments /\
  duplicated_comments <= len comments /\
  (duplicated_texts comments = duplicated_comments <->
   duplicated_comments = 0) /\
  (duplicated_comments = 0 <->
   forall t, In t texts -> occurrences t texts = 1).
Proof.
  intros texts dc.
  destruct (duplicate_counts texts) as [H2 Hn]. fold dc in H2, Hn.
  assert (Hg : 0 <= duplicated_texts comments) by apply count_if_nonneg.
  unfold duplicated_texts in *. fold texts in Hg |- *.
  split; [exact Hg|]. split; [exact H2|].
  split; [unfold len in *; unfold texts in Hn;
          now rewrite length_map in Hn|].
  split; [lia|].
  unfold dc. rewrite count_if_zero. split; intros H t Ht.
  - specialize (H t Ht). apply Z.ltb_ge in H.
    pose proof (occurrences_pos t texts Ht). lia.
  - apply Z.ltb_ge. rewrite (H t Ht). lia.
Qed.

Lemma duplicated_texts_half (comments : list comment) :
  0 <= duplicated_texts comments /\
  2 * duplicated_texts comments <= len comments.
Proof.
  split; [apply count_if_nonneg|].
  destruct (duplicate_counts
              (map (fun c => lower (text_display c)) comments)) as [H2 Hn].
  unfold len in Hn. rewrite length_map in Hn.
  unfold duplicated_texts, len. lia.
Qed.

Lemma detect_by_counts (comments : list comment) :
  detect_coordinated_activity comments
  = if len comments <? 5 then 0.0%float
    else coordination_of_counts (duplicated_texts comments)
           (distinct_authors comments) (len comments).
Proof.
  unfold detect_coordinated_activity, coordination_of_counts,
    duplicate_ratio, author_diversity, duplicated_texts, distinct_authors.
  unfold len. now rewrite length_map.
Qed.

Lemma len_perm {A : Type} (l l' : list A) :
  Permutation l l' -> len l = len l'.
Proof. intros H. unfold len. now rewrite (Permutation_length H). Qed.

Lemma duplicated_texts_perm (comments comments' : list comment) :
  Permutation comments comments' ->
  duplicated_texts comments = duplicated_texts comments'.
Proof.
  intros H. unfold duplicated_texts.
  set (texts := map _ comments). set (texts' := map _ comments').
  assert (Ht : Permutation texts texts') by now apply Permutation_map.
  rewrite !duplicated_by_key.
  rewrite (count_if_perm _ _ _ (Counter_keys_distinct texts)).
  rewrite (count_if_perm _ _ _ (Counter_keys_distinct texts')).
  rewrite (count_if_perm _ _ _ (distinct_perm _ _ Ht)).
  apply count_if_ext_in. intros t _.
  now rewrite (occurrences_perm t _ _ Ht).
Qed.

Lemma distinct_authors_perm (comments comments' : list comment) :
  Permutation comments comments' ->
  distinct_authors comments = distinct_authors comments'.
Proof.
  intros H. unfold distinct_authors. apply len_perm, distinct_perm.
  now apply Permutation_map.
Qed.

(** X8: the coordination score does not depend on the order of the
    comments in the batch. *)
Theorem coordination_order_independent (comments comments' : list comment) :
  Permutation comments comments' ->
  detect_coordinated_activity comments
  = detect_coordinated_activity comments'.
Proof.
  intros H. rewrite !detect_by_counts.
  now rewrite (duplicated_texts_perm _ _ H), (distinct_authors_perm _ _ H),
    (len_perm _ _ H).
Qed.

Lemma coordination_order_independent_witness :
  detect_coordinated_activity paired_batch
  = detect_coordinated_activity (rev paired_batch).
Proof.
  apply (coordination_order_independent paired_batch (rev paired_batch)).
  apply Permutation_rev.
Defined.

Lemma for_all_counts_sound (P : Z -> Z -> Z -> bool) :
  for_all_counts P = true ->
  forall g u n,
    5 <= n <= MAX_COMMENTS_PER_VIDEO ->
    0 <= g -> 2 * g <= n -> 1 <= u <= n ->
    P g u n = true.
Proof.
  unfold for_all_counts, MAX_COMMENTS_PER_VIDEO.
  intros H g u n Hn Hg0 Hg Hu.
  rewrite forallb_forall in H.
  assert (In1 : In n (range 5 (Z.to_nat (100 - 4)))).
  { apply range_spec. lia. }
  specialize (H n In1). rewrite forallb_forall in H.
  assert (In2 : In g (range 0 (S (Z.to_nat (n / 2))))).
  { apply range_spec.
    assert (g <= n / 2) by (apply Z.div_le_lower_bound; lia).
    assert (0 <= n / 2) by (apply Z.div_pos; lia). lia. }
  specialize (H g In2). rewrite forallb_forall in H.
  apply H. apply range_spec. lia.
Qed.

(* ================================================================== *)
(** ** Rounding a small score                                           *)
(* ================================================================== *)

Lemma digits2_pos_bound (m : positive) :
  Zpos m < 2 ^ Zpos (digits2_pos m).
Proof.
  induction m as [m IH | m IH |]; cbn [digits2_pos].
  - rewrite Pos2Z.inj_succ, Z.pow_succ_r by lia. lia.
  - rewrite Pos2Z.inj_succ, Z.pow_succ_r by lia. lia.
  - reflexivity.
Qed.

(** The mantissa of a float has at most 53 bits. *)
Lemma mantissa_bound (x : float) (s : bool) (m : positive) (e : Z) :
  Prim2SF x = S754_finite s m e -> Zpos m < 9007199254740992.
Proof.
  intros E. pose proof (Prim2SF_valid x) as V. rewrite E in V.
  cbn [valid_binary] in V. unfold bounded in V.
  apply andb_true_iff in V. destruct V as [V _].
  unfold canonical_mantissa, fexp in V. apply Z.eqb_eq in V.
  pose proof (digits2_pos_bound m) as B.
  assert (Hd : Zpos (digits2_pos m) <= 53).
  { unfold FloatOps.prec in V. lia. }
  eapply Z.lt_le_trans; [exact B|].
  change 9007199254740992 with (2 ^ 53).
  apply Z.pow_le_mono_r; lia.
Qed.

(** Rounding thousandths below 696.5 gives at most 696. *)
Lemma round_half_even_small (p e : Z) :
  0 <= p -> e < 0 -> 2 * p < 1393 * 2 ^ (- e) ->
  0 <= round_half_even p e <= 696.
Proof.
  intros Hp He Hsmall. unfold round_half_even.
  destruct (Z.leb_spec 0 e) as [|_]; [lia|].
  assert (Hd : 0 < 2 ^ (- e)) by (apply Z.pow_pos_nonneg; lia).
  set (d := 2 ^ (- e)) in *.
  pose proof (Z.div_mod p d ltac:(lia)) as Hdm.
  pose proof (Z.mod_pos_bound p d Hd) as Hr.
  pose proof (Z.div_pos p d Hp Hd) as Hq.
  set (q := p / d) in *. set (r := p mod d) in *.
  assert (Hq696 : q <= 696) by nia.
  destruct (2 * r ?= d) eqn:C.
  - apply Z.compare_eq in C. destruct (Z.even q) eqn:Ev; [lia|].
    assert (q <> 696) by (intros ->; discriminate). lia.
  - lia.
  - apply Z.compare_gt_iff in C. assert (q <> 696) by nia. lia.
Qed.

Lemma thousandths_in_bounds_checked :
  forallb (fun n => coordination_in_bounds (of_int n / of_int (10 ^ 3)))
    (range 0 697) = true.
Proof. vm_cast_no_check (eq_refl true). Qed.

(** A score between 0 and 0.6964 before the rounding is between 0 and
    0.696 after it. *)
Lemma py_round_small (x : float) :
  (0 <=? x)%float = true -> (x <=? 0.6964)%float = true ->
  coordination_in_bounds (py_round x 3) = true.
Proof.
  intros H0 H1. rewrite FloatAxioms.leb_spec in H0, H1.
  unfold py_round, coordination_in_bounds.
  destruct (Prim2SF x) as [s | s | | s m e] eqn:E.
  - rewrite FloatAxioms.leb_spec, FloatAxioms.ltb_spec,
      FloatAxioms.leb_spec, E.
    destruct s; vm_compute; reflexivity.
  - destruct s; [vm_compute in H0 | vm_compute in H1]; discriminate.
  - vm_compute in H1. discriminate.
  - destruct s; [vm_compute in H0; discriminate|].
    assert (Hm : Zpos m < 9007199254740992)
      by (apply (mantissa_bound x false m e E)).
    clear H0 E.
    assert (Hsmall : e < 0 /\ 2 * (Zpos m * 1000) < 1393 * 2 ^ (- e)).
    { set (c := Prim2SF 0.6964%float) in H1. vm_compute in c. subst c.
      unfold SFleb, SFcompare in H1.
      destruct (e ?= -53) eqn:C.
      - apply Z.compare_eq in C. subst e.
        match type of H1 with
        | context [PosDef.Pos.compare_cont Eq m ?mc] =>
            assert (Hle : (m <= mc)%positive)
              by (unfold Pos.le, Pos.compare;
                  destruct (PosDef.Pos.compare_cont Eq m mc);
                  [discriminate | discriminate | discriminate H1])
        end.
        clear H1. apply Pos2Z.pos_le_pos in Hle.
        change (2 ^ (- -53)) with 9007199254740992.
        split; lia.
      - change (e < -53) in C. clear H1.
        assert (Hp : 18014398509481984 <= 2 ^ (- e))
          by (change 18014398509481984 with (2 ^ 54);
              apply Z.pow_le_mono_r; lia).
        split; lia.
      - discriminate. }
    clear H1. destruct Hsmall as [He Hsmall].
    pose proof (round_half_even_small (Zpos m * 1000) e
                  ltac:(lia) He Hsmall) as Hn.
    change (10 ^ 3) with 1000.
    generalize dependent (round_half_even (Z.pos m * 1000) e).
    intros n Hn.
    destruct (Z.leb_spec (2 ^ 53) n) as [Hbig|_].
    + change (2 ^ 53) with 9007199254740992 in Hbig. lia.
    + pose proof thousandths_in_bounds_checked as T.
      rewrite forallb_forall in T.
      specialize (T n ltac:(apply range_spec; lia)).
      unfold coordination_in_bounds in T.
      change (10 ^ 3) with 1000 in T. exact T.
Qed.

Lemma raw_coordination_checked :
  for_all_counts (fun g u n =>
    let x := raw_coordination_of_counts g u n in
    (0 <=? x)%float && (x <=? 0.6964)%float)
  = true.
Proof. vm_cast_no_check (eq_refl true). Qed.

Lemma detect_bounds (comments : list comment) :
  len comments <= MAX_COMMENTS_PER_VIDEO ->
  (0 <=? detect_coordinated_activity comments)%float = true /\
  (detect_coordinated_activity comments <=? 0.696)%float = true /\
  (0.7 <? detect_coordinated_activity comments)%float = false.
Proof.
  intros Hmax. rewrite detect_by_counts.
  destruct (Z.ltb_spec (len comments) 5) as [Hlt|Hge].
  - vm_compute. repeat split.
  - pose proof (for_all_counts_sound _ raw_coordination_checked
                  (duplicated_texts comments) (distinct_authors comments)
                  (len comments)) as H.
    cbv beta zeta in H.
    destruct (duplicated_texts_half comments) as (Hg0 & Hg2).
    assert (Hu : 1 <= distinct_authors comments <= len comments).
    { unfold distinct_authors, len.
      assert (Hne : map author_channel_id comments <> []).
      { destruct comments; [unfold len in Hge; simpl in Hge; lia|].
        discriminate. }
      pose proof (distinct_length_le (map author_channel_id comments)) as Hle.
      pose proof (distinct_nonempty _ Hne).
      rewrite length_map in Hle. lia. }
    specialize (H (conj Hge Hmax) Hg0 ltac:(lia) Hu).
    apply andb_true_iff in H. destruct H as [H0 H1].
    pose proof (py_round_small _ H0 H1) as H.
    change (py_round (raw_coordination_of_counts
                        (duplicated_texts comments)
                        (distinct_authors comments) (len comments)) 3)
      with (coordination_of_counts (duplicated_texts comments)
              (distinct_authors comments) (len comments)) in H.
    revert H. unfold coordination_in_bounds.
    generalize (coordination_of_counts (duplicated_texts comments)
                  (distinct_authors comments) (len comments)) as s.
    intros s H. split_bools.
    match goal with
    | Hn : negb _ = true |- _ => apply negb_true_iff in Hn
    end.
    auto.
Qed.

(** X9: for a batch of at most [MAX_COMMENTS_PER_VIDEO] (100) comments the
    coordination score lies between 0 and 0.696; the bound is reached by
    100 comments from one author in 50 pairs of equal texts. *)
Theorem coordination_score_bounded (comments : list comment) :
  len comments <= MAX_COMMENTS_PER_VIDEO ->
  (0 <=? detect_coordinated_activity comments)%float = true /\
  (detect_coordinated_activity comments <=? 0.696)%float = true.
Proof.
  intros H. destruct (detect_bounds comments H) as (H0 & H1 & _).
  split; assumption.
Qed.

Lemma coordination_score_bounded_witness :
  (detect_coordinated_activity copypasta_batch <=? 0.696)%float = true.
Proof.
  apply (coordination_score_bounded copypasta_batch).
  vm_compute. discriminate.
Defined.

(** X10: a row that [store_abuse_metrics] writes for a batch of at most
    100 comments never gets the label COORDINATED ATTACK in the
    coordination report of [02_sql_analysis.py]: its score cannot exceed
    0.7, however many suspicious accounts it counts. *)
Theorem coordinated_attack_unreachable
  (fromisoformat : string -> option datetime)
  (db db' : list metrics_row) (now vid : string)
  (comments : list comment) :
  len comments <= MAX_COMMENTS_PER_VIDEO ->
  store_abuse_metrics fromisoformat db now vid comments = inr db' ->
  exists row,
    db' = db ++ [row] /\
    bot_likelihood_score row = detect_coordinated_activity comments /\
    activity_type row <> "COORDINATED ATTACK".
Proof.
  intros Hmax. unfold store_abuse_metrics.
  destruct (calculate_velocity_metrics fromisoformat comments) as [e|v];
    [discriminate|].
  unfold bind, ret. intros [= <-].
  eexists. split; [reflexivity|]. split; [reflexivity|].
  unfold activity_type. cbn [bot_likelihood_score suspicious_accounts].
  destruct (detect_bounds comments Hmax) as (_ & _ & ->).
  cbn [andb].
  destruct (0.5 <? detect_coordinated_activity comments)%float;
    discriminate.
Qed.

Lemma coordinated_attack_unreachable_witness :
  exists row,
    store_abuse_metrics Iso.fromisoformat [] "2024-01-01T12:30:00" "v"
      copypasta_batch = inr [row] /\
    activity_type row <> "COORDINATED ATTACK".
Proof.
  assert (E : exists db',
            store_abuse_metrics Iso.fromisoformat [] "2024-01-01T12:30:00"
              "v" copypasta_batch = inr db')
    by (eexists; vm_compute; reflexivity).
  destruct E as [db' E].
  assert (Hmax : len copypasta_batch <= MAX_COMMENTS_PER_VIDEO)
    by (vm_compute; discriminate).
  destruct (coordinated_attack_unreachable Iso.fromisoformat [] db'
              "2024-01-01T12:30:00" "v" copypasta_batch Hmax E)
    as (row & -> & _ & H).
  exists row. split; [exact E | exact H].
Defined.
(* ================================================================== *)
(** ** Further properties of the velocity                               *)
(* ================================================================== *)

Lemma forallb_perm {A : Type} (p : A -> bool) (l l' : list A) :
  Permutation l l' -> forallb p l = forallb p l'.
Proof.
  induction 1 as [| x l l' _ IH | x y l | l l' l'' _ IH1 _ IH2]; simpl.
  - reflexivity.
  - now rewrite IH.
  - destruct (p x), (p y); reflexivity.
  - now rewrite IH1.
Qed.

Lemma forallb_pointwise {A : Type} (p q : A -> bool) (l : list A) :
  (forall x, p x = q x) -> forallb p l = forallb q l.
Proof.
  intros H. induction l as [|x l IH]; simpl; [reflexivity|].
  now rewrite H, IH.
Qed.

Lemma forallb_false {A : Type} (p : A -> bool) (l : list A) :
  forallb p l = false <-> exists x, In x l /\ p x = false.
Proof.
  induction l as [|x l IH]; simpl.
  - split; [discriminate | intros (x & [] & _)].
  - rewrite andb_false_iff, IH. split.
    + intros [H | (y & Hy & Hp)]; [exists x | exists y]; auto.
    + intros (y & [<- | Hy] & Hp); [now left | right; now exists y].
Qed.

Section VelocityShape.

Variable fromisoformat : string -> option datetime.

Lemma parses_Some (c : comment) :
  parses fromisoformat c = true <->
  fromisoformat (replace "Z" "+00:00" (published_at c))
  = Some (parsed fromisoformat c).
Proof.
  unfold parses, parsed.
  destruct (fromisoformat _); split; intros; congruence.
Qed.

Lemma parses_None (c : comment) :
  parses fromisoformat c = false <->
  fromisoformat (replace "Z" "+00:00" (published_at c)) = None.
Proof.
  unfold parses.
  destruct (fromisoformat _); split; intros; congruence.
Qed.

(** The list comprehension either parses every timestamp or raises. *)
Lemma parse_timestamps_shape (comments : list comment) :
  parse_timestamps fromisoformat comments
  = if forallb (parses fromisoformat) comments
    then inr (map (parsed fromisoformat) comments)
    else inl ValueError.
Proof.
  induction comments as [|c comments IH]; [reflexivity|].
  cbn [parse_timestamps forallb map].
  unfold parse_published_at, parses at 1, parsed at 1.
  destruct (fromisoformat (replace "Z" "+00:00" (published_at c)));
    [|reflexivity].
  rewrite IH. cbn [bind ret raise andb].
  now destruct (forallb (parses fromisoformat) comments).
Qed.

End VelocityShape.

Lemma same_kind_shape (l : list datetime) :
  same_kind l
  = forallb is_aware l || forallb (fun d => negb (is_aware d)) l.
Proof.
  destruct l as [|d l]; [reflexivity|].
  cbn [same_kind forallb]. destruct (is_aware d); cbn [andb negb orb].
  - rewrite orb_false_r. apply forallb_pointwise. intros x. now destruct (is_aware x).
  - apply forallb_pointwise. intros x. now destruct (is_aware x).
Qed.

Lemma same_kind_perm (l l' : list datetime) :
  Permutation l l' -> same_kind l = same_kind l'.
Proof.
  intros H. rewrite !same_kind_shape.
  now rewrite (forallb_perm _ _ _ H), (forallb_perm _ l l' H).
Qed.

(** Both kinds occur exactly when the list is not of one kind. *)
Lemma same_kind_false (l : list datetime) :
  same_kind l = false <->
  exists a n, In a l /\ In n l /\ is_aware a = true /\ is_aware n = false.
Proof.
  rewrite same_kind_shape, orb_false_iff, !forallb_false. split.
  - intros [(n & Hn & Hnf) (a & Ha & Haf)].
    apply negb_false_iff in Haf. exists a, n. auto.
  - intros (a & n & Ha & Hn & Hat & Hnf). split.
    + now exists n.
    + exists a. now rewrite Hat.
Qed.

(** *** The span of a sorted list *)

Lemma instant_le_trans : Relations_1.Transitive instant_le.
Proof. unfold Relations_1.Transitive, instant_le. intros. lia. Qed.

Lemma sorted_head_least (a : datetime) (l : list datetime) :
  Sorted instant_le (a :: l) ->
  forall x, In x (a :: l) -> instant a <= instant x.
Proof.
  intros Hs x Hx.
  apply (Sorted_StronglySorted instant_le_trans) in Hs.
  inversion Hs as [|? ? _ Hall]; subst.
  destruct Hx as [<- | Hx]; [lia|].
  rewrite Forall_forall in Hall. exact (Hall x Hx).
Qed.

Lemma sorted_last_greatest (l : list datetime) (d : datetime) :
  Sorted instant_le l ->
  forall x, In x l -> instant x <= instant (last l d).
Proof.
  induction l as [|a l IH]; intros Hs x Hx; [destruct Hx|].
  destruct l as [|b l].
  - destruct Hx as [<- | []]. simpl. lia.
  - change (last (a :: b :: l) d) with (last (b :: l) d).
    assert (Hs' : Sorted instant_le (b :: l)) by now inversion Hs.
    destruct Hx as [<- | Hx]; [|now apply IH].
    pose proof (sorted_head_least a (b :: l) Hs b (or_intror (or_introl eq_refl))).
    pose proof (IH Hs' b (or_introl eq_refl)). lia.
Qed.

Lemma last_In {A : Type} (a : A) (l : list A) (d : A) :
  In (last (a :: l) d) (a :: l).
Proof.
  revert a. induction l as [|b l IH]; intros a; [now left|].
  right. apply IH.
Qed.

(** The distance in microseconds from the first to the last timestamp. *)
Lemma window_by_span (l : list datetime) :
  time_window_minutes l
  = match l with
    | [] => 0.0%float
    | first :: _ =>
        (total_seconds (instant (last l first) - instant first)
         / of_int 60)%float
    end.
Proof. destruct l; reflexivity. Qed.

Lemma sorted_perm_ends (a a' : datetime) (l l' : list datetime) :
  Sorted instant_le (a :: l) -> Sorted instant_le (a' :: l') ->
  Permutation (a :: l) (a' :: l') ->
  instant a = instant a' /\
  instant (last (a :: l) a) = instant (last (a' :: l') a').
Proof.
  intros Hs Hs' Hp.
  assert (Hp' : Permutation (a' :: l') (a :: l)) by now symmetry.
  pose proof (sorted_head_least a l Hs a'
                (Permutation_in _ Hp' (or_introl eq_refl))).
  pose proof (sorted_head_least a' l' Hs' a
                (Permutation_in _ Hp (or_introl eq_refl))).
  pose proof (sorted_last_greatest (a :: l) a Hs _
                (Permutation_in _ Hp' (last_In a' l' a'))).
  pose proof (sorted_last_greatest (a' :: l') a' Hs' _
                (Permutation_in _ Hp (last_In a l a))).
  lia.
Qed.

Lemma window_perm (l l' : list datetime) :
  Sorted instant_le l -> Sorted instant_le l' -> Permutation l l' ->
  time_window_minutes l = time_window_minutes l'.
Proof.
  intros Hs Hs' Hp. rewrite !window_by_span.
  destruct l as [|a l], l' as [|a' l'].
  - reflexivity.
  - now apply Permutation_nil in Hp.
  - symmetry in Hp. now apply Permutation_nil in Hp.
  - destruct (sorted_perm_ends a a' l l' Hs Hs' Hp) as [-> ->].
    reflexivity.
Qed.

(** *** The velocity, case by case *)

Lemma velocity_shape (fromisoformat : string -> option datetime)
  (comments : list comment) :
  calculate_velocity_metrics fromisoformat comments
  = if len comments <? 2 then inr (PyFloat 0.0)
    else if forallb (parses fromisoformat) comments
    then
      let timestamps := map (parsed fromisoformat) comments in
      if same_kind timestamps
      then
        let window := time_window_minutes (sorted_copy timestamps) in
        if (window =? of_int 0)%float then inr (PyInt (len comments))
        else inr (PyFloat
                    (py_round (of_int (len comments) / window) 2))
      else inl TypeError
    else inl ValueError.
Proof.
  unfold calculate_velocity_metrics.
  rewrite parse_timestamps_shape.
  destruct (len comments <? 2); [reflexivity|].
  destruct (forallb (parses fromisoformat) comments); [|reflexivity].
  cbn [bind]. unfold list_sort.
  destruct (same_kind (map (parsed fromisoformat) comments)); reflexivity.
Qed.

(** X11: the velocity computation raises [ValueError] exactly when the
    batch has at least two comments and one of their timestamps is refused
    by the parser. *)
Theorem velocity_value_error_iff
  (fromisoformat : string -> option datetime) (comments : list comment) :
  calculate_velocity_metrics fromisoformat comments = inl ValueError <->
  2 <= len comments /\
  exists c, In c comments /\
    fromisoformat (replace "Z" "+00:00" (published_at c)) = None.
Proof.
  rewrite velocity_shape.
  destruct (Z.ltb_spec (len comments) 2) as [Hlt|Hge].
  { split; [discriminate | lia]. }
  destruct (forallb (parses fromisoformat) comments) eqn:Hall.
  - rewrite forallb_forall in Hall. cbv zeta.
    assert (Hno : ~ exists c, In c comments /\
              fromisoformat (replace "Z" "+00:00" (published_at c)) = None).
    { intros (c & Hc & Hn). apply parses_None in Hn.
      rewrite (Hall c Hc) in Hn. discriminate. }
    destruct (same_kind _); [destruct (_ =? _)%float|];
      (split; [discriminate | intros [_ H]; now destruct Hno]).
  - apply forallb_false in Hall. destruct Hall as (c & Hc & Hn).
    apply parses_None in Hn. split; [|reflexivity].
    intros _. split; [exact Hge | now exists c].
Qed.

(** X12: the velocity computation raises [TypeError] exactly when the
    batch has at least two comments, every timestamp parses, and one of
    them carries a UTC offset while another carries none: the sort cannot
    order an aware against a naive [datetime]. *)
Theorem velocity_type_error_iff
  (fromisoformat : string -> option datetime) (comments : list comment) :
  calculate_velocity_metrics fromisoformat comments = inl TypeError <->
  2 <= len comments /\
  (forall c, In c comments ->
     fromisoformat (replace "Z" "+00:00" (published_at c)) <> None) /\
  exists c1 c2 d1 d2,
    In c1 comments /\ In c2 comments /\
    fromisoformat (replace "Z" "+00:00" (published_at c1)) = Some d1 /\
    fromisoformat (replace "Z" "+00:00" (published_at c2)) = Some d2 /\
    utcoffset d1 <> None /\ utcoffset d2 = None.
Proof.
  rewrite velocity_shape.
  destruct (Z.ltb_spec (len comments) 2) as [Hlt|Hge].
  { split; [discriminate | lia]. }
  destruct (forallb (parses fromisoformat) comments) eqn:Hall.
  - rewrite forallb_forall in Hall. cbv zeta.
    assert (Hparse : forall c, In c comments ->
              fromisoformat (replace "Z" "+00:00" (published_at c))
              = Some (parsed fromisoformat c)).
    { intros c Hc. now apply parses_Some, Hall. }
    destruct (same_kind (map (parsed fromisoformat) comments)) eqn:Hk.
    + assert (Hno : ~ exists a n,
                In a (map (parsed fromisoformat) comments) /\
                In n (map (parsed fromisoformat) comments) /\
                is_aware a = true /\ is_aware n = false).
      { intros H. apply same_kind_false in H. congruence. }
      destruct (_ =? _)%float;
        (split; [discriminate|]);
        intros (_ & _ & c1 & c2 & d1 & d2 & H1 & H2 & E1 & E2 & A1 & A2);
        destruct Hno; exists d1, d2;
        rewrite (Hparse c1 H1) in E1; rewrite (Hparse c2 H2) in E2;
        injection E1 as <-; injection E2 as <-;
        (split; [now apply in_map|]); (split; [now apply in_map|]);
        unfold is_aware;
        (split; [now destruct (utcoffset _) | now rewrite A2]).
    + apply same_kind_false in Hk.
      destruct Hk as (a & n & Ha & Hn & Aa & An).
      apply in_map_iff in Ha. destruct Ha as (c1 & <- & H1).
      apply in_map_iff in Hn. destruct Hn as (c2 & <- & H2).
      split; [|reflexivity]. intros _.
      split; [exact Hge|]. split.
      * intros c Hc. rewrite (Hparse c Hc). discriminate.
      * exists c1, c2, (parsed fromisoformat c1), (parsed fromisoformat c2).
        unfold is_aware in Aa, An.
        repeat split; auto.
        -- destruct (utcoffset (parsed fromisoformat c1)); congruence.
        -- destruct (utcoffset (parsed fromisoformat c2)); congruence.
  - apply forallb_false in Hall. destruct Hall as (c & Hc & Hn).
    apply parses_None in Hn. split; [discriminate|].
    intros (_ & Hall & _). now destruct (Hall c Hc).
Qed.

(** One timestamp with a UTC designator and one without. *)
Lemma velocity_type_error_witness :
  calculate_velocity_metrics Iso.fromisoformat mixed_pair = inl TypeError.
Proof.
  apply (velocity_type_error_iff Iso.fromisoformat mixed_pair).
  split; [vm_compute; discriminate|]. split.
  - intros c [<- | [<- | []]]; vm_compute; discriminate.
  - exists (sample_comment "UC1" "hello" "2024-01-01T12:00:00Z"),
           (sample_comment "UC2" "hello" "2024-01-01T12:03:00"),
           {| wall_us := 63839707200000000; utcoffset := Some 0 |},
           {| wall_us := 63839707380000000; utcoffset := None |}.
    split; [now left|]. split; [right; now left|].
    split; [vm_compute; reflexivity|]. split; [vm_compute; reflexivity|].
    split; [discriminate | reflexivity].
Defined.

Lemma velocity_perm (fromisoformat : string -> option datetime)
  (comments comments' : list comment) :
  Permutation comments comments' ->
  calculate_velocity_metrics fromisoformat comments
  = calculate_velocity_metrics fromisoformat comments'.
Proof.
  intros H. rewrite !velocity_shape.
  rewrite (len_perm _ _ H), (forallb_perm _ _ _ H).
  assert (Hd : Permutation (map (parsed fromisoformat) comments)
                           (map (parsed fromisoformat) comments'))
    by now apply Permutation_map.
  cbv zeta. rewrite (same_kind_perm _ _ Hd).
  rewrite (window_perm (sorted_copy (map (parsed fromisoformat) comments))
             (sorted_copy (map (parsed fromisoformat) comments'))).
  - reflexivity.
  - apply sorted_copy_sorted.
  - apply sorted_copy_sorted.
  - rewrite <- !sorted_copy_perm. exact Hd.
Qed.

(** X13: the velocity, or the exception raised in its place, does not
    depend on the order in which the comments are delivered. *)
Theorem velocity_order_independent
  (fromisoformat : string -> option datetime)
  (comments comments' : list comment) :
  Permutation comments comments' ->
  calculate_velocity_metrics fromisoformat comments
  = calculate_velocity_metrics fromisoformat comments'.
Proof. apply velocity_perm. Qed.

Lemma velocity_order_independent_witness :
  calculate_velocity_metrics Iso.fromisoformat five_minute_batch
  = calculate_velocity_metrics Iso.fromisoformat (rev five_minute_batch).
Proof.
  apply (velocity_order_independent Iso.fromisoformat
           five_minute_batch (rev five_minute_batch)).
  apply Permutation_rev.
Defined.

(** X14: when the timestamps parse and sort, the window runs from the
    earliest to the latest instant of the batch: the first and the last
    sorted timestamp belong to the batch, every timestamp lies between
    them, and the distance in microseconds is not negative. *)
Theorem velocity_window_spans_batch
  (fromisoformat : string -> option datetime) (comments : list comment)
  (parsed_list : list datetime) (first : datetime) (rest : list datetime) :
  parse_timestamps fromisoformat comments = inr parsed_list ->
  list_sort parsed_list = inr (first :: rest) ->
  let latest := last (first :: rest) first in
  In first parsed_list /\ In latest parsed_list /\
  (forall d, In d parsed_list ->
     instant first <= instant d <= instant latest) /\
  0 <= dt_sub latest first.
Proof.
  intros _ Hs latest.
  destruct (list_sort_spec _ _ Hs) as [Hperm Hsorted].
  assert (Hback : Permutation (first :: rest) parsed_list) by now symmetry.
  assert (Hfirst : In first parsed_list)
    by (apply (Permutation_in _ Hback); now left).
  assert (Hlast : In latest parsed_list)
    by (apply (Permutation_in _ Hback); apply last_In).
  assert (Hbetween : forall d, In d parsed_list ->
            instant first <= instant d <= instant latest).
  { intros d Hd. apply (Permutation_in _ Hperm) in Hd. split.
    - now apply (sorted_head_least first rest Hsorted).
    - now apply sorted_last_greatest. }
  repeat split; try assumption; try apply Hbetween; try assumption.
  unfold dt_sub. specialize (Hbetween first Hfirst). lia.
Qed.

Lemma velocity_window_spans_batch_witness :
  let epoch := {| wall_us := 0; utcoffset := None |} in
  let timestamps :=
    sorted_copy (map (parsed Iso.fromisoformat) (rev five_minute_batch)) in
  let first := hd epoch timestamps in
  0 <= dt_sub (last (first :: tl timestamps) first) first.
Proof.
  intros epoch timestamps first.
  apply (velocity_window_spans_batch Iso.fromisoformat
           (rev five_minute_batch)
           (map (parsed Iso.fromisoformat) (rev five_minute_batch))
           first (tl timestamps)).
  - vm_compute. reflexivity.
  - vm_compute. reflexivity.
Defined.

(* ================================================================== *)
(** ** Tables with a primary key                                        *)
(* ================================================================== *)

Section Tables.

Context {R : Type} (key : R -> string).

Lemma insert_or_replace_In (r row : R) (table : list R) :
  In r (insert_or_replace key row table) <->
  r = row \/ (In r table /\ key r <> key row).
Proof.
  unfold insert_or_replace. rewrite in_app_iff, filter_In. simpl.
  rewrite negb_true_iff, String.eqb_neq. intuition.
Qed.

Lemma NoDup_map_filter (p : R -> bool) (table : list R) :
  NoDup (map key table) -> NoDup (map key (filter p table)).
Proof.
  induction table as [|x table IH]; simpl; intros H; [constructor|].
  inversion H as [|? ? Hnotin Hrest]; subst.
  destruct (p x); [|now apply IH]. simpl. constructor; [|now apply IH].
  intros Hin. apply Hnotin. apply in_map_iff in Hin.
  destruct Hin as (y & Hy & Hin). apply filter_In in Hin.
  apply in_map_iff. exists y. tauto.
Qed.

(** Keys stay pairwise distinct. *)
Lemma insert_or_replace_NoDup (row : R) (table : list R) :
  NoDup (map key table) ->
  NoDup (map key (insert_or_replace key row table)).
Proof.
  intros H. unfold insert_or_replace. rewrite map_app.
  apply NoDup_app.
  - now apply NoDup_map_filter.
  - repeat constructor. intros [].
  - intros k Hk [<- | []]. apply in_map_iff in Hk.
    destruct Hk as (y & Hy & Hin). apply filter_In in Hin.
    destruct Hin as [_ Hin]. apply negb_true_iff, String.eqb_neq in Hin.
    congruence.
Qed.

Lemma filter_twice (p q : R -> bool) (table : list R) :
  filter q (filter p table) = filter (fun r => p r && q r) table.
Proof.
  induction table as [|x table IH]; simpl; [reflexivity|].
  destruct (p x); simpl; [destruct (q x)|]; now rewrite IH.
Qed.

(** Rows selected by a test on the key that rejects the new key are not
    touched, and keep their order. *)
Lemma insert_or_replace_others (q : string -> bool) (row : R)
  (table : list R) :
  q (key row) = false ->
  filter (fun r => q (key r)) (insert_or_replace key row table)
  = filter (fun r => q (key r)) table.
Proof.
  intros Hq. unfold insert_or_replace.
  rewrite filter_app. simpl. rewrite Hq, app_nil_r, filter_twice.
  apply filter_ext. intros r.
  destruct (String.eqb_spec (key r) (key row)) as [E|_]; simpl;
    [now rewrite E, Hq | reflexivity].
Qed.

Lemma insert_or_replace_length (row : R) (table : list R) :
  (List.length (insert_or_replace key row table)
   <= S (List.length table))%nat.
Proof.
  unfold insert_or_replace. rewrite length_app. simpl.
  pose proof (filter_length_le
                (fun r => negb (String.eqb (key r) (key row))) table).
  lia.
Qed.

End Tables.

(* ================================================================== *)
(** ** Storing comments                                                 *)
(* ================================================================== *)

Section StoringComments.

Variable clock : nat -> string.

Lemma store_comments_fold (db : database) (comments : list comment) :
  store_comments clock db comments
  = fold_left (insert_comment clock) comments db.
Proof. destruct comments; reflexivity. Qed.

(** The other tables are not touched, and the clock is read once per
    comment. *)
Lemma store_comments_frame (db : database) (comments : list comment) :
  videos (store_comments clock db comments) = videos db /\
  abuse_metrics (store_comments clock db comments) = abuse_metrics db /\
  ticks (store_comments clock db comments)
  = (ticks db + List.length comments)%nat.
Proof.
  rewrite store_comments_fold. revert db.
  induction comments as [|c comments IH]; intros db; simpl.
  - repeat split. lia.
  - destruct (IH (insert_comment clock db c)) as (Hv & Hm & Ht).
    rewrite Hv, Hm, Ht. simpl. repeat split. lia.
Qed.

Lemma store_comments_NoDup (db : database) (comments : list comment) :
  NoDup (map comment_key (comments_table db)) ->
  NoDup (map comment_key
           (comments_table (store_comments clock db comments))).
Proof.
  rewrite store_comments_fold. revert db.
  induction comments as [|c comments IH]; intros db H; simpl; [exact H|].
  apply IH. simpl. now apply insert_or_replace_NoDup.
Qed.

(** The table without its [collected_at] column evolves by inserting the
    comments one after the other. *)
Lemma store_comments_plain (db : database) (comments : list comment) :
  map fst (comments_table (store_comments clock db comments))
  = fold_left (fun table c => insert_or_replace comment_id c table)
      comments (map fst (comments_table db)).
Proof.
  rewrite store_comments_fold. revert db.
  induction comments as [|c comments IH]; intros db; simpl; [reflexivity|].
  rewrite IH. f_equal. simpl. unfold insert_or_replace.
  rewrite map_app. simpl. f_equal.
  now rewrite filter_map_swap.
Qed.

End StoringComments.

Lemma last_wins_In (comments : list comment) (c : comment) :
  In c (last_wins comments) -> In c comments.
Proof.
  induction comments as [|c' comments IH]; simpl; [tauto|].
  destruct (existsb _ comments); simpl; intuition.
Qed.

Lemma last_wins_not_fresh (comments : list comment) :
  filter (fresh_id comments) (last_wins comments) = [].
Proof.
  assert (H : forall c, In c (last_wins comments) ->
                        fresh_id comments c = false).
  { intros c Hc. apply last_wins_In in Hc. unfold fresh_id.
    apply negb_false_iff, existsb_exists. exists c.
    split; [exact Hc | apply String.eqb_refl]. }
  induction (last_wins comments) as [|c l IH]; [reflexivity|].
  simpl. rewrite (H c (or_introl eq_refl)). apply IH.
  intros c' Hc'. apply H. now right.
Qed.

(** After the inserts: the rows with other ids, in their order, followed
    by the last comment of the batch for each of its ids. *)
Lemma plain_fold_shape (comments table : list comment) :
  fold_left (fun t c => insert_or_replace comment_id c t) comments table
  = filter (fresh_id comments) table ++ last_wins comments.
Proof.
  revert table. induction comments as [|c comments IH]; intros table.
  - simpl. rewrite app_nil_r. symmetry.
    apply forallb_filter_id. now apply forallb_forall.
  - cbn [fold_left]. rewrite IH. unfold insert_or_replace.
    rewrite filter_app, filter_twice, <- app_assoc. f_equal.
    + apply filter_ext. intros x. unfold fresh_id. cbn [existsb].
      rewrite (String.eqb_sym (comment_id c) (comment_id x)).
      now rewrite negb_orb.
    + cbn [filter last_wins]. unfold fresh_id.
      now destruct (existsb _ comments).
Qed.

Lemma existsb_false_forall {A : Type} (p : A -> bool) (l : list A) :
  existsb p l = false <-> forall x, In x l -> p x = false.
Proof.
  induction l as [|y l IH]; simpl; [intuition|].
  rewrite orb_false_iff, IH. split.
  - intros [Hy Hl] x [<- | Hx]; auto.
  - intros H. split; [apply H; now left | intros x Hx; apply H; now right].
Qed.

Lemma no_namesake (comments : list comment) (c : comment) :
  existsb (fun c' => String.eqb (comment_id c') (comment_id c)) comments
  = false <->
  forall c', In c' comments -> comment_id c' <> comment_id c.
Proof.
  rewrite existsb_false_forall. split; intros H c' Hc'.
  - apply String.eqb_neq. now apply H.
  - apply String.eqb_neq. now apply H.
Qed.

Lemma last_wins_last (pre post : list comment) (c : comment) :
  (forall c', In c' post -> comment_id c' <> comment_id c) ->
  In c (last_wins (pre ++ c :: post)).
Proof.
  intros H. induction pre as [|p pre IH]; simpl.
  - apply no_namesake in H. rewrite H. now left.
  - destruct (existsb _ (pre ++ c :: post)); [exact IH | now right].
Qed.

Lemma last_wins_split (comments : list comment) (c : comment) :
  In c (last_wins comments) ->
  exists pre post,
    comments = pre ++ c :: post /\
    forall c', In c' post -> comment_id c' <> comment_id c.
Proof.
  induction comments as [|c0 comments IH]; simpl; [tauto|].
  destruct (existsb _ comments) eqn:E.
  - intros H. destruct (IH H) as (pre & post & -> & Hpost).
    now exists (c0 :: pre), post.
  - intros [<- | H].
    + exists [], comments. split; [reflexivity|]. now apply no_namesake.
    + destruct (IH H) as (pre & post & -> & Hpost).
      now exists (c0 :: pre), post.
Qed.

Lemma fresh_id_spec (comments : list comment) (c : comment) :
  fresh_id comments c = true <->
  forall c', In c' comments -> comment_id c' <> comment_id c.
Proof.
  unfold fresh_id. rewrite negb_true_iff. apply no_namesake.
Qed.

(** X15: after [store_comments], a comment is in the table exactly when
    it is the last comment of the batch with its id, or was in the table
    before under an id that the batch does not carry: the last write of
    an id wins, and rows of other ids are kept. *)
Theorem store_comments_membership
  (clock : nat -> string) (db : database)
  (comments : list comment) (c : comment) :
  In c (map fst (comments_table (store_comments clock db comments))) <->
  (exists pre post,
     comments = pre ++ c :: post /\
     forall c', In c' post -> comment_id c' <> comment_id c) \/
  (In c (map fst (comments_table db)) /\
   forall c', In c' comments -> comment_id c' <> comment_id c).
Proof.
  rewrite store_comments_plain, plain_fold_shape, in_app_iff, filter_In.
  rewrite fresh_id_spec. split.
  - intros [H | H]; [now right | left; now apply last_wins_split].
  - intros [(pre & post & -> & H) | H];
      [right; now apply last_wins_last | now left].
Qed.

(** X16: [store_comments] keeps the ids of the table pairwise distinct,
    leaves the other two tables as they are, keeps the rows of other
    ids in their order, and adds at most one row per comment. *)
Theorem store_comments_keeps_key
  (clock : nat -> string) (db : database) (comments : list comment) :
  let db' := store_comments clock db comments in
  (NoDup (map comment_key (comments_table db)) ->
   NoDup (map comment_key (comments_table db'))) /\
  videos db' = videos db /\
  abuse_metrics db' = abuse_metrics db /\
  filter (fresh_id comments) (map fst (comments_table db'))
  = filter (fresh_id comments) (map fst (comments_table db)) /\
  (List.length (comments_table db')
   <= List.length (comments_table db) + List.length comments)%nat.
Proof.
  intros db'.
  destruct (store_comments_frame clock db comments) as (Hv & Hm & _).
  split; [apply store_comments_NoDup|].
  split; [exact Hv|]. split; [exact Hm|]. split.
  - unfold db'. rewrite store_comments_plain, plain_fold_shape.
    rewrite filter_app, last_wins_not_fresh, app_nil_r, filter_twice.
    apply filter_ext. intros x. now destruct (fresh_id comments x).
  - unfold db'. rewrite store_comments_fold. clear. revert db.
    induction comments as [|c comments IH]; intros db; simpl; [lia|].
    specialize (IH (insert_comment clock db c)). simpl in IH.
    pose proof (insert_or_replace_length comment_key
                  (c, clock (ticks db)) (comments_table db)).
    lia.
Qed.

Lemma store_comments_keeps_key_witness :
  NoDup (map comment_key
           (comments_table
              (store_comments sample_clock empty_database
                 (get_video_comments good_response "v1")))).
Proof.
  apply (store_comments_keeps_key sample_clock empty_database
           (get_video_comments good_response "v1")).
  simpl. constructor.
Defined.

(** X17: storing a batch a second time changes nothing in the comments
    table but the [collected_at] of its rows: no comment is duplicated
    and none is lost, whatever the clock reads. *)
Theorem store_comments_idempotent
  (clock clock' : nat -> string) (db : database)
  (comments : list comment) :
  map fst (comments_table
             (store_comments clock'
                (store_comments clock db comments) comments))
  = map fst (comments_table (store_comments clock db comments)).
Proof.
  rewrite (store_comments_plain clock').
  rewrite (store_comments_plain clock), !plain_fold_shape.
  rewrite filter_app, last_wins_not_fresh, app_nil_r, filter_twice.
  f_equal. apply filter_ext. intros x.
  now destruct (fresh_id comments x).
Qed.

(** X18: after [store_video_data] the table [videos] holds the video with
    the reading of the clock, no other row with its id, and the rows of
    other ids as before; ids stay pairwise distinct and the other tables
    are not touched. *)
Theorem store_video_data_replaces
  (clock : nat -> string) (db : database) (video : video_data) :
  let db' := store_video_data clock db video in
  (forall row,
     In row (videos db') <->
     row = (video, clock (ticks db)) \/
     (In row (videos db) /\ video_key row <> vd_video_id video)) /\
  filter (fun row => negb (String.eqb (video_key row) (vd_video_id video)))
    (videos db')
  = filter (fun row => negb (String.eqb (video_key row) (vd_video_id video)))
      (videos db) /\
  (NoDup (map video_key (videos db)) ->
   NoDup (map video_key (videos db'))) /\
  comments_table db' = comments_table db /\
  abuse_metrics db' = abuse_metrics db.
Proof.
  cbv zeta. cbn [store_video_data videos comments_table abuse_metrics].
  split; [|split; [|split; [|split; reflexivity]]].
  - intros row. apply (insert_or_replace_In video_key).
  - apply (insert_or_replace_others video_key
             (fun k => negb (String.eqb k (vd_video_id video)))).
    unfold video_key. simpl. now rewrite String.eqb_refl.
  - apply insert_or_replace_NoDup.
Qed.

(* ================================================================== *)
(** ** Storing the metrics                                              *)
(* ================================================================== *)

Lemma store_abuse_metrics_shape
  (fromisoformat : string -> option datetime) (db : list metrics_row)
  (now vid : string) (comments : list comment) :
  store_abuse_metrics fromisoformat db now vid comments
  = match calculate_velocity_metrics fromisoformat comments with
    | inl e => inl e
    | inr v =>
        inr (db ++
             [ {| metric_video_id := vid;
                  timestamp := now;
                  total_comments := len comments;
                  spam_comments :=
                    count_if (fun c => is_spam (abuse c) =? 1) comments;
                  spam_prevalence :=
                    to_float
                      (round_num
                         (if 0 <? len comments
                          then PyFloat
                                 (true_div
                                    (count_if
                                       (fun c => (is_spam (abuse c) =? 1)%Z)
                                       comments)
                                    (len comments) * of_int 100)%float
                          else PyInt 0) 2);
                  comment_velocity := to_float v;
                  unique_authors := distinct_authors comments;
                  suspicious_accounts :=
                    count_if
                      (fun c => (0.6 <? spam_score (abuse c))%float)
                      comments;
                  bot_likelihood_score :=
                    detect_coordinated_activity comments |} ])
    end.
Proof.
  unfold store_abuse_metrics.
  destruct (calculate_velocity_metrics fromisoformat comments);
    reflexivity.
Qed.

Lemma distinct_authors_bounds (comments : list comment) :
  0 <= distinct_authors comments <= len comments /\
  (comments <> [] -> 1 <= distinct_authors comments).
Proof.
  unfold distinct_authors, len.
  pose proof (distinct_length_le (map author_channel_id comments)) as Hle.
  rewrite length_map in Hle. split; [lia|].
  intros Hne.
  assert (Hm : map author_channel_id comments <> [])
    by (destruct comments; [congruence | discriminate]).
  pose proof (distinct_nonempty _ Hm). lia.
Qed.

(** X19: [store_abuse_metrics] raises exactly what the velocity
    computation raises and then writes nothing; otherwise it appends one
    row and keeps the rows already there.  The row carries the video id,
    the time, the number of comments and the velocity as a float (the
    column is [REAL]); its counts of spam
    comments, suspicious accounts and distinct authors are between 0 and
    the number of comments, and a batch that is not empty has at least
    one author. *)
Theorem store_abuse_metrics_outcome
  (fromisoformat : string -> option datetime) (db : list metrics_row)
  (now vid : string) (comments : list comment) :
  (forall e,
     calculate_velocity_metrics fromisoformat comments = inl e <->
     store_abuse_metrics fromisoformat db now vid comments = inl e) /\
  (forall v,
     calculate_velocity_metrics fromisoformat comments = inr v ->
     exists row,
       store_abuse_metrics fromisoformat db now vid comments
       = inr (db ++ [row]) /\
       metric_video_id row = vid /\ timestamp row = now /\
       total_comments row = len comments /\
       comment_velocity row = to_float v /\
       0 <= spam_comments row <= total_comments row /\
       0 <= suspicious_accounts row <= total_comments row /\
       0 <= unique_authors row <= total_comments row /\
       (comments <> [] -> 1 <= unique_authors row)).
Proof.
  rewrite store_abuse_metrics_shape.
  destruct (calculate_velocity_metrics fromisoformat comments) as [e0|v0].
  - split; [intros e; split; intros [= ->]; reflexivity
            | intros v; discriminate].
  - split; [intros e; split; discriminate|].
    intros v [= <-]. eexists. split; [reflexivity|].
    cbn [metric_video_id timestamp total_comments comment_velocity
         spam_comments suspicious_accounts unique_authors].
    destruct (distinct_authors_bounds comments) as [Hu Hne].
    repeat split; trivial;
      try apply count_if_nonneg; try apply count_if_le_len; lia.
Qed.

(* ================================================================== *)
(** ** Fetched comments                                                 *)
(* ================================================================== *)

Lemma distinct_constant (a : string) (l : list string) :
  l <> [] -> (forall x, In x l -> x = a) -> distinct l = [a].
Proof.
  induction l as [|x l IH]; [congruence|]. intros _ H.
  assert (Hx : x = a) by (apply H; now left). subst x.
  destruct l as [|y l]; [reflexivity|].
  assert (Hy : y = a) by (apply H; right; now left). subst y.
  change (distinct (a :: a :: l))
    with (if existsb (py_eqb a) (a :: l)
          then distinct (a :: l) else a :: distinct (a :: l)).
  cbn [existsb]. rewrite py_eqb_refl. cbn [orb].
  apply IH; [discriminate|]. intros z Hz. apply H. now right.
Qed.

(** X22: when no item of a response that is not empty names its author's
    channel, every comment gets the author id [unknown], and the batch
    counts exactly one distinct author. *)
Theorem anonymous_authors_collapse (items : list api_comment)
  (vid : string) :
  items <> [] ->
  (forall item, In item items ->
     authorChannelId item = None \/ authorChannelId item = Some None) ->
  let comments := get_video_comments (Response (Some items)) vid in
  (forall c, In c comments -> author_channel_id c = "unknown") /\
  distinct_authors comments = 1.
Proof.
  intros Hne Hanon comments.
  assert (Hall : forall c, In c comments -> author_channel_id c = "unknown").
  { intros c Hc. unfold comments in Hc. simpl in Hc.
    apply in_map_iff in Hc. destruct Hc as (item & <- & Hin).
    simpl. unfold author_of.
    destruct (Hanon item Hin) as [-> | ->]; reflexivity. }
  split; [exact Hall|].
  unfold distinct_authors.
  rewrite (distinct_constant "unknown"); [reflexivity | |].
  - unfold comments. simpl. destruct items; [congruence | discriminate].
  - intros x Hx. apply in_map_iff in Hx. destruct Hx as (c & <- & Hc).
    now apply Hall.
Qed.

Lemma anonymous_authors_collapse_witness :
  distinct_authors (get_video_comments good_response "v1") = 1.
Proof.
  apply (anonymous_authors_collapse
           [ sample_item "c1" "hello" "2024-01-01T12:00:00Z";
             sample_item "c2" "www.spam.com" "2024-01-01T12:02:00Z";
             sample_item "c1" "edited" "2024-01-01T12:04:00Z" ] "v1").
  - discriminate.
  - intros item [<- | [<- | [<- | []]]]; now left.
Defined.

(* ================================================================== *)
(** ** The main loop                                                    *)
(* ================================================================== *)

Lemma last_wins_tail (c0 : comment) (comments : list comment)
  (c : comment) :
  In c (last_wins comments) -> In c (last_wins (c0 :: comments)).
Proof.
  intros H. simpl. destruct (existsb _ comments); [exact H | now right].
Qed.

(** Every id of the batch is the id of a comment that stays. *)
Lemma every_id_has_last (comments : list comment) (c : comment) :
  In c comments ->
  exists c', In c' (last_wins comments) /\ comment_id c' = comment_id c.
Proof.
  revert c. induction comments as [|c0 comments IH]; intros c; [intros []|].
  intros [<- | Hc].
  - destruct (existsb (fun c' => String.eqb (comment_id c') (comment_id c0))
                comments) eqn:E.
    + apply existsb_exists in E. destruct E as (y & Hy & Heq).
      apply String.eqb_eq in Heq.
      destruct (IH y Hy) as (c' & Hc' & Hid).
      exists c'. split; [now apply last_wins_tail | congruence].
    + exists c0. split; [|reflexivity]. simpl. rewrite E. now left.
  - destruct (IH c Hc) as (c' & Hc' & Hid).
    exists c'. split; [now apply last_wins_tail | exact Hid].
Qed.

Section MainLoop.

Variable fromisoformat : string -> option datetime.
Variable clock : nat -> string.

(** The body of the loop, case by case. *)
Lemma process_video_shape (db : database) (video : video_data)
  (response : api_response) :
  let vid := vd_video_id video in
  let comments := get_video_comments response vid in
  let db1 := store_video_data clock db video in
  let db2 := store_comments clock db1 comments in
  process_video fromisoformat clock db video response
  = match comments with
    | [] => (db1, inr None)
    | _ =>
        match calculate_velocity_metrics fromisoformat comments with
        | inl e => (db2, inl e)
        | inr v =>
            match store_abuse_metrics fromisoformat (abuse_metrics db2)
                    (clock (ticks db2)) vid comments with
            | inl e => (db2, inl e)
            | inr table =>
                ({| videos := videos db2;
                    comments_table := comments_table db2;
                    abuse_metrics := table;
                    ticks := S (ticks db2) |},
                 inr (Some
                        {| analyzed := len comments;
                           spam_detected :=
                             count_if (fun c => is_spam (abuse c) =? 1)
                               comments;
                           velocity := v;
                           high_velocity_alert :=
                             num_gt v Config.BOT_VELOCITY |}))
            end
        end
    end.
Proof.
  cbv zeta. unfold process_video.
  destruct (get_video_comments response (vd_video_id video)) as [|c cs];
    [reflexivity|].
  unfold store_abuse_metrics_in. rewrite store_abuse_metrics_shape.
  destruct (calculate_velocity_metrics fromisoformat (c :: cs));
    reflexivity.
Qed.

Lemma process_video_failure (db : database) (video : video_data)
  (response : api_response) (e : pyerr) :
  calculate_velocity_metrics fromisoformat
    (get_video_comments response (vd_video_id video)) = inl e ->
  process_video fromisoformat clock db video response
  = (store_comments clock (store_video_data clock db video)
       (get_video_comments response (vd_video_id video)), inl e).
Proof.
  intros H. rewrite process_video_shape. cbv zeta. rewrite H.
  destruct (get_video_comments response (vd_video_id video));
    [discriminate | reflexivity].
Qed.

(** What a successful pass of the body does to the metrics. *)
Lemma process_video_success (db db' : database) (video : video_data)
  (response : api_response) (r : option report) :
  process_video fromisoformat clock db video response = (db', inr r) ->
  (get_video_comments response (vd_video_id video) = [] /\
   r = None /\ abuse_metrics db' = abuse_metrics db) \/
  (get_video_comments response (vd_video_id video) <> [] /\
   (exists x, r = Some x) /\
   exists row,
     abuse_metrics db' = abuse_metrics db ++ [row] /\
     metric_video_id row = vd_video_id video).
Proof.
  rewrite process_video_shape. cbv zeta.
  destruct (get_video_comments response (vd_video_id video))
    as [|c cs] eqn:E.
  - intros [= <- <-]. left. auto.
  - rewrite store_abuse_metrics_shape.
    destruct (store_comments_frame clock (store_video_data clock db video)
                (c :: cs)) as (_ & Hm & _).
    rewrite Hm.
    destruct (calculate_velocity_metrics fromisoformat (c :: cs));
      [discriminate|].
    intros [= <- <-]. right. split; [discriminate|].
    split; [eauto|]. eexists. split; reflexivity.
Qed.

Lemma main_loop_app (db : database)
  (work1 work2 : list (video_data * api_response)) :
  main_loop fromisoformat clock db (work1 ++ work2)
  = match main_loop fromisoformat clock db work1 with
    | (db1, inl e) => (db1, inl e)
    | (db1, inr rs1) =>
        match main_loop fromisoformat clock db1 work2 with
        | (db2, inl e) => (db2, inl e)
        | (db2, inr rs2) => (db2, inr (rs1 ++ rs2))
        end
    end.
Proof.
  revert db. induction work1 as [|[video response] work1 IH]; intros db.
  - simpl. destruct (main_loop fromisoformat clock db work2) as [db2 [e|rs]];
      reflexivity.
  - simpl.
    destruct (process_video fromisoformat clock db video response)
      as [db' [e|r]]; [reflexivity|].
    rewrite IH.
    destruct (main_loop fromisoformat clock db' work1) as [db1 [e|rs1]];
      [reflexivity|].
    destruct (main_loop fromisoformat clock db1 work2) as [db2 [e|rs2]];
      reflexivity.
Qed.

End MainLoop.

(** X23: when the velocity computation raises on the comments fetched for
    a video (two or more comments, one timestamp refused or the kinds
    mixed), the pass of the loop ends with that exception after the video
    and the comments have been stored: every id of the batch is in the
    comments table, and no row of metrics has been written. *)
Theorem process_video_partial_failure
  (fromisoformat : string -> option datetime) (clock : nat -> string)
  (db : database) (video : video_data) (response : api_response)
  (e : pyerr) :
  let comments := get_video_comments response (vd_video_id video) in
  calculate_velocity_metrics fromisoformat comments = inl e ->
  exists db',
    process_video fromisoformat clock db video response = (db', inl e) /\
    abuse_metrics db' = abuse_metrics db /\
    In (video, clock (ticks db)) (videos db') /\
    (forall c, In c comments ->
       exists c', In c' (map fst (comments_table db')) /\
                  comment_id c' = comment_id c) /\
    2 <= len comments.
Proof.
  intros comments H.
  exists (store_comments clock (store_video_data clock db video) comments).
  split; [now apply process_video_failure|].
  destruct (store_comments_frame clock (store_video_data clock db video)
              comments) as (Hv & Hm & _).
  split; [now rewrite Hm|]. split.
  - rewrite Hv. simpl. unfold insert_or_replace.
    apply in_app_iff. right. now left.
  - split.
    + intros c Hc. destruct (every_id_has_last comments c Hc)
        as (c' & Hc' & Hid).
      exists c'. split; [|exact Hid].
      rewrite store_comments_plain, plain_fold_shape.
      apply in_app_iff. now right.
    + destruct (Z.ltb_spec (len comments) 2) as [Hlt|Hge]; [|exact Hge].
      rewrite (velocity_short fromisoformat comments Hlt) in H.
      discriminate.
Qed.

Lemma process_video_partial_failure_witness :
  exists db',
    process_video Iso.fromisoformat sample_clock empty_database
      sample_video broken_response = (db', inl ValueError) /\
    abuse_metrics db' = [].
Proof.
  destruct (process_video_partial_failure Iso.fromisoformat sample_clock
              empty_database sample_video broken_response ValueError)
    as (db' & H & Hm & _).
  - vm_compute. reflexivity.
  - exists db'. split; [exact H | exact Hm].
Defined.

(** X24: the loop stops at the first video whose pass raises: the videos
    after it are never stored, and the run ends with the exception and
    the database as that pass left it. *)
Theorem main_loop_stops_at_failure
  (fromisoformat : string -> option datetime) (clock : nat -> string)
  (db db1 db2 : database)
  (done rest : list (video_data * api_response))
  (video : video_data) (response : api_response)
  (reports : list (option report)) (e : pyerr) :
  main_loop fromisoformat clock db done = (db1, inr reports) ->
  process_video fromisoformat clock db1 video response = (db2, inl e) ->
  main_loop fromisoformat clock db (done ++ (video, response) :: rest)
  = (db2, inl e).
Proof.
  intros Hdone Hfail. rewrite main_loop_app, Hdone.
  simpl. now rewrite Hfail.
Qed.

Lemma main_loop_stops_at_failure_witness :
  exists db2,
    main_loop Iso.fromisoformat sample_clock empty_database
      ([(sample_video, good_response)]
       ++ (second_video, broken_response)
       :: [(sample_video, good_response)])
    = (db2, inl ValueError).
Proof.
  assert (E1 : exists db1 reports,
            main_loop Iso.fromisoformat sample_clock empty_database
              [(sample_video, good_response)] = (db1, inr reports))
    by (do 2 eexists; vm_compute; reflexivity).
  destruct E1 as (db1 & reports & E1).
  assert (E2 : exists db2,
            process_video Iso.fromisoformat sample_clock
              (fst (main_loop Iso.fromisoformat sample_clock empty_database
                      [(sample_video, good_response)]))
              second_video broken_response = (db2, inl ValueError))
    by (eexists; vm_compute; reflexivity).
  destruct E2 as (db2 & E2). rewrite E1 in E2. simpl in E2.
  exists db2.
  exact (main_loop_stops_at_failure Iso.fromisoformat sample_clock
           empty_database db1 db2 [(sample_video, good_response)]
           [(sample_video, good_response)] second_video broken_response
           reports ValueError E1 E2).
Defined.

(** X25: a run of the loop that ends without exception only appends to
    [abuse_metrics]: the rows present before are kept in place, and one
    row is added for each video that had comments, none for the
    others. *)
Theorem main_loop_appends_metrics
  (fromisoformat : string -> option datetime) (clock : nat -> string)
  (work : list (video_data * api_response))
  (db db' : database) (reports : list (option report)) :
  main_loop fromisoformat clock db work = (db', inr reports) ->
  List.length reports = List.length work /\
  Forall2 (fun w r =>
             r = None <->
             get_video_comments (snd w) (vd_video_id (fst w)) = [])
          work reports /\
  exists rows,
    abuse_metrics db' = abuse_metrics db ++ rows /\
    len rows = reports_made reports.
Proof.
  revert db db' reports.
  induction work as [|[video response] work IH]; intros db db' reports.
  - simpl. intros [= <- <-]. split; [reflexivity|]. split; [constructor|].
    exists []. now rewrite app_nil_r.
  - simpl.
    destruct (process_video fromisoformat clock db video response)
      as [db1 [e|r]] eqn:E1; [discriminate|].
    destruct (main_loop fromisoformat clock db1 work) as [db2 [e|rs]] eqn:E2;
      [discriminate|].
    intros [= <- <-].
    destruct (IH db1 db2 rs E2) as (Hlen & Hall & rows & Hrows & Hcount).
    pose proof (process_video_success fromisoformat clock db db1 video
                  response r E1) as Hstep.
    split; [simpl; now rewrite Hlen|]. split.
    + constructor; [|exact Hall]. simpl.
      destruct Hstep as [(Hc & -> & _) | (Hc & (x & ->) & _)];
        split; intros H; try reflexivity; try assumption;
        try discriminate; contradiction.
    + destruct Hstep as [(_ & -> & Hm) | (_ & (x & ->) & row & Hm & _)].
      * exists rows. rewrite Hrows, Hm. split; [reflexivity|].
        unfold reports_made in *. cbn [count_if]. lia.
      * exists (row :: rows). rewrite Hrows, Hm, <- app_assoc.
        split; [reflexivity|].
        unfold reports_made, len in *. cbn [count_if].
        change (List.length (row :: rows)) with (S (List.length rows)).
        lia.
Qed.

Lemma main_loop_appends_metrics_witness :
  exists db' reports,
    main_loop Iso.fromisoformat sample_clock empty_database
      [(sample_video, good_response); (second_video, HttpError 403)]
    = (db', inr reports) /\
    List.length reports = 2%nat.
Proof.
  assert (E : exists db' reports,
            main_loop Iso.fromisoformat sample_clock empty_database
              [(sample_video, good_response); (second_video, HttpError 403)]
            = (db', inr reports))
    by (do 2 eexists; vm_compute; reflexivity).
  destruct E as (db' & reports & E). exists db', reports.
  split; [exact E|].
  apply (main_loop_appends_metrics Iso.fromisoformat sample_clock
           [(sample_video, good_response); (second_video, HttpError 403)]
           empty_database db' reports E).
Defined.

(* ================================================================== *)
(** ** Bursts in the velocity report                                    *)
(* ================================================================== *)

Lemma velocity_same_instant
  (fromisoformat : string -> option datetime) (comments : list comment)
  (s : string) (d : datetime) :
  2 <= len comments ->
  Forall (fun c => published_at c = s) comments ->
  fromisoformat (replace "Z" "+00:00" s) = Some d ->
  calculate_velocity_metrics fromisoformat comments
  = inr (PyInt (len comments)).
Proof.
  intros Hlen Hall Hd.
  rewrite (velocity_long fromisoformat comments
             (repeat d (List.length comments))
             (repeat d (List.length comments)) Hlen).
  - now rewrite window_of_copies.
  - now apply parse_timestamps_same with (s := s).
  - unfold list_sort. now rewrite same_kind_repeat, sorted_copy_repeat.
Qed.

Lemma burst_labels_checked :
  forallb (fun n =>
    in_velocity_report (of_int n) &&
    String.eqb (threat_assessment (of_int n)) (threat_of_count n))
    burst_sizes = true.
Proof. vm_cast_no_check (eq_refl true). Qed.

(** X26: a batch of 2 to 100 comments that all carry one timestamp is
    stored with its size as velocity, so the velocity report lists it and
    labels it by the size alone: more than 10 comments sharing a
    timestamp are reported as a likely bot attack (and raise the alert of
    [main]), 6 to 10 as suspicious, up to 5 as normal. *)
Theorem same_instant_burst_threat
  (fromisoformat : string -> option datetime) (comments : list comment)
  (s : string) (d : datetime) :
  2 <= len comments <= MAX_COMMENTS_PER_VIDEO ->
  Forall (fun c => published_at c = s) comments ->
  fromisoformat (replace "Z" "+00:00" s) = Some d ->
  let v := PyInt (len comments) in
  calculate_velocity_metrics fromisoformat comments = inr v /\
  in_velocity_report (to_float v) = true /\
  threat_assessment (to_float v) = threat_of_count (len comments) /\
  num_gt v Config.BOT_VELOCITY = (10 <? len comments).
Proof.
  intros Hlen Hall Hd v.
  split; [apply (velocity_same_instant _ _ s d); tauto|].
  pose proof burst_labels_checked as H.
  rewrite forallb_forall in H.
  assert (Hin : In (len comments) burst_sizes).
  { apply range_spec. unfold MAX_COMMENTS_PER_VIDEO in *. lia. }
  specialize (H _ Hin). apply andb_true_iff in H. destruct H as [H1 H2].
  apply String.eqb_eq in H2.
  split; [exact H1|]. split; [exact H2 | reflexivity].
Qed.

Lemma same_instant_burst_threat_witness :
  threat_assessment
    (to_float
       (PyInt (len (repeat
                      (sample_comment "UC1" "hello" "2024-01-01T12:00:00Z")
                      11))))
  = "CRITICAL - Likely Bot Attack".
Proof.
  apply (same_instant_burst_threat Iso.fromisoformat
           (repeat (sample_comment "UC1" "hello" "2024-01-01T12:00:00Z") 11)
           "2024-01-01T12:00:00Z"
           {| wall_us := 63839707200000000; utcoffset := Some 0 |}).
  - vm_compute. split; discriminate.
  - simpl. repeat constructor.
  - vm_compute. reflexivity.
Defined.
